(** * AI study-advisor database service: a shallow embedding

    The development follows [src/app.py] (the Flask persistence service
    and its [DatabaseManager]) and [src/database_client.py] (the HTTP
    client wrapper).  Python values, the JSON codec, the SQLite tables
    touched by the handlers, the backup directory and the HTTP transport
    are modelled as ordinary data; every handler is a function from the
    state of the world and a request to a response and a new state.

    Part I holds the definitions, Part II the lemmas and theorems. *)

From Stdlib Require Import ZArith NArith Lia Ascii String.
From stdpp Require Import base option list sorting finite gmap vector.

Local Open Scope N_scope.

(* ===================================================================== *)
(** * Part I: definitions *)
(* ===================================================================== *)

(** ** Python strings

    A Python [str] is a sequence of code points.  Literals of the source
    are written as Rocq strings and injected with [py]. *)

Definition str := list N.

Definition py (s : string) : str := N_of_ascii <$> list_ascii_of_string s.

Fixpoint str_eqb (a b : str) : bool :=
  match a, b with
  | [], [] => true
  | x :: a', y :: b' => (x =? y) && str_eqb a' b'
  | _, _ => false
  end.

(** [a <= b] on [str]: lexicographic by code point, as Python compares. *)
Fixpoint str_leb (a b : str) : bool :=
  match a, b with
  | [], _ => true
  | _ :: _, [] => false
  | x :: a', y :: b' =>
      if x <? y then true else if x =? y then str_leb a' b' else false
  end.

Definition str_le (a b : str) : Prop := Is_true (str_leb a b).

(** [a < b] on [str] *)
Definition str_lt (a b : str) : Prop := str_leb b a = false.

(** [s.startswith(prefix)] *)
Fixpoint startswith (s prefix : str) : bool :=
  match prefix, s with
  | [], _ => true
  | _ :: _, [] => false
  | p :: prefix', c :: s' => (c =? p) && startswith s' prefix'
  end.

(** [needle in s] for two strings *)
Fixpoint is_substring (needle s : str) : bool :=
  startswith s needle ||
  match s with
  | [] => false
  | _ :: s' => is_substring needle s'
  end.

(** [sep.join(parts)] *)
Fixpoint join (sep : str) (parts : list str) : str :=
  match parts with
  | [] => []
  | [p] => p
  | p :: rest => p ++ sep ++ join sep rest
  end.

(** Decimal rendering of an integer, [str(n)]. *)
Definition digit_char (d : N) : N := 48 + d.

Fixpoint dec_digits (fuel : nat) (n : N) (acc : str) : str :=
  match fuel with
  | O => acc
  | S fuel' =>
      let acc' := digit_char (n mod 10) :: acc in
      if n / 10 =? 0 then acc' else dec_digits fuel' (n / 10) acc'
  end.

Definition str_of_N (n : N) : str := dec_digits (S (N.to_nat (N.log2 n))) n [].

Definition str_of_Z (z : Z) : str :=
  match z with
  | Zneg p => 45 :: str_of_N (Npos p)
  | _ => str_of_N (Z.to_N z)
  end.

(** Zero-padded decimal of fixed width, as [%02d] or [%04d]. *)
Fixpoint pad_digits (width : nat) (n : N) (acc : str) : str :=
  match width with
  | O => acc
  | S w => pad_digits w (n / 10) (digit_char (n mod 10) :: acc)
  end.

Definition zfill (width : nat) (n : N) : str := pad_digits width n [].

(** A Unicode scalar value: a code point that is not a surrogate. *)
Definition is_scalar (c : N) : Prop := c < 55296 ∨ 57344 <= c < 1114112.

(** A well-formed Unicode text. *)
Definition unicode_text (s : str) : Prop := Forall is_scalar s.

(** ** Python values

    The values a JSON document decodes to.  A float is kept as the
    literal that denotes it: no floating-point arithmetic is modelled.
    A [dict] is an association list in insertion order with distinct
    keys. *)

#[warnings="-register-all"]
Inductive pyval :=
| PNone
| PBool (b : bool)
| PInt (z : Z)
| PFloat (lit : str)
| PStr (s : str)
| PList (l : list pyval)
| PDict (d : list (str * pyval)).

Fixpoint assoc {A} (k : str) (d : list (str * A)) : option A :=
  match d with
  | [] => None
  | (k', v) :: d' => if str_eqb k k' then Some v else assoc k d'
  end.

(** [d[k] = v] on a dict: replaces in place or appends. *)
Fixpoint dict_set {A} (k : str) (v : A) (d : list (str * A)) : list (str * A) :=
  match d with
  | [] => [(k, v)]
  | (k', v') :: d' =>
      if str_eqb k k' then (k', v) :: d' else (k', v') :: dict_set k v d'
  end.

Definition dict_of_pairs {A} (ps : list (str * A)) : list (str * A) :=
  foldl (λ d kv, dict_set kv.1 kv.2 d) [] ps.

(** The part of a float literal before its exponent. *)
Fixpoint mantissa (lit : str) : str :=
  match lit with
  | [] => []
  | c :: r => if (c =? 101) || (c =? 69) then [] else c :: mantissa r
  end.

(** Truth value of an object, as tested by [if x:] and [x or y].  A
    float is false when it is zero: its literal is not [NaN] or an
    infinity and has no digit other than [0] before the exponent (a
    literal that underflows to zero is not recognised as such). *)
Definition truthy (v : pyval) : bool :=
  match v with
  | PNone => false
  | PBool b => b
  | PInt z => negb (Z.eqb z 0)
  | PFloat lit =>
      existsb (λ c, (49 <=? c) && (c <=? 57) || (c =? 78) || (c =? 73)) (mantissa lit)
  | PStr [] | PList [] | PDict [] => false
  | PStr _ | PList _ | PDict _ => true
  end.

(** ** The JSON codec ([json.dumps] and [json.loads] with their defaults) *)

Module Json.

Definition QUOTE : N := 34.
Definition BACKSLASH : N := 92.

Definition hex_digit (d : N) : N := if d <? 10 then 48 + d else 87 + d.

(** ['\\u{0:04x}'.format(c)] for [c < 0x10000] *)
Definition u_escape (c : N) : str :=
  [BACKSLASH; 117; hex_digit (c / 4096); hex_digit ((c / 256) mod 16);
   hex_digit ((c / 16) mod 16); hex_digit (c mod 16)].

(** One character of [encode_basestring_ascii] ([ensure_ascii=True]). *)
Definition escape_char (c : N) : str :=
  if c =? QUOTE then [BACKSLASH; QUOTE]
  else if c =? BACKSLASH then [BACKSLASH; BACKSLASH]
  else if c =? 10 then [BACKSLASH; 110]
  else if c =? 13 then [BACKSLASH; 114]
  else if c =? 9 then [BACKSLASH; 116]
  else if c =? 12 then [BACKSLASH; 102]
  else if c =? 8 then [BACKSLASH; 98]
  else if (32 <=? c) && (c <=? 126) then [c]
  else if c <? 65536 then u_escape c
  else
    let v := c - 65536 in
    u_escape (55296 + (v / 1024) mod 1024) ++ u_escape (56320 + v mod 1024).

Definition encode_string (s : str) : str :=
  QUOTE :: concat (escape_char <$> s) ++ [QUOTE].

Fixpoint dumps (v : pyval) : str :=
  match v with
  | PNone => py "null"
  | PBool true => py "true"
  | PBool false => py "false"
  | PInt z => str_of_Z z
  | PFloat lit => lit
  | PStr s => encode_string s
  | PList l =>
      91 :: join (py ", ") ((fix each (l : list pyval) : list str :=
               match l with [] => [] | x :: l' => dumps x :: each l' end) l)
         ++ [93]
  | PDict d =>
      123 :: join (py ", ") ((fix each (d : list (str * pyval)) : list str :=
               match d with
               | [] => []
               | (k, x) :: d' => (encode_string k ++ py ": " ++ dumps x) :: each d'
               end) d)
          ++ [125]
  end.

(** *** Decoding *)

Definition is_ws (c : N) : bool :=
  (c =? 32) || (c =? 9) || (c =? 10) || (c =? 13).

Fixpoint skip_ws (s : str) : str :=
  match s with
  | c :: r => if is_ws c then skip_ws r else s
  | [] => []
  end.

Definition hex_value (c : N) : option N :=
  if (48 <=? c) && (c <=? 57) then Some (c - 48)
  else if (97 <=? c) && (c <=? 102) then Some (c - 87)
  else if (65 <=? c) && (c <=? 70) then Some (c - 55)
  else None.

Definition hex4 (a b c d : N) : option N :=
  x3 ← hex_value a; x2 ← hex_value b; x1 ← hex_value c; x0 ← hex_value d;
  Some (((x3 * 16 + x2) * 16 + x1) * 16 + x0).

Definition is_high_surrogate (u : N) : bool := (55296 <=? u) && (u <=? 56319).
Definition is_low_surrogate (u : N) : bool := (56320 <=? u) && (u <=? 57343).

Definition single_escape (e : N) : option N :=
  if e =? QUOTE then Some QUOTE
  else if e =? BACKSLASH then Some BACKSLASH
  else if e =? 47 then Some 47
  else if e =? 98 then Some 8
  else if e =? 102 then Some 12
  else if e =? 110 then Some 10
  else if e =? 114 then Some 13
  else if e =? 116 then Some 9
  else None.

Definition push (c : N) (r : option (str * str)) : option (str * str) :=
  '(t, rest) ← r; Some (c :: t, rest).

(** [scanstring] in strict mode, started after the opening quote:
    the decoded string and the text after the closing quote. *)
Fixpoint scanstring (s : str) : option (str * str) :=
  match s with
  | [] => None
  | c :: r =>
      if c =? QUOTE then Some ([], r)
      else if c =? BACKSLASH then
        match r with
        | [] => None
        | e :: r1 =>
            if e =? 117 then
              match r1 with
              | a :: b :: c' :: d :: r2 =>
                  match hex4 a b c' d with
                  | None => None
                  | Some u =>
                      if is_high_surrogate u then
                        match r2 with
                        | bs :: uu :: a2 :: b2 :: c2 :: d2 :: r3 =>
                            if (bs =? BACKSLASH) && (uu =? 117) then
                              match hex4 a2 b2 c2 d2 with
                              | Some u2 =>
                                  if is_low_surrogate u2
                                  then push (65536 + ((u - 55296) * 1024 + (u2 - 56320)))
                                            (scanstring r3)
                                  else push u (scanstring r2)
                              | None => push u (scanstring r2)
                              end
                            else push u (scanstring r2)
                        | _ => push u (scanstring r2)
                        end
                      else push u (scanstring r2)
                  end
              | _ => None
              end
            else
              match single_escape e with
              | Some x => push x (scanstring r1)
              | None => None
              end
        end
      else if c <? 32 then None
      else push c (scanstring r)
  end.

Definition is_digit (c : N) : bool := (48 <=? c) && (c <=? 57).

(** The longest run of ASCII digits at the head of [s]. *)
Fixpoint span_digits (s : str) : str * str :=
  match s with
  | c :: r => if is_digit c then let '(ds, rest) := span_digits r in (c :: ds, rest)
              else ([], s)
  | [] => ([], [])
  end.

Definition Z_of_digits (ds : str) : Z :=
  foldl (λ acc c, acc * 10 + Z.of_N (c - 48))%Z 0%Z ds.

(** The integer part [0|[1-9][0-9]*] of a number. *)
Definition scan_int_part (s : str) : option (str * str) :=
  match s with
  | c :: r =>
      if c =? 48 then Some ([48], r)
      else if is_digit c then let '(ds, rest) := span_digits r in Some (c :: ds, rest)
      else None
  | [] => None
  end.

(** The optional fraction [\.[0-9]+]. *)
Definition scan_frac (s : str) : str * str :=
  match s with
  | c :: r =>
      if c =? 46 then
        match span_digits r with
        | ([], _) => ([], s)
        | (ds, rest) => (c :: ds, rest)
        end
      else ([], s)
  | [] => ([], [])
  end.

(** The optional exponent [[eE][-+]?[0-9]+]. *)
Definition scan_exp (s : str) : str * str :=
  match s with
  | c :: r =>
      if (c =? 101) || (c =? 69) then
        match r with
        | sg :: r1 =>
            if (sg =? 45) || (sg =? 43) then
              match span_digits r1 with
              | ([], _) => ([], s)
              | (ds, rest) => (c :: sg :: ds, rest)
              end
            else
              match span_digits r with
              | ([], _) => ([], s)
              | (ds, rest) => (c :: ds, rest)
              end
        | [] => ([], s)
        end
      else ([], s)
  | [] => ([], [])
  end.

Definition scan_number (neg : bool) (s : str) : option (pyval * str) :=
  '(ip, r) ← scan_int_part s;
  let '(fp, r1) := scan_frac r in
  let '(ep, r2) := scan_exp r1 in
  let sign := if neg then [45] else [] in
  match fp, ep with
  | [], [] => Some (PInt (if neg then - Z_of_digits ip else Z_of_digits ip)%Z, r2)
  | _, _ => Some (PFloat (sign ++ ip ++ fp ++ ep), r2)
  end.

(** [strip_prefix p s] is the rest of [s] after the literal [p]. *)
Fixpoint strip_prefix (p s : str) : option str :=
  match p, s with
  | [], _ => Some s
  | _ :: _, [] => None
  | x :: p', c :: s' => if c =? x then strip_prefix p' s' else None
  end.

Definition scan_literal (s : str) : option (pyval * str) :=
  match strip_prefix (py "null") s with
  | Some r => Some (PNone, r)
  | None =>
  match strip_prefix (py "true") s with
  | Some r => Some (PBool true, r)
  | None =>
  match strip_prefix (py "false") s with
  | Some r => Some (PBool false, r)
  | None =>
  match strip_prefix (py "NaN") s with
  | Some r => Some (PFloat (py "NaN"), r)
  | None =>
  match strip_prefix (py "Infinity") s with
  | Some r => Some (PFloat (py "Infinity"), r)
  | None =>
  match strip_prefix (py "-Infinity") s with
  | Some r => Some (PFloat (py "-Infinity"), r)
  | None =>
  match s with
  | c :: r => if c =? 45 then scan_number true r else scan_number false s
  | [] => None
  end end end end end end end.

(** [scan_once]: one value at the head of the text.  The recursion
    follows the nesting of arrays and objects; [fuel] bounds it. *)
Fixpoint scan_once (fuel : nat) (s : str) : option (pyval * str) :=
  match fuel with
  | O => None
  | S fuel' =>
      match s with
      | [] => None
      | c :: r =>
          if c =? QUOTE then '(t, r') ← scanstring r; Some (PStr t, r')
          else if c =? 91 then
            match skip_ws r with
            | c1 :: r1 =>
                if c1 =? 93 then Some (PList [], r1)
                else '(vs, r') ← scan_items fuel' (c1 :: r1); Some (PList vs, r')
            | [] => None
            end
          else if c =? 123 then
            match skip_ws r with
            | c1 :: r1 =>
                if c1 =? 125 then Some (PDict [], r1)
                else '(ps, r') ← scan_members fuel' (c1 :: r1);
                     Some (PDict (dict_of_pairs ps), r')
            | [] => None
            end
          else scan_literal s
      end
  end
with scan_items (fuel : nat) (s : str) : option (list pyval * str) :=
  match fuel with
  | O => None
  | S fuel' =>
      '(v, r) ← scan_once fuel' s;
      match skip_ws r with
      | c :: r1 =>
          if c =? 93 then Some ([v], r1)
          else if c =? 44 then
            '(vs, r') ← scan_items fuel' (skip_ws r1); Some (v :: vs, r')
          else None
      | [] => None
      end
  end
with scan_members (fuel : nat) (s : str) : option (list (str * pyval) * str) :=
  match fuel with
  | O => None
  | S fuel' =>
      match s with
      | q :: r0 =>
          if q =? QUOTE then
            '(k, r) ← scanstring r0;
            match skip_ws r with
            | colon :: r1 =>
                if colon =? 58 then
                  '(v, r2) ← scan_once fuel' (skip_ws r1);
                  match skip_ws r2 with
                  | c :: r3 =>
                      if c =? 125 then Some ([(k, v)], r3)
                      else if c =? 44 then
                        '(ps, r') ← scan_members fuel' (skip_ws r3);
                        Some ((k, v) :: ps, r')
                      else None
                  | [] => None
                  end
                else None
            | [] => None
            end
          else None
      | [] => None
      end
  end.

(** [json.loads(s)]: [None] stands for a raised [JSONDecodeError]. *)
Definition loads (s : str) : option pyval :=
  '(v, r) ← scan_once (S (length s)) (skip_ws s);
  match skip_ws r with
  | [] => Some v
  | _ :: _ => None
  end.

End Json.

(** ** Exceptions and results

    Every class below derives from [Exception]; [BaseException]-only
    signals (interrupts, interpreter exit) are not part of the model. *)

Inductive exn_class :=
| KeyError | TypeError | AttributeError | ValueError | NameError
| OverflowError | OSError
| IntegrityError | ProgrammingError | OperationalError
| RequestException | ConnectionError | HTTPError | Timeout
| RequestsJSONDecodeError.

(** An exception instance: its class and [str(e)]. *)
Record exn := mk_exn { exn_cls : exn_class; exn_msg : str }.

(** [isinstance(e, requests.exceptions.RequestException)] *)
Definition is_RequestException (e : exn) : bool :=
  match exn_cls e with
  | RequestException | ConnectionError | HTTPError | Timeout
  | RequestsJSONDecodeError => true
  | _ => false
  end.

Inductive result (A : Type) :=
| Ok (a : A)
| Raise (e : exn).
Arguments Ok {A} a.
Arguments Raise {A} e.

Global Instance result_ret : MRet result := λ A a, Ok a.
Global Instance result_bind : MBind result := λ A B f m,
  match m with
  | Ok a => f a
  | Raise e => Raise e
  end.

Definition raise {A} (c : exn_class) (msg : string) : result A :=
  Raise (mk_exn c (py msg)).

(** ** Operations on request bodies *)

(** [data[key]] *)
Definition py_getitem (data : pyval) (key : str) : result pyval :=
  match data with
  | PDict d =>
      match assoc key d with
      | Some v => Ok v
      | None => Raise (mk_exn KeyError key)
      end
  | PList _ | PStr _ => raise TypeError "indices must be integers"
  | _ => raise TypeError "object is not subscriptable"
  end.

(** [data.get(key, default)] *)
Definition py_get (data : pyval) (key : str) (default : pyval) : result pyval :=
  match data with
  | PDict d => Ok (from_option id default (assoc key d))
  | _ => raise AttributeError "object has no attribute 'get'"
  end.

(** [key in data] *)
Definition py_contains (data : pyval) (key : str) : result bool :=
  match data with
  | PDict d => Ok (bool_decide (is_Some (assoc key d)))
  | PList l =>
      Ok (existsb (λ x, match x with PStr s => str_eqb s key | _ => false end) l)
  | PStr s => Ok (is_substring key s)
  | _ => raise TypeError "argument is not iterable"
  end.

(** The entry [k] of a [dict] object, [None] when there is none. *)
Definition field (v : pyval) (k : string) : option pyval :=
  match v with
  | PDict d => assoc (py k) d
  | _ => None
  end.

(** ** Wall-clock time *)

Record datetime := mk_datetime {
  year : N; month : N; day : N; hour : N; minute : N; second : N;
  microsecond : N
}.

(** [dt.strftime('%Y%m%d_%H%M%S')] *)
Definition strftime (dt : datetime) : str :=
  zfill 4 (year dt) ++ zfill 2 (month dt) ++ zfill 2 (day dt) ++ py "_"
  ++ zfill 2 (hour dt) ++ zfill 2 (minute dt) ++ zfill 2 (second dt).

(** [dt.isoformat()] *)
Definition isoformat (dt : datetime) : str :=
  zfill 4 (year dt) ++ py "-" ++ zfill 2 (month dt) ++ py "-" ++ zfill 2 (day dt)
  ++ py "T" ++ zfill 2 (hour dt) ++ py ":" ++ zfill 2 (minute dt) ++ py ":"
  ++ zfill 2 (second dt)
  ++ (if microsecond dt =? 0 then [] else py "." ++ zfill 6 (microsecond dt)).

(** SQLite's [CURRENT_TIMESTAMP]: ['YYYY-MM-DD HH:MM:SS'] *)
Definition current_timestamp (dt : datetime) : str :=
  zfill 4 (year dt) ++ py "-" ++ zfill 2 (month dt) ++ py "-" ++ zfill 2 (day dt)
  ++ py " " ++ zfill 2 (hour dt) ++ py ":" ++ zfill 2 (minute dt) ++ py ":"
  ++ zfill 2 (second dt).

(** Seconds-resolution chronological key of a moment. *)
Definition chrono (dt : datetime) : N :=
  ((((year dt * 100 + month dt) * 100 + day dt) * 100 + hour dt) * 100
   + minute dt) * 100 + second dt.

(** The fields are in the ranges [datetime] allows, and the year has
    four digits. *)
Definition valid_datetime (dt : datetime) : Prop :=
  1000 <= year dt <= 9999 ∧ 1 <= month dt <= 12 ∧ 1 <= day dt <= 31
  ∧ hour dt <= 23 ∧ minute dt <= 59 ∧ second dt <= 59
  ∧ microsecond dt <= 999999.

(** ** Paths ([posixpath]) *)

Definition SLASH : N := 47.

Fixpoint lstrip_slash (s : str) : str :=
  match s with
  | c :: r => if c =? SLASH then lstrip_slash r else s
  | [] => []
  end.

(** [s.rstrip('/')] *)
Definition rstrip_slash (s : str) : str := reverse (lstrip_slash (reverse s)).

(** The prefix of [p] up to and including its last slash:
    [p[:p.rfind('/') + 1]] *)
Fixpoint upto_last_slash (p : str) : str :=
  match p with
  | [] => []
  | c :: r => if existsb (N.eqb SLASH) p then c :: upto_last_slash r else []
  end.

(** [os.path.dirname(p)] *)
Definition dirname (p : str) : str :=
  let head := upto_last_slash p in
  match lstrip_slash head with
  | [] => head
  | _ :: _ => rstrip_slash head
  end.

(** [os.path.join(a, b)] *)
Definition path_join (a b : str) : str :=
  if startswith b [SLASH] then b
  else match last a with
       | None => b
       | Some l => if l =? SLASH then a ++ b else a ++ SLASH :: b
       end.

(** ** The file system seen by the backup routine *)

Inductive node :=
| File (content : str)
| Directory.

(** The directories that exist with their entries, the directories in
    which nothing may be created, written or removed, the contents of
    the database file (if it exists), and a schedule of injected
    faults: each file-system call consumes one slot and raises the
    exception found there. *)
Record filesystem := mk_fs {
  dirs : gmap str (gmap str node);
  denied : gset str;
  database_file : option str;
  faults : list (option exn)
}.

(** Computations on the file system that may raise; the state reached
    when an exception is raised is kept. *)
Definition fsM (A : Type) : Type := filesystem → result A * filesystem.

Global Instance fsM_ret : MRet fsM := λ A a fs, (Ok a, fs).
Global Instance fsM_bind : MBind fsM := λ A B f m fs,
  match m fs with
  | (Ok a, fs') => f a fs'
  | (Raise e, fs') => (Raise e, fs')
  end.

(** [try: m  except Exception as e: handler e] *)
Definition try_except {A} (m : fsM A) (handler : exn → fsM A) : fsM A := λ fs,
  match m fs with
  | (Ok a, fs') => (Ok a, fs')
  | (Raise e, fs') => handler e fs'
  end.

Definition fs_raise {A} (msg : string) : fsM A := λ fs, (raise OSError msg, fs).

Definition set_dirs (fs : filesystem) (d : gmap str (gmap str node)) : filesystem :=
  mk_fs d (denied fs) (database_file fs) (faults fs).

(** Consume one slot of the fault schedule. *)
Definition fault : fsM unit := λ fs,
  match faults fs with
  | [] => (Ok tt, fs)
  | None :: rest => (Ok tt, mk_fs (dirs fs) (denied fs) (database_file fs) rest)
  | Some e :: rest => (Raise e, mk_fs (dirs fs) (denied fs) (database_file fs) rest)
  end.

(** A file-system call: the fault schedule is consulted first. *)
Definition after_fault {A} (call : filesystem → result A * filesystem) : fsM A :=
  λ fs, match fault fs with
        | (Ok _, fs') => call fs'
        | (Raise e, fs') => (Raise e, fs')
        end.

(** [os.makedirs(d, exist_ok=True)] *)
Definition makedirs (d : str) : fsM unit :=
  after_fault (λ fs,
        match dirs fs !! d with
        | Some _ => (Ok tt, fs)
        | None =>
            if bool_decide (d ∈ denied fs) then fs_raise "Permission denied" fs
            else (Ok tt, set_dirs fs (<[d := ∅]> (dirs fs)))
        end).

(** [with open(os.path.join(d, name), 'w') as f: f.write(content)] *)
Definition write_file (d name content : str) : fsM unit :=
  after_fault (λ fs,
        match dirs fs !! d with
        | None => fs_raise "No such file or directory" fs
        | Some entries =>
            if bool_decide (d ∈ denied fs) then fs_raise "Permission denied" fs
            else match entries !! name with
                 | Some Directory => fs_raise "Is a directory" fs
                 | _ => (Ok tt, set_dirs fs
                           (<[d := <[name := File content]> entries]> (dirs fs)))
                 end
        end).

(** [os.remove(os.path.join(d, name))] *)
Definition remove (d name : str) : fsM unit :=
  after_fault (λ fs,
        match dirs fs !! d with
        | None => fs_raise "No such file or directory" fs
        | Some entries =>
            match entries !! name with
            | None => fs_raise "No such file or directory" fs
            | Some Directory => fs_raise "Is a directory" fs
            | Some (File _) =>
                if bool_decide (d ∈ denied fs) then fs_raise "Permission denied" fs
                else (Ok tt, set_dirs fs (<[d := delete name entries]> (dirs fs)))
            end
        end).

(** [os.listdir(d)], in no particular order *)
Definition listdir (d : str) : fsM (list str) :=
  after_fault (λ fs,
        match dirs fs !! d with
        | None => fs_raise "No such file or directory" fs
        | Some entries => (Ok (map_to_list entries).*1, fs)
        end).

(** [shutil.copy2(self.db_path, os.path.join(d, name))]: a destination
    that is a directory receives the copy inside it, so its listing
    stays as it is. *)
Definition copy2 (d name : str) : fsM unit :=
  after_fault (λ fs,
        match database_file fs with
        | None => fs_raise "No such file or directory" fs
        | Some content =>
            match dirs fs !! d with
            | None => fs_raise "No such file or directory" fs
            | Some entries =>
                if bool_decide (d ∈ denied fs) then fs_raise "Permission denied" fs
                else match entries !! name with
                     | Some Directory => (Ok tt, fs)
                     | _ => (Ok tt, set_dirs fs
                               (<[d := <[name := File content]> entries]> (dirs fs)))
                     end
            end
        end).

Global Instance str_le_dec : RelDecision str_le := λ a b, Is_true_dec (str_leb a b).

(** ** [DatabaseManager] *)

Module DatabaseManager.

Record t := mk { db_path : str }.

Definition backup_prefix : str := py "ai_study_advisor_backup_".

(** [f'ai_study_advisor_backup_{timestamp}.db'] *)
Definition backup_name (now : datetime) : str :=
  backup_prefix ++ strftime now ++ py ".db".

Definition backup_dirs (self : t) : list str :=
  [py "/data/backups"; path_join (dirname (db_path self)) (py "backups");
   py "./backups"].

(** The body of the inner [try]: create the directory and check that a
    file can be written to it and removed. *)
Definition probe (backup_path : str) : fsM unit :=
  _ ← makedirs backup_path;
  _ ← write_file backup_path (py "test_write") (py "test");
  remove backup_path (py "test_write").

(** The [for backup_path in backup_dirs] loop: the first candidate
    that passes the probe, [None] when the loop ends without one. *)
Fixpoint choose_backup_dir (candidates : list str) : fsM (option str) :=
  match candidates with
  | [] => mret None
  | backup_path :: rest =>
      try_except (_ ← probe backup_path; mret (Some backup_path))
                 (λ e, choose_backup_dir rest)
  end.

(** [sorted([f for f in os.listdir(d) if f.startswith(prefix)])] *)
Definition backup_files (names : list str) : list str :=
  merge_sort str_le (filter (λ f, Is_true (startswith f backup_prefix)) names).

(** [for old_backup in files[:-5]: os.remove(...)] *)
Fixpoint remove_each (d : str) (names : list str) : fsM unit :=
  match names with
  | [] => mret tt
  | old_backup :: rest => _ ← remove d old_backup; remove_each d rest
  end.

(** [l[:-5]] *)
Definition all_but_last5 {A} (l : list A) : list A := take (length l - 5)%nat l.

(** [DatabaseManager.create_backup] *)
Definition create_backup (self : t) (now : datetime) : fsM unit :=
  try_except
    (backup_dir ← choose_backup_dir (backup_dirs self);
     match backup_dir with
     | None | Some [] => mret tt
     | Some backup_dir =>
         _ ← copy2 backup_dir (backup_name now);
         names ← listdir backup_dir;
         remove_each backup_dir (all_but_last5 (backup_files names))
     end)
    (λ e, mret tt).

End DatabaseManager.

(** ** SQLite: values, columns and the statements the service issues *)

Inductive sqlval :=
| SNull
| SInt (z : Z)
| SReal (lit : str)
| SText (s : str).

Global Instance sqlval_eq_dec : EqDecision sqlval.
Proof. solve_decision. Defined.

Inductive affinity := TEXT | NUMERIC | INTEGER | REAL.

Inductive default_value :=
| DefaultNull
| DefaultText (s : str)
| CurrentTimestamp
| Autoincrement.

Record column := mk_column {
  col_name : str;
  col_affinity : affinity;
  col_notnull : bool;
  col_unique : bool;
  col_default : default_value
}.

(** A table of arity [n]: its rows in rowid order and the largest rowid
    handed out so far ([sqlite_sequence]). *)
Record table (n : nat) := mk_table {
  rows : list (vec sqlval n);
  last_rowid : Z
}.
Arguments mk_table {n} rows last_rowid.
Arguments rows {n} t.
Arguments last_rowid {n} t.

(** How [sqlite3] binds a Python object to a [?] placeholder. *)
Definition bind (v : pyval) : result sqlval :=
  match v with
  | PNone => Ok SNull
  | PBool b => Ok (SInt (if b then 1 else 0))
  | PInt z =>
      if ((- 2 ^ 63 <=? z) && (z <? 2 ^ 63))%Z then Ok (SInt z)
      else raise OverflowError "Python int too large to convert to SQLite INTEGER"
  | PFloat lit => Ok (SReal lit)
  | PStr s => Ok (SText s)
  | PList _ | PDict _ => raise ProgrammingError "Error binding parameter: type is not supported"
  end.

(** What a fetched column value becomes in Python. *)
Definition to_python (v : sqlval) : pyval :=
  match v with
  | SNull => PNone
  | SInt z => PInt z
  | SReal lit => PFloat lit
  | SText s => PStr s
  end.

(** [a = b] in a WHERE clause: never true on NULL. *)
Definition sql_eqb (a b : sqlval) : bool :=
  match a with
  | SNull => false
  | _ => bool_decide (a = b)
  end.

(** The order ORDER BY sorts in: NULL first, then numbers, then text
    compared code point by code point.  SQLite compares an INTEGER with
    a REAL numerically, which needs float semantics; here every
    integer sorts before every real and reals sort by their literal, a
    total order that is SQLite's wherever no REAL is involved. *)
Definition sql_leb (a b : sqlval) : bool :=
  match a, b with
  | SNull, _ => true
  | _, SNull => false
  | SInt x, SInt y => (x <=? y)%Z
  | SInt _, _ => true
  | SReal _, SInt _ => false
  | SReal x, SReal y => str_leb x y
  | SReal _, SText _ => true
  | SText x, SText y => str_leb x y
  | SText _, _ => false
  end.

(** A character that can occur in a numeric literal. *)
Definition numeric_char (c : N) : bool :=
  Json.is_digit c || (c =? 43) || (c =? 45) || (c =? 46) || (c =? 101)
  || (c =? 69) || (c =? 32) || (c =? 9) || (c =? 10) || (c =? 13)
  || (c =? 11) || (c =? 12).

(** Position of a column in a schema. *)
Fixpoint col_index {n} (schema : vec column n) (name : str) : option (fin n) :=
  match schema in vec _ n return option (fin n) with
  | vnil => None
  | vcons c rest =>
      if str_eqb (col_name c) name then Some 0%fin else FS <$> col_index rest name
  end.

Definition no_such_column {A} (name : str) : result A :=
  Raise (mk_exn OperationalError (py "no such column: " ++ name)).

Definition resolve {n} (schema : vec column n) (name : str) : result (fin n) :=
  match col_index schema name with
  | Some j => Ok j
  | None => no_such_column name
  end.

Definition is_null (v : sqlval) : bool :=
  match v with SNull => true | _ => false end.

(** A NOT NULL column of [r] holds NULL. *)
Definition violates_notnull {n} (schema : vec column n) (r : vec sqlval n) : bool :=
  existsb (λ j, col_notnull (schema !!! j) && is_null (r !!! j)) (fin_enum n).

(** [r] and [r'] agree on some UNIQUE column. *)
Definition conflicts {n} (schema : vec column n) (r r' : vec sqlval n) : bool :=
  existsb (λ j, col_unique (schema !!! j) && sql_eqb (r !!! j) (r' !!! j))
          (fin_enum n).

(** [a] comes no later than [b] under [ORDER BY <column j> DESC]. *)
Definition desc_by {n} (j : fin n) (a b : vec sqlval n) : Prop :=
  sql_leb (b !!! j) (a !!! j).

Global Instance desc_by_dec {n} (j : fin n) : RelDecision (desc_by j) :=
  λ a b, Is_true_dec (sql_leb (b !!! j) (a !!! j)).

(** [LIMIT ?]: a negative limit means no limit. *)
Definition limit_rows {A} (limit : Z) (l : list A) : list A :=
  if (limit <? 0)%Z then l else take (Z.to_nat limit) l.

Section Engine.

(** The conversions of SQLite's column affinity that depend on
    recognising and converting numeric literals and on REAL values
    are a parameter of the model; [store] fixes the cases that do
    not. *)
Variable cast : affinity → sqlval → sqlval.

(** The value a column of affinity [a] holds after [v] is stored. *)
Definition store (a : affinity) (v : sqlval) : sqlval :=
  match v, a with
  | SNull, _ => SNull
  | SText _, TEXT => v
  | SInt z, TEXT => SText (str_of_Z z)
  | SInt _, (INTEGER | NUMERIC) => v
  | SReal _, REAL => v
  | SText s, _ => if forallb numeric_char s then cast a v else v
  | _, _ => cast a v
  end.

Context {n : nat} (schema : vec column n).

(** The row an INSERT builds: the listed columns take the bound
    values, the others their defaults. *)
Definition new_row (assign : list (str * sqlval)) (rowid : Z) (utcnow : datetime)
  : vec sqlval n :=
  fun_to_vec (λ j,
    let c := schema !!! j in
    match assoc (col_name c) assign with
    | Some v => store (col_affinity c) v
    | None =>
        match col_default c with
        | DefaultNull => SNull
        | DefaultText s => store (col_affinity c) (SText s)
        | CurrentTimestamp => store (col_affinity c) (SText (current_timestamp utcnow))
        | Autoincrement => SInt rowid
        end
    end).

(** [INSERT [OR REPLACE] INTO t (cols) VALUES (?, ..., ?)].  No NOT
    NULL column of the service's tables has a default, so a NULL in
    one aborts the statement under either conflict policy. *)
Definition execute_insert (or_replace : bool) (cols : list str)
    (params : list sqlval) (utcnow : datetime) (t : table n) : result (table n) :=
  if negb (bool_decide (length params = length cols)) then
    raise ProgrammingError "Incorrect number of bindings supplied"
  else
    _ ← mapM (resolve schema) cols;
    let r := new_row (zip cols params) (last_rowid t + 1)%Z utcnow in
    if violates_notnull schema r then
      raise IntegrityError "NOT NULL constraint failed"
    else if or_replace then
      Ok (mk_table (filter (λ r', ¬ conflicts schema r r') (rows t) ++ [r])
                   (last_rowid t + 1)%Z)
    else if existsb (conflicts schema r) (rows t) then
      raise IntegrityError "UNIQUE constraint failed"
    else Ok (mk_table (rows t ++ [r]) (last_rowid t + 1)%Z).

(** [SET c1 = ?, ..., ck = ?] applied to one row, left to right. *)
Definition assign_row (sets : list (fin n * sqlval)) (r : vec sqlval n) : vec sqlval n :=
  foldl (λ r jv, vinsert jv.1 jv.2 r) r sets.

(** The non-NULL values of column [j] are pairwise distinct. *)
Definition unique_in (j : fin n) (rs : list (vec sqlval n)) : bool :=
  bool_decide (NoDup (filter (λ v, v ≠ SNull) ((λ r, r !!! j) <$> rs))).

(** [UPDATE t SET c1 = ?, ..., ck = ? WHERE where_col = ?]: the
    parameters are the new values followed by the key.  Constraints
    are checked on the assigned columns of the rows that match. *)
Definition execute_update (sets : list str) (where_col : str)
    (params : list sqlval) (t : table n) : result (table n) :=
  if negb (bool_decide (length params = S (length sets))) then
    raise ProgrammingError "Incorrect number of bindings supplied"
  else
    js ← mapM (resolve schema) sets;
    i ← resolve schema where_col;
    let key := from_option id SNull (last params) in
    let assignments :=
      (λ jv, (jv.1, store (col_affinity (schema !!! jv.1)) jv.2)) <$> zip js params in
    let hit (r : vec sqlval n) := sql_eqb (r !!! i) key in
    let rows' := (λ r, if hit r then assign_row assignments r else r) <$> rows t in
    if existsb hit (rows t)
       && existsb (λ jv, col_notnull (schema !!! jv.1) && is_null jv.2) assignments
    then raise IntegrityError "NOT NULL constraint failed"
    else if existsb (λ j, col_unique (schema !!! j) && negb (unique_in j rows')) js
    then raise IntegrityError "UNIQUE constraint failed"
    else Ok (mk_table rows' (last_rowid t)).

(** [SELECT * FROM t WHERE where_col = ?] *)
Definition select_where (where_col : str) (key : sqlval) (t : table n)
  : result (list (vec sqlval n)) :=
  i ← resolve schema where_col;
  Ok (filter (λ r, sql_eqb (r !!! i) key) (rows t)).

(** [... ORDER BY col DESC] *)
Definition order_by_desc (col : str) (rs : list (vec sqlval n))
  : result (list (vec sqlval n)) :=
  j ← resolve schema col;
  Ok (merge_sort (desc_by j) rs).

End Engine.

(** *** The two tables of the service *)

Definition text_column (name : string) : column :=
  mk_column (py name) TEXT false false DefaultNull.
Definition required_text (name : string) : column :=
  mk_column (py name) TEXT true false DefaultNull.
Definition id_column : column :=
  mk_column (py "id") INTEGER false true Autoincrement.
Definition timestamp_column (name : string) : column :=
  mk_column (py name) NUMERIC false false CurrentTimestamp.

(** [CREATE TABLE user_profiles], in the order of the source *)
Definition user_profiles_schema : vec column 19 :=
  [# id_column;
     mk_column (py "profile_id") TEXT true true DefaultNull;
     required_text "user_id";
     required_text "user_role";
     text_column "student_name";
     text_column "student_email";
     text_column "parent_name";
     text_column "parent_email";
     text_column "relationship";
     text_column "child_name";
     text_column "child_email";
     text_column "citizenship";
     mk_column (py "gpa") REAL false false DefaultNull;
     text_column "degree";
     text_column "countries";
     mk_column (py "budget") INTEGER false false DefaultNull;
     text_column "target_intake";
     timestamp_column "created_at";
     timestamp_column "updated_at" ].

(** [CREATE TABLE chat_messages] *)
Definition chat_messages_schema : vec column 8 :=
  [# id_column;
     required_text "profile_id";
     required_text "user_id";
     required_text "message_type";
     required_text "message_content";
     mk_column (py "language") TEXT false false (DefaultText (py "zh"));
     text_column "user_role";
     timestamp_column "created_at" ].

Record database := mk_database {
  user_profiles : table 19;
  chat_messages : table 8
}.

(** ** The persistence service ([src/app.py]) *)

(** The module-level [db] (the manager, or [None] when initialisation
    failed), the contents of the database, and the file system. *)
Record world := mk_world {
  db : option DatabaseManager.t;
  tables : database;
  disk : filesystem
}.

(** A response: the HTTP status and the object given to [jsonify]. *)
Record response := mk_response {
  status : Z;
  payload : pyval
}.

(** [jsonify({'ok': False, 'error': msg}), code] *)
Definition failure (code : Z) (msg : str) : response :=
  mk_response code (PDict [(py "ok", PBool false); (py "error", PStr msg)]).

(** [jsonify({'ok': True, 'message': msg})] *)
Definition success (msg : string) : response :=
  mk_response 200 (PDict [(py "ok", PBool true); (py "message", PStr (py msg))]).

(** [jsonify({'ok': True, 'data': data})] *)
Definition success_data (data : pyval) : response :=
  mk_response 200 (PDict [(py "ok", PBool true); (py "data", data)]).

(** [int(s)] on ASCII input: optional sign, then digits in groups
    separated by single underscores, with surrounding blanks stripped.
    (Digits and blanks outside ASCII, which [int] also accepts, are not
    covered.) *)
Definition is_blank (c : N) : bool :=
  (c =? 32) || ((9 <=? c) && (c <=? 13)).

Fixpoint lstrip (s : str) : str :=
  match s with
  | c :: r => if is_blank c then lstrip r else s
  | [] => []
  end.

Definition strip (s : str) : str := reverse (lstrip (reverse (lstrip s))).

(** Digits with single underscores between them; [after_digit] tells
    whether the previous character was a digit. *)
Fixpoint int_digits (s : str) (after_digit : bool) (acc : Z) : option Z :=
  match s with
  | [] => if after_digit then Some acc else None
  | c :: r =>
      if Json.is_digit c then int_digits r true (acc * 10 + Z.of_N (c - 48))%Z
      else if (c =? 95) && after_digit then int_digits r false acc
      else None
  end.

Definition py_int (s : str) : option Z :=
  match strip s with
  | c :: r =>
      if c =? 45 then Z.opp <$> int_digits r false 0%Z
      else if c =? 43 then int_digits r false 0%Z
      else int_digits (c :: r) false 0%Z
  | [] => None
  end.

(** [request.args.get(key, default, type=int)] *)
Definition args_get_int (args : list (str * str)) (key : str) (default : Z) : Z :=
  match assoc key args with
  | None => default
  | Some rv => from_option id default (py_int rv)
  end.

(** The [countries] entry of a fetched profile:
<<
    countries = []
    if row[14]:
        try: countries = json.loads(row[14])
        except: countries = []
>>
    A value that is not text makes [json.loads] raise [TypeError].
    (The interpreter's limits on nesting depth and on the length of an
    integer literal, which also end in the [except] branch, are not
    modelled.) *)
Definition parse_countries (row14 : sqlval) : pyval :=
  if truthy (to_python row14) then
    match row14 with
    | SText s => from_option id (PList []) (Json.loads s)
    | _ => PList []
    end
  else PList [].

(** The dictionary built from a row of [user_profiles]. *)
Definition profile_dict (row : vec sqlval 19) : pyval :=
  PDict [
    (py "id", to_python (row !!! 0%fin));
    (py "profile_id", to_python (row !!! 1%fin));
    (py "user_id", to_python (row !!! 2%fin));
    (py "user_role", to_python (row !!! 3%fin));
    (py "student_name", to_python (row !!! 4%fin));
    (py "student_email", to_python (row !!! 5%fin));
    (py "parent_name", to_python (row !!! 6%fin));
    (py "parent_email", to_python (row !!! 7%fin));
    (py "relationship", to_python (row !!! 8%fin));
    (py "child_name", to_python (row !!! 9%fin));
    (py "child_email", to_python (row !!! 10%fin));
    (py "citizenship", to_python (row !!! 11%fin));
    (py "gpa", to_python (row !!! 12%fin));
    (py "degree", to_python (row !!! 13%fin));
    (py "countries", parse_countries (row !!! 14%fin));
    (py "budget", to_python (row !!! 15%fin));
    (py "target_intake", to_python (row !!! 16%fin));
    (py "created_at", to_python (row !!! 17%fin));
    (py "updated_at", to_python (row !!! 18%fin)) ].

(** The dictionary built from a row of [chat_messages]. *)
Definition message_dict (row : vec sqlval 8) : pyval :=
  PDict [
    (py "id", to_python (row !!! 0%fin));
    (py "profile_id", to_python (row !!! 1%fin));
    (py "user_id", to_python (row !!! 2%fin));
    (py "message_type", to_python (row !!! 3%fin));
    (py "message_content", to_python (row !!! 4%fin));
    (py "language", to_python (row !!! 5%fin));
    (py "user_role", to_python (row !!! 6%fin));
    (py "created_at", to_python (row !!! 7%fin)) ].

(** The columns [update_user_profile] looks for in the request body,
    in the order of its [if] statements. *)
Definition updatable_fields : list str :=
  py <$> ["student_name"; "student_email"; "parent_name"; "parent_email";
          "relationship"; "child_name"; "child_email"; "citizenship"; "gpa";
          "degree"; "countries"; "budget"; "target_intake"; "user_role"]%string.

(** The chain of [if 'field' in data:] statements: the columns to set
    and their values, in order.  [countries] is stored as JSON text. *)
Fixpoint collect_updates (data : pyval) (fields : list str)
  : result (list str * list pyval) :=
  match fields with
  | [] => Ok ([], [])
  | f :: rest =>
      present ← py_contains data f;
      if (present : bool) then
        v ← py_getitem data f;
        let v' := if str_eqb f (py "countries") then PStr (Json.dumps v) else v in
        '(update_fields, update_values) ← collect_updates data rest;
        Ok (f :: update_fields, v' :: update_values)
      else collect_updates data rest
  end.

Definition set_profiles (w : world) (t : table 19) : world :=
  mk_world (db w) (mk_database t (chat_messages (tables w))) (disk w).
Definition set_messages (w : world) (t : table 8) : world :=
  mk_world (db w) (mk_database (user_profiles (tables w)) t) (disk w).
Definition set_disk (w : world) (fs : filesystem) : world :=
  mk_world (db w) (tables w) fs.

(** The [except Exception as e] clause of every handler. *)
Definition handle (e : exn) : response := failure 500 (exn_msg e).

Module App.
Section Handlers.

Variable cast : affinity → sqlval → sqlval.

(** The statement [save_user_profile] executes: the parameters are
    read from the body, bound, and the row is upserted. *)
Definition insert_profile (profile_data : pyval) (now utcnow : datetime)
    (t : table 19) : result (table 19) :=
  c ← py_get profile_data (py "countries") (PList []);
  let countries_json := Json.dumps c in
  profile_id ← py_getitem profile_data (py "profile_id");
  user_id ← py_getitem profile_data (py "user_id");
  user_role ← py_get profile_data (py "user_role") PNone;
  student_name ← py_get profile_data (py "student_name") PNone;
  student_email ← py_get profile_data (py "student_email") PNone;
  parent_name ← py_get profile_data (py "parent_name") PNone;
  parent_email ← py_get profile_data (py "parent_email") PNone;
  relationship ← py_get profile_data (py "relationship") PNone;
  child_name ← py_get profile_data (py "child_name") PNone;
  child_email ← py_get profile_data (py "child_email") PNone;
  citizenship ← py_get profile_data (py "citizenship") PNone;
  gpa ← py_get profile_data (py "gpa") PNone;
  degree ← py_get profile_data (py "degree") PNone;
  budget ← py_get profile_data (py "budget") PNone;
  target_intake ← py_get profile_data (py "target_intake") PNone;
  params ← mapM bind
    [profile_id; user_id; user_role; student_name; student_email;
     parent_name; parent_email; relationship; child_name; child_email;
     citizenship; gpa; degree; PStr countries_json; budget;
     target_intake; PStr (isoformat now)];
  execute_insert cast user_profiles_schema true
    (py <$> ["profile_id"; "user_id"; "user_role"; "student_name";
             "student_email"; "parent_name"; "parent_email";
             "relationship"; "child_name"; "child_email"; "citizenship";
             "gpa"; "degree"; "countries"; "budget"; "target_intake";
             "updated_at"]%string)
    params utcnow t.

(** [POST /api/profiles] *)
Definition save_user_profile (w : world) (profile_data : pyval)
    (now utcnow backup_now : datetime) : response * world :=
  match db w with
  | None => (failure 500 (py "Database not available"), w)
  | Some manager =>
      match insert_profile profile_data now utcnow (user_profiles (tables w)) with
      | Raise e => (handle e, w)
      | Ok t =>
          let w1 := set_profiles w t in
          match DatabaseManager.create_backup manager backup_now (disk w1) with
          | (Raise e, fs) => (handle e, set_disk w1 fs)
          | (Ok _, fs) => (success "Profile saved successfully", set_disk w1 fs)
          end
      end
  end.

(** [GET /api/profiles/<profile_id>] *)
Definition get_user_profile (w : world) (profile_id : str) : response :=
  match db w with
  | None => failure 500 (py "Database not available")
  | Some _ =>
      match select_where user_profiles_schema (py "profile_id") (SText profile_id)
              (user_profiles (tables w)) with
      | Raise e => handle e
      | Ok [] => failure 404 (py "Profile not found")
      | Ok (row :: _) => success_data (profile_dict row)
      end
  end.

(** [GET /api/users/<user_id>/profiles] *)
Definition get_user_profiles (w : world) (user_id : str) : response :=
  match db w with
  | None => failure 500 (py "Database not available")
  | Some _ =>
      match rs ← select_where user_profiles_schema (py "user_id") (SText user_id)
                   (user_profiles (tables w));
            order_by_desc user_profiles_schema (py "created_at") rs with
      | Raise e => handle e
      | Ok rows => success_data (PList (profile_dict <$> rows))
      end
  end.

(** The statement [update_user_profile] builds and executes. *)
Definition update_profile (profile_id : str) (data : pyval) (now : datetime)
    (t : table 19) : result (table 19) :=
  '(fields, values) ← collect_updates data updatable_fields;
  let update_fields := fields ++ [py "updated_at"] in
  let update_values := (values ++ [PStr (isoformat now)]) ++ [PStr profile_id] in
  if bool_decide (update_fields = []) then Ok t
  else
    params ← mapM bind update_values;
    execute_update cast user_profiles_schema update_fields (py "profile_id")
      params t.

(** [PUT /api/profiles/<profile_id>] *)
Definition update_user_profile (w : world) (profile_id : str) (data : pyval)
    (now : datetime) : response * world :=
  match db w with
  | None => (failure 500 (py "Database not available"), w)
  | Some _ =>
      match update_profile profile_id data now (user_profiles (tables w)) with
      | Raise e => (handle e, w)
      | Ok t => (success "Profile updated successfully", set_profiles w t)
      end
  end.

(** The statement [save_chat_message] executes. *)
Definition insert_message (message_data : pyval) (utcnow : datetime)
    (t : table 8) : result (table 8) :=
  profile_id ← py_get message_data (py "profile_id") PNone;
  user_id ← py_get message_data (py "user_id") PNone;
  message_type ← py_get message_data (py "message_type") PNone;
  message_content ← py_get message_data (py "message_content") PNone;
  language ← py_get message_data (py "language") (PStr (py "zh"));
  user_role ← py_get message_data (py "user_role") PNone;
  params ← mapM bind
    [profile_id; user_id; message_type; message_content; language; user_role];
  execute_insert cast chat_messages_schema false
    (py <$> ["profile_id"; "user_id"; "message_type"; "message_content";
             "language"; "user_role"]%string)
    params utcnow t.

(** [POST /api/messages] *)
Definition save_chat_message (w : world) (message_data : pyval)
    (utcnow : datetime) : response * world :=
  match db w with
  | None => (failure 500 (py "Database not available"), w)
  | Some _ =>
      match insert_message message_data utcnow (chat_messages (tables w)) with
      | Raise e => (handle e, w)
      | Ok t => (success "Message saved successfully", set_messages w t)
      end
  end.

(** The query of [get_chat_messages]:
    [SELECT * FROM chat_messages WHERE profile_id = ?
     ORDER BY created_at DESC LIMIT ?] *)
Definition select_messages (profile_id : str) (limit : Z) (t : table 8)
  : result (list (vec sqlval 8)) :=
  key ← bind (PStr profile_id);
  _ ← bind (PInt limit);
  rs ← select_where chat_messages_schema (py "profile_id") key t;
  sorted ← order_by_desc chat_messages_schema (py "created_at") rs;
  Ok (limit_rows limit sorted).

(** [GET /api/messages/<profile_id>], with the query string [args] *)
Definition get_chat_messages (w : world) (profile_id : str)
    (args : list (str * str)) : response :=
  match db w with
  | None => failure 500 (py "Database not available")
  | Some _ =>
      let limit := args_get_int args (py "limit") 100 in
      match select_messages profile_id limit (chat_messages (tables w)) with
      | Raise e => handle e
      | Ok rows => success_data (PList (message_dict <$> rows))
      end
  end.

(** [POST /api/backup] *)
Definition create_backup (w : world) (now : datetime) : response * world :=
  match db w with
  | None => (failure 500 (py "Database not available"), w)
  | Some manager =>
      match DatabaseManager.create_backup manager now (disk w) with
      | (Raise e, fs) => (handle e, set_disk w fs)
      | (Ok _, fs) => (success "Backup created successfully", set_disk w fs)
      end
  end.

End Handlers.
End App.

(** The [countries] column holds NULL, or text that [json.loads]
    rejects (the empty text included). *)
Definition unreadable (c : sqlval) : Prop :=
  c = SNull ∨ ∃ s, c = SText s ∧ Json.loads s = None.

(** ** Scenarios *)

(** Posting a sequence of chat messages, each with the time at which
    the database stamps it: the world reached when every request was
    answered with status 200. *)
Fixpoint post_messages (cast : affinity → sqlval → sqlval) (w : world)
    (posts : list (pyval * datetime)) : option world :=
  match posts with
  | [] => Some w
  | post :: rest =>
      let r := App.save_chat_message cast w post.1 post.2 in
      if (status r.1 =? 200)%Z then post_messages cast r.2 rest else None
  end.

(** Triggering [POST /api/backup] at each of the given moments. *)
Definition trigger_backups (w : world) (moments : list datetime) : world :=
  foldl (λ w now, (App.create_backup w now).2) w moments.

(** The entries of directory [d]; none when it does not exist. *)
Definition entries_of (fs : filesystem) (d : str) : gmap str node :=
  default ∅ (dirs fs !! d).

(** The backup files of a directory, as the routine lists them. *)
Definition backups_in (fs : filesystem) (d : str) : list str :=
  DatabaseManager.backup_files (map_to_list (entries_of fs d)).*1.

(** Directory [d] can take backups: no fault is scheduled, the database
    file exists, nothing forbids writing to [d], and neither the probe
    file nor any entry named like a backup is a directory. *)
Definition ready (fs : filesystem) (d : str) : Prop :=
  faults fs = [] ∧ is_Some (database_file fs) ∧ (d ∉ denied fs) ∧ d ≠ []
  ∧ entries_of fs d !! py "test_write" ≠ Some Directory
  ∧ ∀ name, startswith name DatabaseManager.backup_prefix = true →
            entries_of fs d !! name ≠ Some Directory.

(** The state of the world in which the backups of manager [self] go
    to directory [d] and succeed: the candidates tried before [d] deny
    writing, [d] is ready, and the database file holds [content]. *)
Definition steady (self : DatabaseManager.t) (skipped : list str) (d content : str)
    (w : world) : Prop :=
  db w = Some self
  ∧ Forall (λ c, c ∈ denied (disk w)) skipped
  ∧ ready (disk w) d
  ∧ database_file (disk w) = Some content.

(** What one successful backup does to the entries of its directory:
    the probe file is gone, the copy is there, and of the backup files
    only the last five by name remain. *)
Definition rotate (entries : gmap str node) (name content : str) : gmap str node :=
  let copied := <[name := File content]> (delete (py "test_write") entries) in
  foldl (λ e old_backup, delete old_backup e) copied
    (DatabaseManager.all_but_last5 (DatabaseManager.backup_files (map_to_list copied).*1)).

(** ** The client wrapper ([src/database_client.py]) *)

Module Client.

(** The names bound at module level when the class is used: the three
    imports, [logger] and the class.  No built-in is called [os]. *)
Definition module_globals : list str :=
  py <$> ["requests"; "json"; "logging"; "logger"; "DatabaseClient"]%string.

(** Evaluating a global name: [NameError] when nothing binds it. *)
Definition load_global (name : str) : result unit :=
  if existsb (str_eqb name) module_globals then Ok tt
  else Raise (mk_exn NameError (py "name '" ++ name ++ py "' is not defined")).

Record DatabaseClient := mk_client { base_url : str }.

(** [os.getenv(key, default)] *)
Definition getenv (environ : list (str * str)) (key default : str) : str :=
  from_option id default (assoc key environ).

(** [DatabaseClient.__init__(self, base_url=None)]:
    [self.base_url = base_url or os.getenv('DATABASE_SERVICE_URL', '...')] *)
Definition __init__ (base_url : option str) (environ : list (str * str))
  : result DatabaseClient :=
  match base_url with
  | Some (c :: u) => Ok (mk_client (c :: u))
  | Some [] | None =>
      _ ← load_global (py "os");
      Ok (mk_client (getenv environ (py "DATABASE_SERVICE_URL")
                       (py "https://ai-study-advisor-database.zeabur.app")))
  end.

(** What the service answered: status code and body text. *)
Record http_response := mk_http_response {
  status_code : Z;
  text : str
}.

(** The network and the server behind it: a request either raises
    (connection refused, timeout, ...) or yields a response. *)
Definition transport : Type :=
  str → str → option pyval → option pyval → result http_response.

(** [response.raise_for_status()] *)
Definition raise_for_status (r : http_response) : result unit :=
  if ((400 <=? status_code r) && (status_code r <? 600))%Z
  then raise HTTPError "Client or Server Error"
  else Ok tt.

(** [response.json()] *)
Definition json (r : http_response) : result pyval :=
  match Json.loads (text r) with
  | Some v => Ok v
  | None => raise RequestsJSONDecodeError "Expecting value"
  end.

(** [{'ok': False, 'error': msg}] *)
Definition error_envelope (msg : str) : pyval :=
  PDict [(py "ok", PBool false); (py "error", PStr msg)].

(** The [if method == ...] chain: the call made on the session. *)
Definition dispatch (self : DatabaseClient) (send : transport)
    (method endpoint : str) (data params : option pyval) : result http_response :=
  let url := base_url self ++ endpoint in
  if str_eqb method (py "GET") then send (py "GET") url None params
  else if str_eqb method (py "POST") then send (py "POST") url data None
  else if str_eqb method (py "PUT") then send (py "PUT") url data None
  else Raise (mk_exn ValueError (py "Unsupported HTTP method: " ++ method)).

(** [DatabaseClient._make_request] *)
Definition _make_request (self : DatabaseClient) (send : transport)
    (method endpoint : str) (data params : option pyval) : result pyval :=
  let body :=
    response ← dispatch self send method endpoint data params;
    _ ← raise_for_status response;
    json response in
  match body with
  | Ok v => Ok v
  | Raise e =>
      if is_RequestException e then Ok (error_envelope (exn_msg e))
      else Ok (error_envelope (exn_msg e))
  end.

Definition health_check self send :=
  _make_request self send (py "GET") (py "/health") None None.
Definition save_user self send (user_data : pyval) :=
  _make_request self send (py "POST") (py "/api/users") (Some user_data) None.
Definition get_user self send (user_id : str) :=
  _make_request self send (py "GET") (py "/api/users/" ++ user_id) None None.
Definition get_user_profiles self send (user_id : str) :=
  _make_request self send (py "GET") (py "/api/users/" ++ user_id ++ py "/profiles")
    None None.
Definition save_user_profile self send (profile_data : pyval) :=
  _make_request self send (py "POST") (py "/api/profiles") (Some profile_data) None.
Definition get_user_profile self send (profile_id : str) :=
  _make_request self send (py "GET") (py "/api/profiles/" ++ profile_id) None None.
Definition update_user_profile self send (profile_id : str) (data : pyval) :=
  _make_request self send (py "PUT") (py "/api/profiles/" ++ profile_id) (Some data) None.
Definition save_chat_message self send (message_data : pyval) :=
  _make_request self send (py "POST") (py "/api/messages") (Some message_data) None.
Definition get_chat_messages self send (profile_id : str) (limit : Z) :=
  _make_request self send (py "GET") (py "/api/messages/" ++ profile_id) None
    (Some (PDict [(py "limit", PInt limit)])).
Definition save_usage_stat self send (stat_data : pyval) :=
  _make_request self send (py "POST") (py "/api/stats") (Some stat_data) None.
Definition get_usage_stats self send (days : Z) :=
  _make_request self send (py "GET") (py "/api/stats") None
    (Some (PDict [(py "days", PInt days)])).
Definition create_backup self send :=
  _make_request self send (py "POST") (py "/api/backup") None None.

End Client.

(** ** Concrete instances *)

Module Example.

(** The parameter of the engine chosen for concrete runs: values that
    [store] does not settle are stored as they were bound. *)
Definition as_bound : affinity → sqlval → sqlval := λ _ v, v.

Definition manager : DatabaseManager.t :=
  DatabaseManager.mk (py "/data/ai_study_advisor.db").

Definition backup_dir : str := py "/data/backups".

(** An empty disk on which the database file exists. *)
Definition empty_disk : filesystem :=
  mk_fs ∅ ∅ (Some (py "SQLite format 3")) [].

Definition empty_database : database :=
  mk_database (mk_table [] 0) (mk_table [] 0).

Definition fresh : world := mk_world (Some manager) empty_database empty_disk.

(** 4 November 2026, 12:00 and [s] seconds. *)
Definition noon (s : N) : datetime := mk_datetime 2026 11 4 12 0 s 0.

Definition profile : pyval :=
  PDict [(py "profile_id", PStr (py "p1")); (py "user_id", PStr (py "u1"));
         (py "user_role", PStr (py "student"));
         (py "countries", PList [PStr (py "US"); PStr (py "UK")]);
         (py "budget", PInt 3000)].

(** The world after the profile was saved. *)
Definition with_profile : world :=
  (App.save_user_profile as_bound fresh profile (noon 1) (noon 1) (noon 2)).2.

(** A row of [user_profiles] with the given [profile_id] and
    [countries] column. *)
Definition row (id : Z) (profile_id : string) (countries : sqlval) : vec sqlval 19 :=
  [# SInt id; SText (py profile_id); SText (py "u1"); SText (py "student");
     SNull; SNull; SNull; SNull; SNull; SNull; SNull; SNull; SNull; SNull;
     countries; SNull; SNull; SText (py "2026-11-04 12:00:00");
     SText (py "2026-11-04T12:00:00") ].

(** A database with a row whose [countries] is NULL and one whose
    [countries] is not JSON. *)
Definition damaged : world :=
  mk_world (Some manager)
    (mk_database
       (mk_table [row 1 "p1" SNull; row 2 "p2" (SText (py "US, UK"))] 2)
       (mk_table [] 0))
    empty_disk.

Definition message (i : nat) : pyval :=
  PDict [(py "profile_id", PStr (py "p1")); (py "user_id", PStr (py "u1"));
         (py "message_type", PStr (py "user"));
         (py "message_content", PStr (str_of_N (N.of_nat i)))].

(** 150 messages for profile [p1], three per second. *)
Definition posts : list (pyval * datetime) :=
  (λ i, (message i, noon (N.of_nat i / 3))) <$> seq 0 150.

Definition after_posts : world :=
  default fresh (post_messages as_bound fresh posts).

(** Six moments one second apart, and the same moment six times. *)
Definition six_seconds : list datetime := noon <$> [1; 2; 3; 4; 5; 6].
Definition same_second : list datetime := replicate 6 (noon 1).

Definition client : Client.DatabaseClient := Client.mk_client (py "http://db").

(** A server that answers every request with status 300 and the JSON
    body [{"ok": true}]. *)
Definition multiple_choices : Client.transport := λ _ _ _ _,
  Ok (Client.mk_http_response 300 (Json.dumps (PDict [(py "ok", PBool true)]))).

End Example.

(** ** The other tables and endpoints of the service *)

(** [CREATE TABLE users] *)
Definition users_schema : vec column 8 :=
  [# id_column;
     mk_column (py "user_id") TEXT true true DefaultNull;
     text_column "email";
     text_column "name";
     text_column "avatar";
     mk_column (py "provider") TEXT false false (DefaultText (py "google"));
     timestamp_column "created_at";
     timestamp_column "updated_at" ].

(** [CREATE TABLE usage_stats] *)
Definition usage_stats_schema : vec column 6 :=
  [# id_column;
     required_text "user_id";
     text_column "profile_id";
     required_text "action_type";
     text_column "action_details";
     timestamp_column "created_at" ].

(** The whole service: the state the profile, message and backup
    handlers work on, with the tables [users] and [usage_stats]. *)
Record site := mk_site {
  core : world;
  users : table 8;
  usage_stats : table 6
}.

Definition set_core (s : site) (w : world) : site :=
  mk_site w (users s) (usage_stats s).
Definition set_users (s : site) (t : table 8) : site :=
  mk_site (core s) t (usage_stats s).
Definition set_usage_stats (s : site) (t : table 6) : site :=
  mk_site (core s) (users s) t.

(** [[description[0] for description in cursor.description]] *)
Definition column_names {n} (schema : vec column n) : list str :=
  col_name <$> vec_to_list schema.

(** [dict(zip(columns, row))] for a row of [users] *)
Definition user_dict (row : vec sqlval 8) : pyval :=
  PDict (dict_of_pairs
           (zip (column_names users_schema) (to_python <$> vec_to_list row))).

Module Site.
Section Handlers.

Variable cast : affinity → sqlval → sqlval.

(** [GET /health] *)
Definition health_check (s : site) (now : datetime) : response :=
  match db (core s) with
  | Some manager =>
      mk_response 200
        (PDict [
           (py "status", PStr (py "healthy"));
           (py "database_path", PStr (DatabaseManager.db_path manager));
           (py "user_count", PInt (Z.of_nat (length (rows (users s)))));
           (py "profile_count",
            PInt (Z.of_nat (length (rows (user_profiles (tables (core s)))))));
           (py "message_count",
            PInt (Z.of_nat (length (rows (chat_messages (tables (core s)))))));
           (py "timestamp", PStr (isoformat now)) ])
  | None =>
      mk_response 500
        (PDict [
           (py "status", PStr (py "unhealthy"));
           (py "error", PStr (py "Database not initialized"));
           (py "timestamp", PStr (isoformat now)) ])
  end.

(** The statement [save_user] executes. *)
Definition insert_user (user_data : pyval) (now utcnow : datetime)
    (t : table 8) : result (table 8) :=
  user_id ← py_getitem user_data (py "userId");
  email ← py_get user_data (py "email") PNone;
  name ← py_get user_data (py "name") PNone;
  avatar ← py_get user_data (py "avatar") PNone;
  provider ← py_get user_data (py "provider") (PStr (py "google"));
  params ← mapM bind [user_id; email; name; avatar; provider; PStr (isoformat now)];
  execute_insert cast users_schema true
    (py <$> ["user_id"; "email"; "name"; "avatar"; "provider"; "updated_at"]%string)
    params utcnow t.

(** [POST /api/users] *)
Definition save_user (s : site) (user_data : pyval) (now utcnow : datetime)
  : response * site :=
  match db (core s) with
  | None => (failure 500 (py "Database not available"), s)
  | Some _ =>
      match insert_user user_data now utcnow (users s) with
      | Raise e => (handle e, s)
      | Ok t => (success "User saved successfully", set_users s t)
      end
  end.

(** [GET /api/users/<user_id>] *)
Definition get_user (s : site) (user_id : str) : response :=
  match db (core s) with
  | None => failure 500 (py "Database not available")
  | Some _ =>
      match select_where users_schema (py "user_id") (SText user_id) (users s) with
      | Raise e => handle e
      | Ok [] => failure 404 (py "User not found")
      | Ok (row :: _) => success_data (user_dict row)
      end
  end.

(** The statement [save_usage_stat] executes. *)
Definition insert_usage_stat (stat_data : pyval) (utcnow : datetime)
    (t : table 6) : result (table 6) :=
  details ← py_get stat_data (py "action_details") (PDict []);
  let action_details := Json.dumps details in
  user_id ← py_get stat_data (py "user_id") PNone;
  profile_id ← py_get stat_data (py "profile_id") PNone;
  action_type ← py_get stat_data (py "action_type") PNone;
  params ← mapM bind [user_id; profile_id; action_type; PStr action_details];
  execute_insert cast usage_stats_schema false
    (py <$> ["user_id"; "profile_id"; "action_type"; "action_details"]%string)
    params utcnow t.

(** [POST /api/stats] *)
Definition save_usage_stat (s : site) (stat_data : pyval) (utcnow : datetime)
  : response * site :=
  match db (core s) with
  | None => (failure 500 (py "Database not available"), s)
  | Some _ =>
      match insert_usage_stat stat_data utcnow (usage_stats s) with
      | Raise e => (handle e, s)
      | Ok t => (success "Usage stat saved successfully", set_usage_stats s t)
      end
  end.

(** [GET /] *)
Definition root (now : datetime) : response :=
  mk_response 200
    (PDict [
       (py "service", PStr (py "AI Study Advisor Database Service"));
       (py "status", PStr (py "running"));
       (py "version", PStr (py "1.0.0"));
       (py "timestamp", PStr (isoformat now));
       (py "endpoints",
        PList (PStr ∘ py <$> ["/health"; "/api/users"; "/api/profiles";
                              "/api/messages"; "/api/stats"; "/api/backup"]%string)) ]).

End Handlers.
End Site.

(** ** Routing

    A request as the handlers see it: the route with its path
    parameter, the decoded body or query string, and the readings of
    the clocks taken while it is served ([now] by [datetime.now()],
    [utcnow] by SQLite's [CURRENT_TIMESTAMP]).  [GET /api/stats], whose
    query rests on SQLite's date functions, is left out; it writes
    nothing. *)
Inductive request :=
| GetRoot (now : datetime)
| GetHealth (now : datetime)
| PostUser (user_data : pyval) (now utcnow : datetime)
| GetUser (user_id : str)
| GetUserProfiles (user_id : str)
| PostProfile (profile_data : pyval) (now utcnow backup_now : datetime)
| GetProfile (profile_id : str)
| PutProfile (profile_id : str) (data : pyval) (now : datetime)
| PostMessage (message_data : pyval) (utcnow : datetime)
| GetMessages (profile_id : str) (args : list (str * str))
| PostStat (stat_data : pyval) (utcnow : datetime)
| PostBackup (now : datetime).

(** The response to a request and the state it leaves. *)
Definition serve (cast : affinity → sqlval → sqlval) (s : site) (req : request)
  : response * site :=
  let on_core (r : response * world) := (r.1, set_core s r.2) in
  match req with
  | GetRoot now => (Site.root now, s)
  | GetHealth now => (Site.health_check s now, s)
  | PostUser user_data now utcnow => Site.save_user cast s user_data now utcnow
  | GetUser user_id => (Site.get_user s user_id, s)
  | GetUserProfiles user_id => (App.get_user_profiles (core s) user_id, s)
  | PostProfile profile_data now utcnow backup_now =>
      on_core (App.save_user_profile cast (core s) profile_data now utcnow backup_now)
  | GetProfile profile_id => (App.get_user_profile (core s) profile_id, s)
  | PutProfile profile_id data now =>
      on_core (App.update_user_profile cast (core s) profile_id data now)
  | PostMessage message_data utcnow =>
      on_core (App.save_chat_message cast (core s) message_data utcnow)
  | GetMessages profile_id args => (App.get_chat_messages (core s) profile_id args, s)
  | PostStat stat_data utcnow => Site.save_usage_stat cast s stat_data utcnow
  | PostBackup now => on_core (App.create_backup (core s) now)
  end.

(** The state after a sequence of requests. *)
Definition run (cast : affinity → sqlval → sqlval) (s : site) (reqs : list request)
  : site :=
  foldl (λ s req, (serve cast s req).2) s reqs.

(** ** Well-formed tables *)

(** The ids of the rows, in the order of the rows. *)
Definition ids {n} (t : table (S n)) : list sqlval :=
  (λ r, r !!! 0%fin) <$> rows t.

(** The ids are integers that grow along the rows and none exceeds the
    last one handed out. *)
Definition ids_ascending {n} (t : table (S n)) : Prop :=
  ∃ zs, ids t = SInt <$> zs ∧ StronglySorted Z.lt zs
        ∧ Forall (λ z, (z <= last_rowid t)%Z) zs.

(** Column [j] holds no NULL and no value twice. *)
Definition key_column {n} (j : fin n) (t : table n) : Prop :=
  Forall (λ r, r !!! j ≠ SNull) (rows t) ∧ NoDup ((λ r, r !!! j) <$> rows t).

(** What the constraints of the schema guarantee of the four tables. *)
Definition consistent (s : site) : Prop :=
  ids_ascending (users s) ∧ key_column 1%fin (users s)
  ∧ ids_ascending (user_profiles (tables (core s)))
  ∧ key_column 1%fin (user_profiles (tables (core s)))
  ∧ ids_ascending (chat_messages (tables (core s)))
  ∧ ids_ascending (usage_stats s).

(** A value that [sqlite3] binds to a placeholder as it is: [None], a
    [bool], an [int] of 64 bits, or a [str] that UTF-8 can encode. *)
Definition bindable (v : pyval) : Prop :=
  match v with
  | PNone | PBool _ => True
  | PInt z => (- 2 ^ 63 <= z < 2 ^ 63)%Z
  | PStr s => unicode_text s
  | PFloat _ | PList _ | PDict _ => False
  end.

(** Text of a query-string parameter on which [py_int] is [int]:
    printable ASCII, and no longer than the interpreter lets an integer
    literal be. *)
Definition plain (s : str) : Prop :=
  Forall (λ c, 32 <= c < 127) s ∧ (length s <= 4300)%nat.

(** A printable ASCII character. *)
Definition printable (c : N) : Prop := 32 <= c <= 126.

(** ** Specifications of file-system computations

    [fs_triple pre m post exc]: run from a state that satisfies [pre],
    [m] either returns [a] in a state that satisfies [post a] or raises
    in a state that satisfies [exc]. *)
Definition fs_triple {A} (pre : filesystem → Prop) (m : fsM A)
    (post : A → filesystem → Prop) (exc : filesystem → Prop) : Prop :=
  ∀ fs, pre fs →
    match m fs with
    | (Ok a, fs') => post a fs'
    | (Raise _, fs') => exc fs'
    end.

(** A name the backup routine writes or removes: the probe file or a
    name with the prefix of the backups. *)
Definition managed (name : str) : bool :=
  str_eqb name (py "test_write") || startswith name DatabaseManager.backup_prefix.

(** ** More concrete instances *)

Module Sample.

(** The service before any request. *)
Definition empty : site :=
  mk_site Example.fresh (mk_table [] 0) (mk_table [] 0).

(** The service when the database could not be initialised. *)
Definition offline : site :=
  mk_site (mk_world None Example.empty_database Example.empty_disk)
    (mk_table [] 0) (mk_table [] 0).

Definition user : pyval :=
  PDict [(py "userId", PStr (py "u1")); (py "email", PStr (py "sam@example.org"));
         (py "name", PStr (py "Sam"))].

Definition stat : pyval :=
  PDict [(py "user_id", PStr (py "u1")); (py "action_type", PStr (py "login"))].

(** A user signs up, saves a profile, posts a message, changes the
    budget, logs an action and asks for a backup. *)
Definition session : list request :=
  [ PostUser user (Example.noon 1) (Example.noon 1);
    PostProfile Example.profile (Example.noon 2) (Example.noon 2) (Example.noon 2);
    PostMessage (Example.message 1) (Example.noon 3);
    PutProfile (py "p1") (PDict [(py "budget", PInt 5000)]) (Example.noon 4);
    PostStat stat (Example.noon 5);
    PostBackup (Example.noon 6);
    GetHealth (Example.noon 7) ].

(** A disk whose backup directory holds a file of the operator's. *)
Definition disk_with_notes : filesystem :=
  mk_fs {[ Example.backup_dir := {[ py "notes.txt" := File (py "keep") ]} ]} ∅
    (Some (py "SQLite format 3")) [].

(** A disk on which no candidate directory can be written. *)
Definition read_only_disk : filesystem :=
  mk_fs ∅ (list_to_set (DatabaseManager.backup_dirs Example.manager))
    (Some (py "SQLite format 3")) [].

(** A disk without the database file. *)
Definition disk_without_database : filesystem := mk_fs ∅ ∅ None [].

(** The disk after five backups, taken at seconds 11 to 15. *)
Definition five_backups : world :=
  trigger_backups Example.fresh (Example.noon <$> [11; 12; 13; 14; 15]).

End Sample.


(* ===================================================================== *)
(** * Part II: lemmas and theorems *)
(* ===================================================================== *)

(** ** Strings *)

Lemma str_eqb_eq (a b : str) : str_eqb a b = true ↔ a = b.
Proof.
  revert b. induction a as [|x a IH]; intros [|y b]; simpl; try done.
  rewrite andb_true_iff, N.eqb_eq, IH. split.
  - by intros [-> ->].
  - by intros [= -> ->].
Qed.

Lemma str_eqb_refl (a : str) : str_eqb a a = true.
Proof. by apply str_eqb_eq. Qed.

Lemma str_eqb_neq (a b : str) : str_eqb a b = false ↔ a ≠ b.
Proof. rewrite <- str_eqb_eq. by destruct (str_eqb a b). Qed.

Lemma str_leb_refl (a : str) : str_leb a a = true.
Proof.
  induction a as [|x a IH]; simpl; [done|].
  by rewrite N.ltb_irrefl, N.eqb_refl.
Qed.

Lemma str_leb_total (a b : str) : str_leb a b = true ∨ str_leb b a = true.
Proof.
  revert b. induction a as [|x a IH]; intros [|y b]; simpl; auto.
  destruct (N.ltb_spec x y), (N.ltb_spec y x); auto; try lia.
  assert (x = y) as -> by lia. rewrite N.eqb_refl. apply IH.
Qed.

Lemma str_leb_trans (a b c : str) :
  str_leb a b = true → str_leb b c = true → str_leb a c = true.
Proof.
  revert b c. induction a as [|x a IH]; intros [|y b] [|z c]; simpl; try done.
  destruct (N.ltb_spec x y), (N.ltb_spec y z), (N.ltb_spec x z); try done; try lia;
    destruct (N.eqb_spec x y), (N.eqb_spec y z), (N.eqb_spec x z);
    try done; try lia.
  apply IH.
Qed.

Lemma str_leb_antisym (a b : str) :
  str_leb a b = true → str_leb b a = true → a = b.
Proof.
  revert b. induction a as [|x a IH]; intros [|y b]; simpl; try done.
  destruct (N.ltb_spec x y), (N.ltb_spec y x), (N.eqb_spec x y), (N.eqb_spec y x);
    try done; try lia.
  subst. intros ??. f_equal. by apply IH.
Qed.

Global Instance str_le_po : PartialOrder str_le.
Proof.
  unfold str_le. split; [split|].
  - intros a. by rewrite str_leb_refl.
  - intros a b c ?%Is_true_true ?%Is_true_true. apply Is_true_true.
    by eapply str_leb_trans.
  - intros a b ?%Is_true_true ?%Is_true_true. by apply str_leb_antisym.
Qed.

Global Instance str_le_total : Total str_le.
Proof.
  intros a b. unfold str_le.
  destruct (str_leb_total a b) as [->| ->]; simpl; auto.
Qed.

Lemma startswith_app (p s : str) : startswith (p ++ s) p = true.
Proof. induction p as [|c p IH]; simpl; [by destruct s|]. by rewrite N.eqb_refl. Qed.

(** ** Column lookup in the two schemas *)

Lemma resolve_profile_id :
  resolve user_profiles_schema (py "profile_id") = Ok 1%fin.
Proof. reflexivity. Qed.

Lemma resolve_updated_at :
  resolve user_profiles_schema (py "updated_at") = Ok 18%fin.
Proof. reflexivity. Qed.

Lemma resolve_budget :
  resolve user_profiles_schema (py "budget") = Ok 15%fin.
Proof. reflexivity. Qed.

Lemma sql_eqb_text (v : sqlval) (s : str) : sql_eqb v (SText s) = true ↔ v = SText s.
Proof.
  destruct v; simpl; try done; rewrite bool_decide_eq_true; done.
Qed.

Lemma sql_eqb_eq (v v' : sqlval) : sql_eqb v v' = true → v = v'.
Proof. destruct v; simpl; try done; by rewrite bool_decide_eq_true. Qed.

(** ** Timestamps are not numeric literals *)

Lemma isoformat_not_numeric (dt : datetime) :
  forallb numeric_char (isoformat dt) = false.
Proof.
  unfold isoformat. rewrite !forallb_app.
  assert (forallb numeric_char (py "T") = false) as -> by reflexivity.
  by rewrite andb_false_l, !andb_false_r.
Qed.

Lemma current_timestamp_not_numeric (dt : datetime) :
  forallb numeric_char (current_timestamp dt) = false.
Proof.
  unfold current_timestamp. rewrite !forallb_app.
  assert (forallb numeric_char (py ":") = false) as -> by reflexivity.
  by rewrite andb_false_l, !andb_false_r.
Qed.

Lemma store_text cast (s : str) : store cast TEXT (SText s) = SText s.
Proof. done. Qed.

Lemma store_not_numeric cast (a : affinity) (s : str) :
  forallb numeric_char s = false → store cast a (SText s) = SText s.
Proof. intros H. destruct a; unfold store; cbv beta iota; by rewrite ?H. Qed.

Lemma store_isoformat cast (a : affinity) (dt : datetime) :
  store cast a (SText (isoformat dt)) = SText (isoformat dt).
Proof. apply store_not_numeric, isoformat_not_numeric. Qed.

Lemma store_current_timestamp cast (a : affinity) (dt : datetime) :
  store cast a (SText (current_timestamp dt)) = SText (current_timestamp dt).
Proof. apply store_not_numeric, current_timestamp_not_numeric. Qed.

(** ** UPDATE *)

Section UpdateFacts.

Variable cast : affinity → sqlval → sqlval.
Context {n : nat} (schema : vec column n).

(** An UPDATE whose assigned columns carry no constraint rewrites
    exactly the rows that match the key. *)
Lemma execute_update_unconstrained (sets : list str) (where_col : str)
    (params : list sqlval) (js : list (fin n)) (i : fin n) (t : table n) :
  length params = S (length sets) →
  mapM (resolve schema) sets = Ok js →
  resolve schema where_col = Ok i →
  Forall (λ j, col_notnull (schema !!! j) = false ∧ col_unique (schema !!! j) = false) js →
  execute_update cast schema sets where_col params t =
    Ok (mk_table
          ((λ r, if sql_eqb (r !!! i) (from_option id SNull (last params))
                 then assign_row
                        ((λ jv, (jv.1, store cast (col_affinity (schema !!! jv.1)) jv.2))
                           <$> zip js params) r
                 else r) <$> rows t)
          (last_rowid t)).
Proof.
  intros Hlen Hjs Hi Hfree. unfold execute_update.
  rewrite bool_decide_eq_true_2 by done. cbn [negb].
  rewrite Hjs, Hi. cbn [mbind result_bind].
  match goal with |- context [existsb ?f ?l && existsb ?g ?m] =>
    assert (existsb g m = false) as -> end.
  { apply not_true_iff_false. intros [[j v] [Hin H]]%existsb_exists.
    apply list_elem_of_In, list_elem_of_fmap in Hin as [[j' v'] [[= -> ->] Hin]].
    apply elem_of_zip_l in Hin. rewrite Forall_forall in Hfree.
    destruct (Hfree _ Hin) as [Hnn _]. simpl in H. by rewrite Hnn in H. }
  rewrite andb_false_r.
  match goal with |- context [existsb ?f js] =>
    assert (existsb f js = false) as -> end.
  { apply not_true_iff_false. intros [j [Hin H]]%existsb_exists.
    apply list_elem_of_In in Hin. rewrite Forall_forall in Hfree.
    destruct (Hfree _ Hin) as [_ Hu]. by rewrite Hu in H. }
  done.
Qed.

End UpdateFacts.

(** ** [update_user_profile] *)

Section UpdateProfile.

Variable cast : affinity → sqlval → sqlval.

(** No recognised key in the body: nothing is collected. *)
Lemma collect_updates_none (d : list (str * pyval)) (fields : list str) :
  Forall (λ f, assoc f d = None) fields →
  collect_updates (PDict d) fields = Ok ([], []).
Proof.
  induction 1 as [|f fields Hf _ IH]; [done|].
  cbn [collect_updates py_contains mbind result_bind]. rewrite Hf.
  rewrite bool_decide_eq_false_2 by (by intros [? [=]]). done.
Qed.

Lemma sql_eqb_decide (v : sqlval) (s : str) :
  sql_eqb v (SText s) = bool_decide (v = SText s).
Proof.
  by destruct v.
Qed.

Lemma execute_update_touch (profile_id : str) (now : datetime) (t : table 19) :
  execute_update cast user_profiles_schema [py "updated_at"] (py "profile_id")
    [SText (isoformat now); SText profile_id] t
  = Ok (mk_table
          ((λ r, if bool_decide (r !!! 1%fin = SText profile_id)
                 then vinsert 18%fin (SText (isoformat now)) r else r) <$> rows t)
          (last_rowid t)).
Proof.
  erewrite execute_update_unconstrained; [|done|reflexivity|reflexivity|].
  - do 2 f_equal. apply list_fmap_ext. intros _ r _.
    cbn [last from_option id]. rewrite sql_eqb_decide.
    case_bool_decide; [|done].
    cbn [zip zip_with fmap list_fmap assign_row foldl fst snd].
    by rewrite store_isoformat.
  - repeat constructor.
Qed.

Lemma execute_update_budget (profile_id : str) (b : sqlval) (now : datetime)
    (t : table 19) :
  execute_update cast user_profiles_schema [py "budget"; py "updated_at"]
    (py "profile_id") [b; SText (isoformat now); SText profile_id] t
  = Ok (mk_table
          ((λ r, if bool_decide (r !!! 1%fin = SText profile_id)
                 then vinsert 18%fin (SText (isoformat now))
                        (vinsert 15%fin (store cast INTEGER b) r)
                 else r) <$> rows t)
          (last_rowid t)).
Proof.
  erewrite execute_update_unconstrained; [|done|reflexivity|reflexivity|].
  - do 2 f_equal. apply list_fmap_ext. intros _ r _.
    cbn [last from_option id]. rewrite sql_eqb_decide.
    case_bool_decide; [|done].
    cbn [zip zip_with fmap list_fmap assign_row foldl fst snd].
    by rewrite store_isoformat.
  - repeat constructor.
Qed.

Lemma update_profile_budget (profile_id : str) (v : pyval) (now : datetime)
    (t : table 19) :
  App.update_profile cast profile_id (PDict [(py "budget", v)]) now t
  = match bind v with
    | Ok b =>
        execute_update cast user_profiles_schema [py "budget"; py "updated_at"]
          (py "profile_id") [b; SText (isoformat now); SText profile_id] t
    | Raise e => Raise e
    end.
Proof.
  unfold App.update_profile.
  assert (collect_updates (PDict [(py "budget", v)]) updatable_fields
          = Ok ([py "budget"], [v])) as -> by reflexivity.
  cbn [mbind result_bind app]. rewrite bool_decide_eq_false_2 by done.
  cbn [mapM mbind result_bind bind mret result_ret].
  by destruct (bind v).
Qed.

Lemma update_profile_none (profile_id : str) (d : list (str * pyval))
    (now : datetime) (t : table 19) :
  Forall (λ f, assoc f d = None) updatable_fields →
  App.update_profile cast profile_id (PDict d) now t
  = execute_update cast user_profiles_schema [py "updated_at"]
      (py "profile_id") [SText (isoformat now); SText profile_id] t.
Proof.
  intros Hd. unfold App.update_profile. rewrite collect_updates_none by done.
  cbn [mbind result_bind app]. by rewrite bool_decide_eq_false_2.
Qed.

End UpdateProfile.

(** ** Partial update of a profile *)

Section UpdateClaims.

Variable cast : affinity → sqlval → sqlval.



End UpdateClaims.

(** ** Reading profiles *)

Lemma filter_sql_eqb_text {n} (i : fin n) (s : str) (l : list (vec sqlval n)) :
  filter (λ r, sql_eqb (r !!! i) (SText s)) l = filter (λ r, r !!! i = SText s) l.
Proof.
  apply list_filter_iff. intros r. rewrite Is_true_true. apply sql_eqb_text.
Qed.

Lemma select_by_profile_id (profile_id : str) (t : table 19) :
  select_where user_profiles_schema (py "profile_id") (SText profile_id) t
  = Ok (filter (λ r, r !!! 1%fin = SText profile_id) (rows t)).
Proof.
  unfold select_where. rewrite resolve_profile_id. cbn [mbind result_bind].
  by rewrite filter_sql_eqb_text.
Qed.

Lemma select_by_user_id (user_id : str) (t : table 19) :
  select_where user_profiles_schema (py "user_id") (SText user_id) t
  = Ok (filter (λ r, r !!! 2%fin = SText user_id) (rows t)).
Proof.
  unfold select_where.
  assert (resolve user_profiles_schema (py "user_id") = Ok 2%fin) as -> by reflexivity.
  cbn [mbind result_bind]. by rewrite filter_sql_eqb_text.
Qed.

Lemma profile_dict_countries (row : vec sqlval 19) :
  field (profile_dict row) "countries" = Some (parse_countries (row !!! 14%fin)).
Proof. reflexivity. Qed.

Lemma parse_countries_unreadable (c : sqlval) :
  unreadable c → parse_countries c = PList [].
Proof.
  intros [->|(s & -> & Hs)]; [done|].
  unfold parse_countries. rewrite Hs. by destruct s.
Qed.

(** C6.  With the database available and no row of [user_profiles]
    carrying the requested [profile_id], the response has status 404,
    [ok] is false, [error] is the not-found message and there is no
    [data] entry. *)
Theorem get_unknown_profile (w : world) (manager : DatabaseManager.t)
    (profile_id : str) :
  db w = Some manager →
  (∀ row, row ∈ rows (user_profiles (tables w)) → row !!! 1%fin ≠ SText profile_id) →
  let resp := App.get_user_profile w profile_id in
  status resp = 404%Z
  ∧ field (payload resp) "ok" = Some (PBool false)
  ∧ field (payload resp) "error" = Some (PStr (py "Profile not found"))
  ∧ field (payload resp) "data" = None.
Proof.
  intros Hdb Hnone. unfold App.get_user_profile.
  rewrite Hdb, select_by_profile_id.
  assert (filter (λ r, r !!! 1%fin = SText profile_id)
            (rows (user_profiles (tables w))) = []) as ->; [|done].
  apply elem_of_nil_inv. intros r [Hr Hin]%list_elem_of_filter.
  by eapply Hnone.
Qed.



(** ** JSON: decoding what [dumps] wrote for a list of strings *)

(** Settle the comparisons of the goal that arithmetic decides. *)
Ltac settle :=
  repeat match goal with
  | |- context [?a <=? ?b] =>
      first [ rewrite (proj2 (N.leb_le a b)) by lia
            | rewrite (proj2 (N.leb_gt a b)) by lia ]
  | |- context [?a <? ?b] =>
      first [ rewrite (proj2 (N.ltb_lt a b)) by lia
            | rewrite (proj2 (N.ltb_ge a b)) by lia ]
  | |- context [?a =? ?b] =>
      first [ rewrite (proj2 (N.eqb_eq a b)) by lia
            | rewrite (proj2 (N.eqb_neq a b)) by lia ]
  end.

Module JsonFacts.
Import Json.

#[local] Ltac Zify.zify_post_hook ::= Z.to_euclidean_division_equations.

Lemma hex_value_digit (d : N) : d < 16 → hex_value (hex_digit d) = Some d.
Proof.
  intros Hd. unfold hex_value, hex_digit.
  destruct (N.ltb_spec d 10); settle; cbn [andb]; f_equal; lia.
Qed.

Lemma hex4_u_escape (c : N) :
  c < 65536 →
  hex4 (hex_digit (c / 4096)) (hex_digit ((c / 256) mod 16))
       (hex_digit ((c / 16) mod 16)) (hex_digit (c mod 16)) = Some c.
Proof.
  intros Hc. unfold hex4.
  rewrite !hex_value_digit by lia.
  cbn [mbind option_bind]. f_equal. lia.
Qed.

(** One step of [scanstring] on a [\uXXXX] escape. *)
Lemma scanstring_u_step (a b c d u : N) (r2 : str) :
  hex4 a b c d = Some u →
  scanstring (BACKSLASH :: 117 :: a :: b :: c :: d :: r2)
  = if is_high_surrogate u then
      match r2 with
      | bs :: uu :: a2 :: b2 :: c2 :: d2 :: r3 =>
          if (bs =? BACKSLASH) && (uu =? 117) then
            match hex4 a2 b2 c2 d2 with
            | Some u2 =>
                if is_low_surrogate u2
                then push (65536 + ((u - 55296) * 1024 + (u2 - 56320))) (scanstring r3)
                else push u (scanstring r2)
            | None => push u (scanstring r2)
            end
          else push u (scanstring r2)
      | _ => push u (scanstring r2)
      end
    else push u (scanstring r2).
Proof.
  intros H. cbn [scanstring].
  change (BACKSLASH =? QUOTE) with false.
  change (BACKSLASH =? BACKSLASH) with true.
  change (117 =? 117) with true.
  cbv iota. by rewrite H.
Qed.

(** Reading back one escaped character. *)
Lemma scanstring_u_escape (c : N) (rest : str) :
  c < 55296 ∨ 57344 <= c < 65536 →
  scanstring (u_escape c ++ rest) = push c (scanstring rest).
Proof.
  intros Hc. unfold u_escape. cbn [app].
  erewrite scanstring_u_step by (apply hex4_u_escape; lia).
  unfold is_high_surrogate. destruct Hc; by settle.
Qed.

Lemma scanstring_two_escapes (hi lo : N) (rest : str) :
  55296 <= hi <= 56319 → 56320 <= lo <= 57343 →
  scanstring (u_escape hi ++ u_escape lo ++ rest)
  = push (65536 + ((hi - 55296) * 1024 + (lo - 56320))) (scanstring rest).
Proof.
  intros Hhi Hlo. unfold u_escape. cbn [app].
  erewrite scanstring_u_step by (apply hex4_u_escape; lia).
  rewrite !N.eqb_refl. cbn [andb].
  rewrite hex4_u_escape by lia.
  unfold is_high_surrogate, is_low_surrogate. by settle.
Qed.

Lemma scanstring_surrogate_pair (c : N) (rest : str) :
  65536 <= c < 1114112 →
  scanstring (u_escape (55296 + ((c - 65536) / 1024) mod 1024)
              ++ u_escape (56320 + (c - 65536) mod 1024) ++ rest)
  = push c (scanstring rest).
Proof.
  intros Hc. rewrite scanstring_two_escapes by lia. f_equal. lia.
Qed.

Lemma scanstring_escape_char (c : N) (rest : str) :
  is_scalar c →
  scanstring (escape_char c ++ rest) = push c (scanstring rest).
Proof.
  intros Hc. unfold escape_char, QUOTE, BACKSLASH.
  repeat (match goal with |- context [if ?a =? ?b then _ else _] =>
    destruct (N.eqb_spec a b) as [->|?] end; [reflexivity|]).
  destruct (N.leb_spec 32 c), (N.leb_spec c 126); cbn [andb]; [| | |lia].
  - cbn [app scanstring]. unfold QUOTE, BACKSLASH. by settle.
  - destruct (N.ltb_spec c 65536).
    + apply scanstring_u_escape. destruct Hc; lia.
    + cbv zeta. rewrite <- app_assoc. apply scanstring_surrogate_pair.
      destruct Hc; lia.
  - settle. apply scanstring_u_escape. lia.
Qed.

Lemma scanstring_encoded (s rest : str) :
  unicode_text s →
  scanstring (concat (escape_char <$> s) ++ QUOTE :: rest) = Some (s, rest).
Proof.
  induction 1 as [|c s Hc _ IH]; [done|].
  cbn [fmap list_fmap concat]. rewrite <- app_assoc.
  by rewrite scanstring_escape_char, IH.
Qed.

Lemma scan_once_string (fuel : nat) (s rest : str) :
  unicode_text s →
  scan_once (S fuel) (encode_string s ++ rest) = Some (PStr s, rest).
Proof.
  intros Hs. unfold encode_string. cbn [app scan_once].
  rewrite <- app_assoc. cbn [app].
  assert ((QUOTE =? QUOTE) = true) as -> by done.
  by rewrite scanstring_encoded.
Qed.

Lemma skip_ws_encoded (s rest : str) :
  skip_ws (encode_string s ++ rest) = encode_string s ++ rest.
Proof. done. Qed.

Lemma length_encode_string (s : str) : (2 <= length (encode_string s))%nat.
Proof. unfold encode_string. cbn [length]. rewrite length_app. cbn [length]. lia. Qed.

Lemma length_join_encoded (l : list str) :
  (length l <= length (join (py ", ") (encode_string <$> l)))%nat.
Proof.
  induction l as [|s [|s' l] IH]; [done| |].
  - pose proof (length_encode_string s). cbn [fmap list_fmap join length]. lia.
  - change (join (py ", ") (encode_string <$> s :: s' :: l))
      with (encode_string s ++ py ", " ++ join (py ", ") (encode_string <$> s' :: l)).
    pose proof (length_encode_string s).
    rewrite !length_app. cbn [length] in *. lia.
Qed.

Lemma scan_items_strings (l : list str) (fuel : nat) (rest : str) :
  l ≠ [] → Forall unicode_text l → (length l < fuel)%nat →
  scan_items fuel (join (py ", ") (encode_string <$> l) ++ 93 :: rest)
  = Some (PStr <$> l, rest).
Proof.
  revert fuel. induction l as [|s [|s' l] IH]; intros fuel Hne Hl Hfuel; [done| |].
  - destruct fuel as [|fuel]; [cbn in Hfuel; lia|]. cbn [scan_items].
    destruct fuel as [|fuel]; [cbn in Hfuel; lia|].
    apply Forall_cons in Hl as [Hs _].
    change (join (py ", ") (encode_string <$> [s])) with (encode_string s).
    by rewrite scan_once_string.
  - destruct fuel as [|fuel]; [cbn in Hfuel; lia|]. cbn [scan_items].
    destruct fuel as [|fuel]; [cbn in Hfuel; lia|].
    apply Forall_cons in Hl as [Hs Hl].
    change (join (py ", ") (encode_string <$> s :: s' :: l))
      with (encode_string s ++ py ", " ++ join (py ", ") (encode_string <$> s' :: l)).
    rewrite <- !app_assoc. rewrite scan_once_string by done.
    cbn [mbind option_bind].
    change (py ", " ++ ?x) with (44 :: 32 :: x).
    assert (skip_ws (join (py ", ") (encode_string <$> s' :: l) ++ 93 :: rest)
            = join (py ", ") (encode_string <$> s' :: l) ++ 93 :: rest) as Hskip.
    { destruct l; done. }
    change (skip_ws (44 :: ?x)) with (44 :: x). cbv iota.
    change (44 =? 93) with false. change (44 =? 44) with true. cbv iota.
    change (skip_ws (32 :: ?x)) with (skip_ws x). rewrite Hskip.
    rewrite IH; [done|done|done|]. cbn [length] in *. lia.
Qed.

Lemma dumps_strings (l : list str) :
  dumps (PList (PStr <$> l)) = 91 :: join (py ", ") (encode_string <$> l) ++ [93].
Proof.
  cbn [dumps]. do 3 f_equal. induction l as [|s l IH]; [done|].
  cbn [fmap list_fmap dumps]. by f_equal.
Qed.

(** [json.loads(json.dumps(l)) == l] for a list of well-formed strings. *)
Lemma loads_dumps_strings (l : list str) :
  Forall unicode_text l →
  loads (dumps (PList (PStr <$> l))) = Some (PList (PStr <$> l)).
Proof.
  intros Hl. destruct l as [|s l]; [done|].
  rewrite dumps_strings. unfold loads. cbn [length skip_ws].
  change (is_ws 91) with false. cbv iota. cbn [scan_once].
  change (91 =? QUOTE) with false. change (91 =? 91) with true. cbv iota.
  assert (∀ r, skip_ws (join (py ", ") (encode_string <$> s :: l) ++ r)
             = QUOTE :: concat (escape_char <$> s)
                 ++ QUOTE :: match l with
                             | [] => r
                             | _ => py ", " ++ join (py ", ") (encode_string <$> l) ++ r
                             end) as Hskip.
  { intros r. destruct l; cbn; by rewrite <- !app_assoc. }
  rewrite Hskip. change (QUOTE =? 93) with false. cbv iota.
  rewrite <- Hskip. clear Hskip.
  assert (∀ r, skip_ws (join (py ", ") (encode_string <$> s :: l) ++ r)
             = join (py ", ") (encode_string <$> s :: l) ++ r) as ->.
  { intros r. by destruct l. }
  rewrite scan_items_strings; [done|done|done|].
  pose proof (length_join_encoded (s :: l)). rewrite length_app. cbn [length] in *.
  lia.
Qed.

Lemma dumps_strings_truthy (l : list str) :
  truthy (PStr (dumps (PList (PStr <$> l)))) = true.
Proof. by rewrite dumps_strings. Qed.

End JsonFacts.

(** ** Saving a profile and reading it back *)

Section SaveProfile.

Variable cast : affinity → sqlval → sqlval.

(** What a successful upsert leaves in the table. *)
Lemma insert_profile_ok (d : list (str * pyval)) (now utcnow : datetime)
    (t t' : table 19) (profile_id : str) (c : pyval) :
  assoc (py "profile_id") d = Some (PStr profile_id) →
  assoc (py "countries") d = Some c →
  App.insert_profile cast (PDict d) now utcnow t = Ok t' →
  ∃ new,
    rows t' = filter (λ r', ¬ conflicts user_profiles_schema new r') (rows t) ++ [new]
    ∧ new !!! 1%fin = SText profile_id
    ∧ new !!! 14%fin = SText (Json.dumps c).
Proof.
  intros Hpid Hc. unfold App.insert_profile.
  cbn [py_get py_getitem mbind result_bind]. rewrite Hpid, Hc.
  cbn [from_option id mbind result_bind].
  destruct (assoc (py "user_id") d) as [user_id|]; [|done].
  cbn [mbind result_bind].
  repeat match goal with
  | |- context [from_option id PNone ?x] =>
      generalize (from_option id PNone x); intro
  end.
  cbn [mapM mbind result_bind mret result_ret bind].
  repeat match goal with
  | |- context [bind ?v] =>
      destruct (bind v); [|done]; cbn [mbind result_bind]
  end.
  cbn [mbind result_bind mret result_ret].
  unfold execute_insert. rewrite bool_decide_eq_true_2 by reflexivity.
  cbn [negb]. destruct (mapM _ _); [|done]. cbn [mbind result_bind].
  destruct (violates_notnull _ _); [done|].
  intros [= <-]. eexists. split; [reflexivity|]. split.
  - unfold new_row. by rewrite lookup_fun_to_vec.
  - unfold new_row. by rewrite lookup_fun_to_vec.
Qed.

Lemma conflicts_same_profile_id (new r : vec sqlval 19) (profile_id : str) :
  new !!! 1%fin = SText profile_id → r !!! 1%fin = SText profile_id →
  conflicts user_profiles_schema new r = true.
Proof.
  intros Hnew Hr. unfold conflicts. apply existsb_exists. exists 1%fin. split.
  - apply list_elem_of_In. change (fin_enum 19) with (enum (fin 19)).
    apply elem_of_enum.
  - rewrite Hnew, Hr. cbn. by rewrite bool_decide_eq_true_2.
Qed.


End SaveProfile.

(** ** Chat messages *)

Lemma sql_leb_total (a b : sqlval) : sql_leb a b = true ∨ sql_leb b a = true.
Proof.
  destruct a, b; simpl; auto using str_leb_total.
  destruct (Z.leb_spec z z0), (Z.leb_spec z0 z); auto; lia.
Qed.

Lemma sql_leb_trans (a b c : sqlval) :
  sql_leb a b = true → sql_leb b c = true → sql_leb a c = true.
Proof.
  destruct a, b, c; simpl; try done; eauto using str_leb_trans.
  rewrite !Z.leb_le. lia.
Qed.

Global Instance desc_by_total {n} (j : fin n) : Total (desc_by j).
Proof.
  intros a b. unfold desc_by.
  destruct (sql_leb_total (b !!! j) (a !!! j)) as [->| ->]; simpl; auto.
Qed.

Global Instance desc_by_trans {n} (j : fin n) : Transitive (desc_by j).
Proof.
  intros a b c. unfold desc_by. rewrite !Is_true_true.
  eauto using sql_leb_trans.
Qed.

Section Messages.

Variable cast : affinity → sqlval → sqlval.

(** A successful INSERT of a message appends one row, which carries
    the [profile_id] of the body. *)
Lemma insert_message_ok (d : list (str * pyval)) (utcnow : datetime)
    (t t' : table 8) (profile_id : str) :
  assoc (py "profile_id") d = Some (PStr profile_id) →
  App.insert_message cast (PDict d) utcnow t = Ok t' →
  ∃ new, rows t' = rows t ++ [new] ∧ new !!! 1%fin = SText profile_id.
Proof.
  intros Hpid. unfold App.insert_message.
  cbn [py_get mbind result_bind]. rewrite Hpid.
  cbn [from_option id].
  repeat match goal with
  | |- context [from_option id ?y ?x] =>
      generalize (from_option id y x); intro
  end.
  cbn [mapM mbind result_bind mret result_ret bind].
  repeat match goal with
  | |- context [bind ?v] =>
      destruct (bind v); [|done]; cbn [mbind result_bind]
  end.
  cbn [mbind result_bind mret result_ret].
  unfold execute_insert. rewrite bool_decide_eq_true_2 by reflexivity.
  cbn [negb]. destruct (mapM _ _); [|done]. cbn [mbind result_bind].
  destruct (violates_notnull _ _); [done|].
  destruct (existsb _ _); [done|].
  intros [= <-]. eexists. split; [reflexivity|].
  unfold new_row. by rewrite lookup_fun_to_vec.
Qed.

Lemma post_messages_count (profile_id : str) (posts : list (pyval * datetime))
    (w w' : world) :
  Forall (λ p, field p.1 "profile_id" = Some (PStr profile_id)) posts →
  post_messages cast w posts = Some w' →
  db w' = db w
  ∧ length (filter (λ r, r !!! 1%fin = SText profile_id) (rows (chat_messages (tables w'))))
    = (length (filter (λ r, r !!! 1%fin = SText profile_id)
                 (rows (chat_messages (tables w)))) + length posts)%nat.
Proof.
  intros Hposts. revert w. induction Hposts as [|[body utcnow] posts Hpid _ IH];
    intros w Hrun.
  - injection Hrun as <-. cbn [length]. split; [done|lia].
  - cbn [post_messages fst snd] in Hrun. unfold App.save_chat_message in Hrun.
    destruct (db w) as [manager|] eqn:Hdb; [|done].
    destruct body as [| | | | | |d]; try done. cbn [field fst] in Hpid.
    destruct (App.insert_message _ _ _ _) as [t'|e] eqn:Hins; [|done].
    destruct (insert_message_ok _ _ _ _ _ Hpid Hins) as (new & Hrows & Hnew).
    cbn [fst snd status success] in Hrun.
    apply IH in Hrun as [Hdb' Hlen].
    cbn [set_messages db tables chat_messages] in Hdb', Hlen.
    split; [by rewrite Hdb'|].
    rewrite Hlen, Hrows, filter_app, filter_cons_True, filter_nil by done.
    rewrite length_app. cbn [length]. lia.
Qed.

Lemma select_messages_eq (profile_id : str) (limit : Z) (t : table 8) :
  (- 2 ^ 63 <= limit < 2 ^ 63)%Z →
  App.select_messages profile_id limit t
  = Ok (limit_rows limit
          (merge_sort (desc_by 7%fin)
             (filter (λ r, r !!! 1%fin = SText profile_id) (rows t)))).
Proof.
  intros Hlimit. unfold App.select_messages. cbn [bind mbind result_bind].
  assert (((- 2 ^ 63 <=? limit) && (limit <? 2 ^ 63))%Z = true) as ->.
  { apply andb_true_iff. rewrite Z.leb_le, Z.ltb_lt. lia. }
  cbn [mbind result_bind]. unfold select_where, order_by_desc.
  assert (resolve chat_messages_schema (py "profile_id") = Ok 1%fin) as ->
    by reflexivity.
  assert (resolve chat_messages_schema (py "created_at") = Ok 7%fin) as ->
    by reflexivity.
  cbn [mbind result_bind]. by rewrite filter_sql_eqb_text.
Qed.


End Messages.

(** ** The backup routine on a healthy directory *)

Module BackupFacts.
Import DatabaseManager.

Lemma after_fault_none {A} (call : filesystem → result A * filesystem) fs :
  faults fs = [] → after_fault call fs = call fs.
Proof. intros H. unfold after_fault, fault. by rewrite H. Qed.

Lemma set_dirs_same fs : set_dirs fs (dirs fs) = fs.
Proof. by destruct fs. Qed.

Lemma fsM_bind_ok {A B} (m : fsM A) (f : A → fsM B) fs a fs' :
  m fs = (Ok a, fs') → (m ≫= f) fs = f a fs'.
Proof. intros H. unfold mbind, fsM_bind. by rewrite H. Qed.

Lemma fsM_bind_raise {A B} (m : fsM A) (f : A → fsM B) fs e fs' :
  m fs = (Raise e, fs') → (m ≫= f) fs = (Raise e, fs').
Proof. intros H. unfold mbind, fsM_bind. by rewrite H. Qed.

(** A probe of a usable directory leaves it without the test file. *)
Lemma probe_ready fs d :
  faults fs = [] → d ∉ denied fs →
  entries_of fs d !! py "test_write" ≠ Some Directory →
  probe d fs
  = (Ok tt, set_dirs fs (<[d := delete (py "test_write") (entries_of fs d)]> (dirs fs))).
Proof.
  intros Hf Hd Htw. unfold probe, entries_of in *.
  set (tw := py "test_write") in *.
  assert (∃ fs1, makedirs d fs = (Ok tt, fs1) ∧ faults fs1 = [] ∧ denied fs1 = denied fs
            ∧ database_file fs1 = database_file fs
            ∧ dirs fs1 = <[d := default ∅ (dirs fs !! d)]> (dirs fs))
    as (fs1 & Hm & Hf1 & Hd1 & Hdb1 & Hdirs1).
  { unfold makedirs. rewrite after_fault_none by done.
    destruct (dirs fs !! d) as [entries|] eqn:He.
    - exists fs. repeat split; try done. cbn. by rewrite insert_id.
    - rewrite bool_decide_eq_false_2 by done. eexists. by repeat split. }
  erewrite fsM_bind_ok by exact Hm.
  assert (write_file d tw (py "test") fs1
          = (Ok tt, set_dirs fs1
               (<[d := <[tw := File (py "test")]> (default ∅ (dirs fs !! d))]> (dirs fs1))))
    as Hw.
  { unfold write_file. rewrite after_fault_none by done.
    rewrite Hdirs1, lookup_insert_eq. rewrite Hd1, bool_decide_eq_false_2 by done.
    destruct (default ∅ (dirs fs !! d) !! tw) as [[]|] eqn:E; try done. }
  erewrite fsM_bind_ok by exact Hw.
  unfold remove. rewrite after_fault_none by done.
  cbn [dirs set_dirs denied]. rewrite lookup_insert_eq, lookup_insert_eq.
  rewrite Hd1, bool_decide_eq_false_2 by done.
  unfold set_dirs. cbn [dirs denied database_file faults].
  rewrite Hd1, Hdb1, Hf1, Hdirs1, !insert_insert_eq, delete_insert_eq.
  rewrite Hf. done.
Qed.

(** A probe of a directory that denies writing fails and changes nothing. *)
Lemma probe_denied fs d :
  faults fs = [] → d ∈ denied fs → ∃ e, probe d fs = (Raise e, fs).
Proof.
  intros Hf Hd. unfold probe, makedirs.
  destruct (dirs fs !! d) as [entries|] eqn:He.
  - eexists. erewrite fsM_bind_ok; last first.
    { rewrite after_fault_none by done. by rewrite He. }
    erewrite fsM_bind_raise; [done|]. unfold write_file.
    rewrite after_fault_none by done. rewrite He.
    by rewrite bool_decide_eq_true_2.
  - eexists. erewrite fsM_bind_raise; [done|].
    rewrite after_fault_none by done. rewrite He.
    by rewrite bool_decide_eq_true_2.
Qed.

Lemma choose_backup_dir_ready fs (skipped rest : list str) d :
  faults fs = [] → Forall (λ c, c ∈ denied fs) skipped → d ∉ denied fs →
  entries_of fs d !! py "test_write" ≠ Some Directory →
  choose_backup_dir (skipped ++ d :: rest) fs
  = (Ok (Some d),
     set_dirs fs (<[d := delete (py "test_write") (entries_of fs d)]> (dirs fs))).
Proof.
  intros Hf Hs Hd Htw. induction Hs as [|c skipped Hc _ IH].
  - cbn [app choose_backup_dir]. unfold try_except.
    erewrite fsM_bind_ok by (by apply probe_ready). done.
  - cbn [app choose_backup_dir]. unfold try_except.
    destruct (probe_denied fs c Hf Hc) as [e He].
    erewrite fsM_bind_raise by exact He. apply IH.
Qed.

End BackupFacts.

(** ** The backup files of a directory *)

Module RotateFacts.
Import DatabaseManager.

(** The sorted list of backup names among the keys of [e]. *)
Abbreviation listing e := (backup_files (map_to_list e).*1).

Lemma elem_of_keys (e : gmap str node) (x : str) :
  x ∈ (map_to_list e).*1 ↔ is_Some (e !! x).
Proof.
  rewrite list_elem_of_fmap. split.
  - intros ([k v] & -> & Hin). apply elem_of_map_to_list in Hin. by exists v.
  - intros [v Hv]. exists (x, v). split; [done|]. by apply elem_of_map_to_list.
Qed.

Lemma elem_of_listing (e : gmap str node) (x : str) :
  x ∈ listing e ↔ startswith x backup_prefix = true ∧ is_Some (e !! x).
Proof.
  unfold backup_files. rewrite merge_sort_Permutation, list_elem_of_filter.
  by rewrite elem_of_keys, Is_true_true.
Qed.

Lemma NoDup_listing (e : gmap str node) : NoDup (listing e).
Proof.
  unfold backup_files. rewrite merge_sort_Permutation.
  apply NoDup_filter, NoDup_fst_map_to_list.
Qed.

Lemma sorted_listing (e : gmap str node) : StronglySorted str_le (listing e).
Proof. unfold backup_files. apply StronglySorted_merge_sort; apply _. Qed.

(** The listing is determined by its elements. *)
Lemma listing_unique (e : gmap str node) (l : list str) :
  StronglySorted str_le l → NoDup l →
  (∀ x, x ∈ l ↔ startswith x backup_prefix = true ∧ is_Some (e !! x)) →
  listing e = l.
Proof.
  intros Hs Hn Hl. apply (StronglySorted_unique str_le); [apply sorted_listing|done|].
  apply NoDup_Permutation; [apply NoDup_listing|done|].
  intros x. by rewrite elem_of_listing, Hl.
Qed.

Lemma lookup_foldl_delete (e : gmap str node) (l : list str) (k : str) :
  foldl (λ e n, delete n e) e l !! k = if decide (k ∈ l) then None else e !! k.
Proof.
  revert e. induction l as [|n l IH]; intros e; cbn [foldl].
  - by rewrite decide_False by apply not_elem_of_nil.
  - rewrite IH. destruct (decide (k ∈ l)) as [Hl|Hl].
    + by rewrite decide_True by (by right).
    + destruct (decide (k = n)) as [->|Hn].
      * rewrite decide_True by (by left). apply lookup_delete_eq.
      * rewrite decide_False by (rewrite elem_of_cons; tauto).
        by apply lookup_delete_ne.
Qed.

(** Removing the first [k] backups leaves the others. *)
Lemma listing_after_removal (e : gmap str node) (k : nat) :
  listing (foldl (λ e n, delete n e) e (take k (listing e))) = drop k (listing e).
Proof.
  pose proof (sorted_listing e) as Hs. pose proof (NoDup_listing e) as Hn.
  rewrite <- (take_drop k (listing e)) in Hs, Hn.
  apply NoDup_app in Hn as (_ & Hdisj & Hn).
  apply listing_unique; [by eapply StronglySorted_app_1_r|done|].
  intros x. rewrite lookup_foldl_delete. split.
  - intros Hx. assert (x ∈ listing e) as Hx'
      by (rewrite <- (take_drop k (listing e)), elem_of_app; by right).
    apply elem_of_listing in Hx' as [Hm He]. split; [done|].
    rewrite decide_False; [done|]. intros Ht. by eapply Hdisj.
  - intros [Hm He]. destruct (decide (x ∈ take k (listing e))) as [|Ht].
    { by destruct He. }
    assert (x ∈ listing e) as Hx by (by apply elem_of_listing).
    rewrite <- (take_drop k (listing e)), elem_of_app in Hx. tauto.
Qed.

(** The test file is not a backup. *)
Lemma test_write_not_backup : startswith (py "test_write") backup_prefix = false.
Proof. reflexivity. Qed.

Lemma backup_name_matches (now : datetime) :
  startswith (backup_name now) backup_prefix = true.
Proof. unfold backup_name. apply startswith_app. Qed.

Lemma listing_delete_test_write (e : gmap str node) :
  listing (delete (py "test_write") e) = listing e.
Proof.
  apply listing_unique; [apply sorted_listing|apply NoDup_listing|].
  intros x. rewrite elem_of_listing. split; intros [Hm He]; (split; [done|]).
  - rewrite lookup_delete_ne; [done|]. intros <-.
    by rewrite test_write_not_backup in Hm.
  - rewrite lookup_delete_ne in He; [done|]. intros <-.
    by rewrite test_write_not_backup in Hm.
Qed.

(** The listing after one backup: the last five of the old backups
    together with the new one. *)
Lemma listing_rotate (e : gmap str node) (name content : str) :
  let copied := <[name := File content]> (delete (py "test_write") e) in
  listing (rotate e name content)
  = drop (length (listing copied) - 5) (listing copied).
Proof. intros copied. unfold rotate, all_but_last5. apply listing_after_removal. Qed.

Lemma elem_of_listing_copied (e : gmap str node) (name content x : str) :
  startswith name backup_prefix = true →
  x ∈ listing (<[name := File content]> (delete (py "test_write") e))
  ↔ x = name ∨ x ∈ listing e.
Proof.
  intros Hname. rewrite <- (listing_delete_test_write e), !elem_of_listing.
  destruct (decide (x = name)) as [->|Hx].
  - rewrite lookup_insert_eq. intuition eauto.
  - rewrite lookup_insert_ne by done. intuition congruence.
Qed.

Lemma length_listing_copied (e : gmap str node) (name content : str) :
  startswith name backup_prefix = true →
  length (listing (<[name := File content]> (delete (py "test_write") e)))
  = if decide (name ∈ listing e) then length (listing e) else S (length (listing e)).
Proof.
  intros Hname. destruct (decide (name ∈ listing e)) as [Hin|Hin].
  - apply Permutation_length, NoDup_Permutation; [apply NoDup_listing..|].
    intros x. rewrite elem_of_listing_copied by done. intuition congruence.
  - change (S (length (listing e))) with (length (name :: listing e)).
    apply Permutation_length, NoDup_Permutation; [apply NoDup_listing| |].
    + constructor; [done|apply NoDup_listing].
    + intros x. rewrite elem_of_listing_copied by done. by rewrite elem_of_cons.
Qed.

End RotateFacts.

(** ** One backup on a ready directory *)

Module BackupRun.
Import DatabaseManager BackupFacts RotateFacts.

Lemma remove_each_files (d : str) (l : list str) (fs : filesystem) (e : gmap str node) :
  faults fs = [] → d ∉ denied fs → dirs fs !! d = Some e → NoDup l →
  (∀ n, n ∈ l → ∃ c, e !! n = Some (File c)) →
  remove_each d l fs
  = (Ok tt, set_dirs fs (<[d := foldl (λ e n, delete n e) e l]> (dirs fs))).
Proof.
  revert fs e. induction l as [|n l IH]; intros fs e Hf Hd He Hn Hl.
  - cbn [remove_each foldl]. by rewrite insert_id, set_dirs_same.
  - cbn [remove_each foldl]. apply NoDup_cons in Hn as [Hnl Hn].
    destruct (Hl n) as [c Hc]; [by left|].
    erewrite fsM_bind_ok; last first.
    { unfold remove. rewrite after_fault_none by done. rewrite He, Hc.
      by rewrite bool_decide_eq_false_2. }
    erewrite IH; [|done|done|apply lookup_insert_eq|done|].
    + unfold set_dirs. cbn [dirs denied database_file faults].
      by rewrite insert_insert_eq.
    + intros m Hm. destruct (Hl m) as [c' Hc']; [by right|]. exists c'.
      rewrite lookup_delete_ne; [done|]. by intros ->.
Qed.

(** The backup routine on a ready directory [d] chosen after the
    candidates [skipped]: it returns normally and rotates the entries
    of [d]. *)
Lemma create_backup_ready (self : t) (now : datetime) (fs : filesystem)
    (skipped rest : list str) (d content : str) :
  backup_dirs self = skipped ++ d :: rest →
  Forall (λ c, c ∈ denied fs) skipped →
  ready fs d → database_file fs = Some content →
  create_backup self now fs
  = (Ok tt, set_dirs fs (<[d := rotate (entries_of fs d) (backup_name now) content]> (dirs fs))).
Proof.
  intros Hdirs Hskip (Hf & _ & Hd & Hne & Htw & Hfiles) Hdb.
  unfold create_backup, try_except.
  erewrite fsM_bind_ok; last first.
  { rewrite Hdirs. by apply choose_backup_dir_ready. }
  destruct d as [|c0 d0]; [done|]. set (d := c0 :: d0) in *.
  set (e1 := delete (py "test_write") (entries_of fs d)).
  set (fs1 := set_dirs fs (<[d := e1]> (dirs fs))).
  set (name := backup_name now).
  assert (∀ n, startswith n backup_prefix = true → e1 !! n ≠ Some Directory) as Hfiles1.
  { intros n Hn. unfold e1. rewrite lookup_delete_ne; [by apply Hfiles|].
    intros <-. by rewrite test_write_not_backup in Hn. }
  set (e2 := <[name := File content]> e1).
  erewrite fsM_bind_ok; last first.
  { unfold copy2. rewrite after_fault_none by done.
    cbn [fs1 set_dirs database_file dirs denied]. rewrite Hdb, lookup_insert_eq.
    rewrite bool_decide_eq_false_2 by done.
    pose proof (Hfiles1 name (backup_name_matches now)) as Hname.
    instantiate (1 := set_dirs fs1 (<[d := e2]> (dirs fs1))).
    instantiate (1 := tt).
    by destruct (e1 !! name) as [[]|]. }
  set (fs2 := set_dirs fs1 (<[d := e2]> (dirs fs1))).
  erewrite fsM_bind_ok; last first.
  { unfold listdir. rewrite after_fault_none by done.
    cbn [fs2 fs1 set_dirs dirs]. by rewrite lookup_insert_eq. }
  erewrite remove_each_files; [|done|done|apply lookup_insert_eq| |].
  - unfold fs2, fs1, set_dirs. cbn [dirs denied database_file faults].
    by rewrite !insert_insert_eq.
  - eapply sublist_NoDup; [apply NoDup_listing|apply sublist_take].
  - intros n Hn. apply elem_of_take in Hn as (i & Hn & _).
    apply list_elem_of_lookup_2, elem_of_listing in Hn as [Hm [v Hv]].
    destruct v as [c|]; [by exists c|]. exfalso.
    unfold e2 in Hv. destruct (decide (n = name)) as [->|Hnn].
    + by rewrite lookup_insert_eq in Hv.
    + rewrite lookup_insert_ne in Hv by done. by eapply Hfiles1.
Qed.

(** A ready directory is ready again after a backup. *)
Lemma ready_after_backup (fs : filesystem) (d name content : str) :
  startswith name backup_prefix = true →
  ready fs d →
  ready (set_dirs fs (<[d := rotate (entries_of fs d) name content]> (dirs fs))) d.
Proof.
  intros Hname (Hf & Hdb & Hd & Hne & Htw & Hfiles).
  unfold ready, entries_of. cbn [set_dirs faults database_file denied dirs].
  rewrite lookup_insert_eq. cbn [default from_option id].
  repeat split; try done.
  - unfold rotate. rewrite lookup_foldl_delete. case_decide; [done|].
    rewrite lookup_insert_ne, lookup_delete_eq; [done|].
    intros ->. by rewrite test_write_not_backup in Hname.
  - intros n Hn. unfold rotate. rewrite lookup_foldl_delete. case_decide; [done|].
    destruct (decide (n = name)) as [->|Hnn].
    + by rewrite lookup_insert_eq.
    + rewrite lookup_insert_ne by done. rewrite lookup_delete_ne; [by apply Hfiles|].
      intros <-. by rewrite test_write_not_backup in Hn.
Qed.

End BackupRun.

(** ** Successive backups *)

Module SuccessiveBackups.
Import DatabaseManager BackupFacts RotateFacts BackupRun.

Section Runs.

Context (self : t) (skipped rest : list str) (d content : str).
Hypothesis Hdirs : backup_dirs self = skipped ++ d :: rest.

Local Abbreviation steady := (steady self skipped d content).

Lemma backup_step (w : world) (now : datetime) :
  steady w →
  App.create_backup w now
  = (success "Backup created successfully",
     set_disk w (set_dirs (disk w)
       (<[d := rotate (entries_of (disk w) d) (backup_name now) content]>
          (dirs (disk w)))))
  ∧ steady (App.create_backup w now).2.
Proof.
  intros (Hdb & Hskip & Hready & Hfile).
  assert (App.create_backup w now
          = (success "Backup created successfully",
             set_disk w (set_dirs (disk w)
               (<[d := rotate (entries_of (disk w) d) (backup_name now) content]>
                  (dirs (disk w)))))) as Heq.
  { unfold App.create_backup. rewrite Hdb.
    by erewrite create_backup_ready. }
  split; [done|]. rewrite Heq. cbn [snd]. unfold steady.
  cbn [set_disk db disk set_dirs denied database_file].
  split; [done|]. split; [done|]. split; [|done].
  apply (ready_after_backup (disk w)); [apply backup_name_matches|done].
Qed.

Lemma backups_after_step (w : world) (now : datetime) :
  steady w →
  let copied := <[backup_name now := File content]>
                  (delete (py "test_write") (entries_of (disk w) d)) in
  backups_in (disk (App.create_backup w now).2) d
  = drop (length (backup_files (map_to_list copied).*1) - 5)
         (backup_files (map_to_list copied).*1).
Proof.
  intros Hw copied. destruct (backup_step w now Hw) as [-> _]. cbn [snd].
  unfold backups_in, entries_of at 1. cbn [set_disk disk set_dirs dirs].
  rewrite lookup_insert_eq. cbn [default from_option id].
  apply listing_rotate.
Qed.

Lemma steady_trigger (w : world) (moments : list datetime) :
  steady w → steady (trigger_backups w moments).
Proof.
  revert w. induction moments as [|now moments IH]; intros w Hw; [done|].
  cbn [trigger_backups foldl]. apply IH. by apply backup_step.
Qed.

(** After a backup either five (or more) backups were there before and
    five remain, or every earlier backup and the new one are there. *)
Lemma step_count (w : world) (now : datetime) :
  steady w →
  let before := backups_in (disk w) d in
  let after := backups_in (disk (App.create_backup w now).2) d in
  (length after <= 5)%nat
  ∧ ((5 <= length before)%nat ∧ length after = 5%nat
     ∨ (length before < 5)%nat
       ∧ ∀ x, x ∈ after ↔ x = backup_name now ∨ x ∈ before).
Proof.
  intros Hw before after. unfold after. rewrite backups_after_step by done.
  set (copied := <[backup_name now := File content]>
                   (delete (py "test_write") (entries_of (disk w) d))).
  pose proof (length_listing_copied (entries_of (disk w) d) (backup_name now)
                content (backup_name_matches now)) as Hlen.
  fold copied in Hlen. fold (backups_in (disk w) d) in Hlen. fold before in Hlen.
  rewrite length_drop. split; [lia|].
  destruct (decide (5 <= length before)%nat) as [Hfive|Hfew].
  - left. split; [done|]. case_decide; lia.
  - right. split; [lia|]. intros x.
    replace (length (backup_files (map_to_list copied).*1) - 5)%nat with 0%nat
      by (case_decide; lia).
    rewrite drop_0. unfold copied.
    by rewrite elem_of_listing_copied by apply backup_name_matches.
Qed.

(** The invariant of a series of backups. *)
Lemma trigger_count (w : world) (moments : list datetime) (seen : list str) :
  steady w →
  (5 <= length (backups_in (disk w) d))%nat
  ∨ (∀ x, x ∈ seen → x ∈ backups_in (disk w) d) →
  let after := backups_in (disk (trigger_backups w moments)) d in
  (5 <= length after)%nat
  ∨ (∀ x, x ∈ seen ++ (backup_name <$> moments) → x ∈ after).
Proof.
  revert w seen. induction moments as [|now moments IH]; intros w seen Hw Hinv.
  - cbn [trigger_backups foldl fmap list_fmap]. by rewrite app_nil_r.
  - cbn [trigger_backups foldl fmap list_fmap].
    specialize (IH (App.create_backup w now).2 (seen ++ [backup_name now])).
    rewrite <- app_assoc in IH. apply IH; [by apply backup_step|].
    destruct (step_count w now Hw) as [_ [[_ ->]|[Hfew Hafter]]]; [by left|].
    right. intros x [Hx|Hx%list_elem_of_singleton]%elem_of_app;
      apply Hafter; [right|by left].
    destruct Hinv as [?|Hseen]; [lia|by apply Hseen].
Qed.

Lemma trigger_at_most_five (w : world) (moments : list datetime) :
  steady w → moments ≠ [] →
  (length (backups_in (disk (trigger_backups w moments)) d) <= 5)%nat.
Proof.
  intros Hw Hne. destruct moments as [|now moments _] using rev_ind; [done|].
  unfold trigger_backups. rewrite foldl_app. cbn [foldl].
  apply step_count. by apply steady_trigger.
Qed.

(** Five or more backups at moments with distinct names leave exactly
    five files. *)
Lemma trigger_exactly_five (w : world) (moments : list datetime) :
  steady w → NoDup (backup_name <$> moments) → (5 <= length moments)%nat →
  length (backups_in (disk (trigger_backups w moments)) d) = 5%nat.
Proof.
  intros Hw Hnd Hlen.
  assert (moments ≠ []) as Hne by (intros ->; cbn in Hlen; lia).
  pose proof (trigger_at_most_five w moments Hw Hne) as Hmost.
  destruct (trigger_count w moments [] Hw) as [?|Hall].
  - right. intros x Hx. by apply not_elem_of_nil in Hx.
  - lia.
  - cbn [app] in Hall.
    assert (length (backup_name <$> moments)
            <= length (backups_in (disk (trigger_backups w moments)) d))%nat.
    { apply submseteq_length, NoDup_submseteq; done. }
    rewrite length_fmap in *. lia.
Qed.

End Runs.

End SuccessiveBackups.

(** ** Backup names sort chronologically *)

Module NameOrder.
Import DatabaseManager.

#[local] Ltac Zify.zify_post_hook ::= Z.to_euclidean_division_equations.

Lemma str_leb_app_same (p x y : str) : str_leb (p ++ y) (p ++ x) = str_leb y x.
Proof.
  induction p as [|c p IH]; [done|]. cbn [app str_leb].
  by rewrite N.ltb_irrefl, N.eqb_refl.
Qed.

Lemma str_lt_irrefl (a : str) : ¬ str_lt a a.
Proof. unfold str_lt. by rewrite str_leb_refl. Qed.

Lemma str_lt_le (a b : str) : str_lt a b → str_le a b.
Proof.
  unfold str_lt, str_le. intros H.
  destruct (str_leb_total a b) as [->|Hba]; [done|congruence].
Qed.

Lemma str_lt_ne (a b : str) : str_lt a b → a ≠ b.
Proof. intros H ->. by apply str_lt_irrefl in H. Qed.

(** Case analysis on the comparisons of the goal. *)
Ltac compare_digits :=
  repeat match goal with
  | |- context [?u <? ?v] => destruct (N.ltb_spec u v)
  | |- context [?u =? ?v] => destruct (N.eqb_spec u v)
  end;
  try done; exfalso; lia.

Lemma zfill2_digits (a : N) :
  a < 100 →
  ∃ a1 a0, zfill 2 a = [48 + a1; 48 + a0] ∧ a = a1 * 10 + a0 ∧ a1 < 10 ∧ a0 < 10.
Proof.
  intros Ha. exists ((a / 10) mod 10), (a mod 10). split; [reflexivity|]. lia.
Qed.

Lemma zfill4_digits (a : N) :
  a < 10000 →
  ∃ a3 a2 a1 a0,
    zfill 4 a = [48 + a3; 48 + a2; 48 + a1; 48 + a0]
    ∧ a = a3 * 1000 + a2 * 100 + a1 * 10 + a0
    ∧ a3 < 10 ∧ a2 < 10 ∧ a1 < 10 ∧ a0 < 10.
Proof.
  intros Ha.
  exists ((a / 10 / 10 / 10) mod 10), ((a / 10 / 10) mod 10), ((a / 10) mod 10),
         (a mod 10).
  split; [reflexivity|]. lia.
Qed.

Lemma zfill2_lt (a b : N) (x y : str) :
  a < b → b < 100 → str_leb (zfill 2 b ++ y) (zfill 2 a ++ x) = false.
Proof.
  intros Hab Hb.
  destruct (zfill2_digits a) as (a1 & a0 & -> & Ha & ? & ?); [lia|].
  destruct (zfill2_digits b) as (b1 & b0 & -> & Hb' & ? & ?); [lia|].
  clear Hb. subst a b. cbn [app str_leb]. compare_digits.
Qed.

Lemma zfill4_lt (a b : N) (x y : str) :
  a < b → b < 10000 → str_leb (zfill 4 b ++ y) (zfill 4 a ++ x) = false.
Proof.
  intros Hab Hb.
  destruct (zfill4_digits a) as (a3 & a2 & a1 & a0 & -> & Ha & ? & ? & ? & ?); [lia|].
  destruct (zfill4_digits b) as (b3 & b2 & b1 & b0 & -> & Hb' & ? & ? & ? & ?); [lia|].
  clear Hb. subst a b. cbn [app str_leb]. compare_digits.
Qed.

(** A later moment has a greater backup name. *)
Lemma backup_name_lt (dt1 dt2 : datetime) :
  valid_datetime dt1 → valid_datetime dt2 → chrono dt1 < chrono dt2 →
  str_lt (backup_name dt1) (backup_name dt2).
Proof.
  destruct dt1 as [y1 mo1 d1 h1 mi1 s1 us1], dt2 as [y2 mo2 d2 h2 mi2 s2 us2].
  unfold valid_datetime, chrono, str_lt, backup_name, strftime.
  cbn [year month day hour minute second microsecond].
  intros (Hy1 & Hmo1 & Hd1 & Hh1 & Hmi1 & Hs1 & _)
         (Hy2 & Hmo2 & Hd2 & Hh2 & Hmi2 & Hs2 & _) Hlt.
  rewrite <- !app_assoc, str_leb_app_same.
  destruct (N.lt_trichotomy y1 y2) as [?|[->|?]]; [apply zfill4_lt; lia| |lia].
  rewrite str_leb_app_same.
  destruct (N.lt_trichotomy mo1 mo2) as [?|[->|?]]; [apply zfill2_lt; lia| |lia].
  rewrite str_leb_app_same.
  destruct (N.lt_trichotomy d1 d2) as [?|[->|?]]; [apply zfill2_lt; lia| |lia].
  rewrite !str_leb_app_same.
  destruct (N.lt_trichotomy h1 h2) as [?|[->|?]]; [apply zfill2_lt; lia| |lia].
  rewrite str_leb_app_same.
  destruct (N.lt_trichotomy mi1 mi2) as [?|[->|?]]; [apply zfill2_lt; lia| |lia].
  rewrite str_leb_app_same.
  destruct (N.lt_trichotomy s1 s2) as [?|[->|?]]; [apply zfill2_lt; lia|lia|lia].
Qed.

End NameOrder.

(** ** The oldest backup goes first *)

Module OldestFirst.
Import DatabaseManager BackupFacts RotateFacts BackupRun SuccessiveBackups NameOrder.

Lemma names_sorted (moments : list datetime) :
  Forall valid_datetime moments →
  StronglySorted (λ a b, chrono a < chrono b) moments →
  StronglySorted str_lt (backup_name <$> moments).
Proof.
  intros Hvalid Hsorted. induction Hsorted as [|now moments _ IH Hnow]; [constructor|].
  apply Forall_cons in Hvalid as [Hv Hvalid]. cbn [fmap list_fmap].
  constructor; [by apply IH|]. apply Forall_fmap, Forall_forall. intros later Hin.
  rewrite Forall_forall in Hnow, Hvalid. apply backup_name_lt; auto.
Qed.

(** Keeping the last five after appending is appending and keeping the
    last five. *)
Lemma last_five_snoc (p : list str) (n : str) :
  let l := drop (length p - 5) p in
  drop (length (l ++ [n]) - 5) (l ++ [n]) = drop (length (p ++ [n]) - 5) (p ++ [n]).
Proof.
  intros l. unfold l. rewrite !length_app, length_drop. cbn [length].
  destruct (decide (length p < 5)%nat) as [Hp|Hp].
  - replace (length p - 5)%nat with 0%nat by lia. rewrite drop_0.
    by replace (length p - 0 + 1 - 5)%nat with (length p + 1 - 5)%nat by lia.
  - replace (length p - (length p - 5) + 1 - 5)%nat with 1%nat by lia.
    rewrite !drop_app_le by (rewrite ?length_drop; lia).
    rewrite drop_drop. do 2 f_equal. lia.
Qed.

Section Runs.

Context (self : t) (skipped rest : list str) (d content : str).
Hypothesis Hdirs : backup_dirs self = skipped ++ d :: rest.

Local Abbreviation steady := (steady self skipped d content).

(** A backup whose name is greater than those present goes to the end
    of the listing, of which the last five are kept. *)
Lemma step_appends (w : world) (now : datetime) :
  steady w →
  Forall (λ x, str_lt x (backup_name now)) (backups_in (disk w) d) →
  let l := backups_in (disk w) d in
  backups_in (disk (App.create_backup w now).2) d
  = drop (length (l ++ [backup_name now]) - 5) (l ++ [backup_name now]).
Proof.
  intros Hw Hlt l. rewrite (backups_after_step self skipped rest d content) by done.
  cbv zeta.
  assert (backup_files
            (map_to_list (<[backup_name now := File content]>
                            (delete (py "test_write") (entries_of (disk w) d)))).*1
          = l ++ [backup_name now]) as ->; [|done].
  rewrite Forall_forall in Hlt.
  apply listing_unique.
  - apply StronglySorted_app_2; [|apply sorted_listing|repeat constructor].
    intros x1 x2 Hx1 ->%list_elem_of_singleton. by apply str_lt_le, Hlt.
  - apply NoDup_app. split; [apply NoDup_listing|]. split; [|apply NoDup_singleton].
    intros x Hx ->%list_elem_of_singleton. by eapply str_lt_irrefl, Hlt.
  - intros x. rewrite <- elem_of_listing.
    rewrite elem_of_listing_copied by apply backup_name_matches.
    rewrite elem_of_app, list_elem_of_singleton. unfold l, backups_in. tauto.
Qed.

Lemma trigger_sorted (moments : list datetime) (p : list str) (w : world) :
  steady w →
  backups_in (disk w) d = drop (length p - 5) p →
  StronglySorted str_lt (p ++ (backup_name <$> moments)) →
  backups_in (disk (trigger_backups w moments)) d
  = drop (length (p ++ (backup_name <$> moments)) - 5) (p ++ (backup_name <$> moments)).
Proof.
  revert p w. induction moments as [|now moments IH]; intros p w Hw Hp Hs.
  - cbn [trigger_backups foldl fmap list_fmap]. by rewrite app_nil_r.
  - cbn [trigger_backups foldl fmap list_fmap] in *.
    rewrite (cons_middle (backup_name now)), app_assoc in *.
    apply IH; [by apply (backup_step self skipped rest d content)| |done].
    rewrite step_appends, Hp; [apply last_five_snoc|done|].
    apply StronglySorted_app_1_l in Hs. apply StronglySorted_app in Hs as (Hlt & _ & _).
    rewrite Hp. apply Forall_forall. intros x Hx. apply Hlt; [|by left].
    eapply elem_of_sublist; [done|apply sublist_drop].
Qed.

End Runs.

End OldestFirst.

(** ** Backups: the results *)

Import DatabaseManager.

(** C5.  The backup routine returns normally from every state of the
    file system, whatever faults are scheduled; so a profile save
    whose statement succeeded is answered with the success response,
    and so is an explicit backup request, whenever the database is
    available. *)
Theorem backup_never_fails_request :
  (∀ self now fs, ∃ fs', create_backup self now fs = (Ok tt, fs'))
  ∧ (∀ cast w manager profile_data now utcnow backup_now t,
       db w = Some manager →
       App.insert_profile cast profile_data now utcnow (user_profiles (tables w)) = Ok t →
       (App.save_user_profile cast w profile_data now utcnow backup_now).1
       = success "Profile saved successfully")
  ∧ (∀ w manager now,
       db w = Some manager →
       (App.create_backup w now).1 = success "Backup created successfully").
Proof.
  assert (∀ self now fs, ∃ fs', create_backup self now fs = (Ok tt, fs')) as Hsafe.
  { intros self now fs. unfold create_backup, try_except.
    match goal with |- context [match ?m with _ => _ end] =>
      destruct m as [[[]|e] fs'] end; by eexists. }
  split; [done|]. split.
  - intros cast w manager profile_data now utcnow backup_now t Hdb Hins.
    unfold App.save_user_profile. rewrite Hdb, Hins.
    by destruct (Hsafe manager backup_now (disk (set_profiles w t))) as [fs' ->].
  - intros w manager now Hdb. unfold App.create_backup. rewrite Hdb.
    by destruct (Hsafe manager now (disk w)) as [fs' ->].
Qed.

(** C4 (amended).  In a world where the backups of the manager go to a
    ready directory [d]:
    - one request copies the database file to the name built from the
      moment and removes from [d] all but the last five backups in the
      order of their names, answering with the success response;
    - six requests at moments with pairwise distinct names leave
      exactly five backups;
    - when [d] held no backup and the six moments are increasing, the
      backups left are those of the last five moments: the oldest one
      was removed. *)
Theorem backups_keep_five (self : t) (skipped rest : list str) (d content : str)
    (w : world) :
  backup_dirs self = skipped ++ d :: rest →
  steady self skipped d content w →
  (∀ now,
     let r := App.create_backup w now in
     let copied := <[backup_name now := File content]>
                     (delete (py "test_write") (entries_of (disk w) d)) in
     r.1 = success "Backup created successfully"
     ∧ entries_of (disk r.2) d = rotate (entries_of (disk w) d) (backup_name now) content
     ∧ backups_in (disk r.2) d
       = drop (length (backup_files (map_to_list copied).*1) - 5)
              (backup_files (map_to_list copied).*1)
     ∧ ∀ x, x ∈ backup_files (map_to_list copied).*1
            ↔ x = backup_name now ∨ x ∈ backups_in (disk w) d)
  ∧ (∀ moments,
       length moments = 6%nat → NoDup (backup_name <$> moments) →
       length (backups_in (disk (trigger_backups w moments)) d) = 5%nat)
  ∧ (∀ moments,
       length moments = 6%nat → backups_in (disk w) d = [] →
       Forall valid_datetime moments →
       StronglySorted (λ a b, chrono a < chrono b) moments →
       backups_in (disk (trigger_backups w moments)) d
       = backup_name <$> drop 1 moments).
Proof.
  intros Hdirs Hw. split; [|split].
  - intros now. cbv zeta.
    destruct (SuccessiveBackups.backup_step self skipped rest d content Hdirs w now Hw)
      as [Hr _].
    split; [by rewrite Hr|]. split.
    { rewrite Hr. cbn [snd set_disk disk]. unfold entries_of at 1.
      cbn [set_dirs dirs]. by rewrite lookup_insert_eq. }
    split.
    { by apply (SuccessiveBackups.backups_after_step self skipped rest d content). }
    intros x. apply RotateFacts.elem_of_listing_copied, RotateFacts.backup_name_matches.
  - intros moments Hlen Hnd.
    apply (SuccessiveBackups.trigger_exactly_five self skipped rest d content);
      [done|done|done|lia].
  - intros moments Hlen Hempty Hvalid Hsorted.
    rewrite (OldestFirst.trigger_sorted self skipped rest d content Hdirs moments []).
    + cbn [app]. rewrite length_fmap, Hlen. by rewrite fmap_drop.
    + done.
    + by rewrite Hempty.
    + cbn [app]. by apply OldestFirst.names_sorted.
Qed.

Lemma steady_fresh :
  steady Example.manager [] Example.backup_dir (py "SQLite format 3") Example.fresh.
Proof.
  split; [done|]. split; [constructor|]. split; [|done].
  unfold ready. split; [done|]. split; [by eexists|]. split; [set_solver|].
  split; [done|]. unfold entries_of. cbn. split.
  - by rewrite lookup_empty.
  - intros name _. by rewrite lookup_empty.
Qed.

(** C4 as stated fails: six backups within one second, into a ready and
    empty directory, leave a single file. *)
Lemma six_backups_in_one_second :
  ¬ (∀ self skipped rest d content w moments,
       backup_dirs self = skipped ++ d :: rest →
       steady self skipped d content w →
       length moments = 6%nat →
       length (backups_in (disk (trigger_backups w moments)) d) = 5%nat).
Proof.
  intros Hclaim.
  specialize (Hclaim Example.manager [] _ Example.backup_dir _ Example.fresh
                Example.same_second eq_refl steady_fresh eq_refl).
  vm_compute in Hclaim. discriminate.
Qed.

Lemma backups_keep_five_witness :
  length (backups_in (disk (trigger_backups Example.fresh Example.six_seconds))
            Example.backup_dir) = 5%nat
  ∧ backups_in (disk (trigger_backups Example.fresh Example.six_seconds))
      Example.backup_dir
    = backup_name <$> drop 1 Example.six_seconds.
Proof.
  destruct (backups_keep_five Example.manager [] _ Example.backup_dir _ Example.fresh
              eq_refl steady_fresh) as (_ & Hfive & Holdest).
  split.
  - apply Hfive; [reflexivity|]. apply (bool_decide_unpack _). by vm_compute.
  - apply Holdest; [reflexivity|reflexivity| |].
    + repeat constructor; vm_compute; congruence.
    + repeat constructor; vm_compute; congruence.
Defined.

Lemma backup_never_fails_request_witness :
  (App.save_user_profile Example.as_bound Example.fresh Example.profile
     (Example.noon 1) (Example.noon 1) (Example.noon 2)).1
  = success "Profile saved successfully"
  ∧ (App.create_backup Example.fresh (Example.noon 1)).1
    = success "Backup created successfully".
Proof.
  destruct backup_never_fails_request as (_ & Hsave & Hbackup). split.
  - eapply (Hsave Example.as_bound Example.fresh); [reflexivity|].
    vm_compute. reflexivity.
  - eapply (Hbackup Example.fresh). reflexivity.
Defined.

(** ** The client wrapper *)

(** C9 (amended).  [_make_request], and with it every method of the
    client, always returns: when the call on the session raises, when
    the response has a status from 400 to 599, or when its body does
    not decode, it returns the error envelope; a response with any
    other status and a body that decodes is returned decoded. *)
Theorem make_request_never_raises (self : Client.DatabaseClient)
    (send : Client.transport) (method endpoint : str) (data params : option pyval) :
  match Client.dispatch self send method endpoint data params with
  | Raise e =>
      Client._make_request self send method endpoint data params
      = Ok (Client.error_envelope (exn_msg e))
  | Ok response =>
      if ((400 <=? Client.status_code response) && (Client.status_code response <? 600))%Z
      then ∃ msg, Client._make_request self send method endpoint data params
                  = Ok (Client.error_envelope msg)
      else match Json.loads (Client.text response) with
           | None => ∃ msg, Client._make_request self send method endpoint data params
                            = Ok (Client.error_envelope msg)
           | Some v => Client._make_request self send method endpoint data params = Ok v
           end
  end.
Proof.
  unfold Client._make_request.
  destruct (Client.dispatch _ _ _ _ _ _) as [response|e]; cbn [mbind result_bind].
  - unfold Client.raise_for_status, Client.json.
    destruct (_ && _); cbn [mbind result_bind]; [by eexists|].
    destruct (Json.loads _); [done|by eexists].
  - by destruct (is_RequestException e).
Qed.

(** C9 as stated fails: a response with status 300, which is not a
    2xx status, and a JSON body is returned as a success. *)
Lemma status_300_is_not_an_error :
  Client.get_user Example.client Example.multiple_choices (py "u1")
  = Ok (PDict [(py "ok", PBool true)])
  ∧ ∀ msg, Client.get_user Example.client Example.multiple_choices (py "u1")
           ≠ Ok (Client.error_envelope msg).
Proof.
  assert (Client.get_user Example.client Example.multiple_choices (py "u1")
          = Ok (PDict [(py "ok", PBool true)])) as -> by (by vm_compute).
  split; [done|]. intros msg. discriminate.
Qed.

(** C10.  Constructing the client without [base_url] evaluates the name
    [os], which the module never imports: the constructor raises
    [NameError], whatever the environment holds. *)
Theorem client_without_base_url_raises (environ : list (str * str)) :
  Client.__init__ None environ
  = Raise (mk_exn NameError (py "name 'os' is not defined")).
Proof. reflexivity. Qed.

(** ** The theorems at concrete inputs *)




Lemma get_unknown_profile_witness :
  let resp := App.get_user_profile Example.damaged (py "p3") in
  status resp = 404%Z
  ∧ field (payload resp) "ok" = Some (PBool false)
  ∧ field (payload resp) "error" = Some (PStr (py "Profile not found"))
  ∧ field (payload resp) "data" = None.
Proof.
  apply (get_unknown_profile Example.damaged Example.manager (py "p3")).
  - reflexivity.
  - intros row Hin. cbn [Example.damaged tables user_profiles rows] in Hin.
    rewrite !elem_of_cons, elem_of_nil in Hin.
    destruct Hin as [->|[->|[]]]; vm_compute; congruence.
Defined.



(** ** The statements in general *)

Lemma mapM_result_Forall2 {A B} (f : A → result B) (l : list A) (ks : list B) :
  mapM f l = Ok ks ↔ Forall2 (λ x k, f x = Ok k) l ks.
Proof.
  revert ks. induction l as [|x l IH]; intros ks; cbn [mapM].
  - split; [intros [= <-]; constructor|by inversion 1].
  - split.
    + destruct (f x) as [k|] eqn:Hx; cbn [mbind result_bind]; [|done].
      destruct (mapM f l) as [ks'|] eqn:Hl; cbn [mbind result_bind]; [|done].
      intros [= <-]. constructor; [done|]. by apply IH.
    + inversion 1 as [|? k ? ks' Hx Hl]; subst. rewrite Hx.
      apply IH in Hl. rewrite Hl. done.
Qed.

Lemma assoc_zip_None {A} (k : str) (cols : list str) (ps : list A) :
  k ∉ cols → assoc k (zip cols ps) = None.
Proof.
  revert ps. induction cols as [|c cols IH]; intros [|p ps] Hk; cbn; try done.
  apply not_elem_of_cons in Hk as [Hne Hk].
  apply str_eqb_neq in Hne. rewrite Hne. by apply IH.
Qed.

Lemma elem_of_fin_enum {n} (j : fin n) : In j (fin_enum n).
Proof.
  apply list_elem_of_In. change (fin_enum n) with (enum (fin n)). apply elem_of_enum.
Qed.

Lemma sql_eqb_false (a b : sqlval) : a ≠ SNull → sql_eqb a b = false → a ≠ b.
Proof. destruct a; cbn; try done; by intros _ ?%bool_decide_eq_false. Qed.

Lemma sublist_fmap {A B} (f : A → B) (l1 l2 : list A) :
  l1 `sublist_of` l2 → f <$> l1 `sublist_of` f <$> l2.
Proof. induction 1; cbn; by constructor. Qed.

Lemma sublist_StronglySorted {A} (R : relation A) (l1 l2 : list A) :
  l1 `sublist_of` l2 → StronglySorted R l2 → StronglySorted R l1.
Proof.
  induction 1 as [|x l1 l2 Hl IH|x l1 l2 Hl IH]; [done| |].
  - rewrite !StronglySorted_cons, !Forall_forall. intros [Hx Hs].
    split; [|by apply IH]. intros y Hy. apply Hx. by eapply elem_of_sublist.
  - rewrite StronglySorted_cons. intros [_ Hs]. by apply IH.
Qed.

Section InsertFacts.

Variable cast : affinity → sqlval → sqlval.
Context {n : nat} (schema : vec column (S n)).

(** What a successful INSERT leaves. *)
Lemma execute_insert_ok (or_replace : bool) (cols : list str) (params : list sqlval)
    (utcnow : datetime) (t t' : table (S n)) :
  execute_insert cast schema or_replace cols params utcnow t = Ok t' →
  let r := new_row cast schema (zip cols params) (last_rowid t + 1)%Z utcnow in
  length params = length cols
  ∧ violates_notnull schema r = false
  ∧ last_rowid t' = (last_rowid t + 1)%Z
  ∧ rows t'
    = (if or_replace then filter (λ r', ¬ conflicts schema r r') (rows t) else rows t)
      ++ [r]
  ∧ (or_replace = false → existsb (conflicts schema r) (rows t) = false).
Proof.
  unfold execute_insert. case_bool_decide as Hlen; [|done]. cbn [negb].
  destruct (mapM _ _); [|done]. cbn [mbind result_bind].
  destruct (violates_notnull _ _) eqn:Hnn; [done|].
  destruct or_replace.
  - intros [= <-]. done.
  - destruct (existsb _ _) eqn:Hc; [done|]. intros [= <-]. done.
Qed.

Lemma new_row_id (assign : list (str * sqlval)) (rowid : Z) (utcnow : datetime) :
  col_default (schema !!! 0%fin) = Autoincrement →
  assoc (col_name (schema !!! 0%fin)) assign = None →
  new_row cast schema assign rowid utcnow !!! 0%fin = SInt rowid.
Proof.
  intros Hd Ha. unfold new_row. rewrite lookup_fun_to_vec. by rewrite Ha, Hd.
Qed.

Lemma violates_notnull_false (r : vec sqlval (S n)) (j : fin (S n)) :
  violates_notnull schema r = false → col_notnull (schema !!! j) = true →
  r !!! j ≠ SNull.
Proof.
  unfold violates_notnull. intros Hv Hn Hr.
  apply not_true_iff_false in Hv. apply Hv, existsb_exists.
  exists j. split; [apply elem_of_fin_enum|]. by rewrite Hn, Hr.
Qed.

Lemma conflicts_false (r r' : vec sqlval (S n)) (j : fin (S n)) :
  conflicts schema r r' = false → col_unique (schema !!! j) = true →
  sql_eqb (r !!! j) (r' !!! j) = false.
Proof.
  unfold conflicts. intros Hc Hu.
  destruct (sql_eqb _ _) eqn:He; [|done].
  apply not_true_iff_false in Hc. destruct Hc. apply existsb_exists.
  exists j. split; [apply elem_of_fin_enum|]. by rewrite Hu, He.
Qed.

(** An INSERT keeps the ids ascending. *)
Lemma execute_insert_ids (or_replace : bool) (cols : list str) (params : list sqlval)
    (utcnow : datetime) (t t' : table (S n)) :
  col_default (schema !!! 0%fin) = Autoincrement →
  col_name (schema !!! 0%fin) ∉ cols →
  ids_ascending t →
  execute_insert cast schema or_replace cols params utcnow t = Ok t' →
  ids_ascending t'.
Proof.
  intros Hd Hname (zs & Hids & Hsorted & Hbound) Hins.
  destruct (execute_insert_ok _ _ _ _ _ _ Hins) as (_ & _ & Hlast & Hrows & _).
  set (r := new_row _ _ _ _ _) in *.
  assert (r !!! 0%fin = SInt (last_rowid t + 1)) as Hr.
  { apply new_row_id; [done|]. by apply assoc_zip_None. }
  assert (∀ l : list (vec sqlval (S n)), l `sublist_of` rows t →
          ∃ zs', (λ r, r !!! 0%fin) <$> l = SInt <$> zs' ∧ zs' `sublist_of` zs)
    as Hsub.
  { unfold ids in Hids. revert Hids. generalize (rows t). clear.
    intros l0 Hids l Hl. revert zs Hids.
    induction Hl as [|x l1 l2 Hl IH|x l1 l2 Hl IH]; intros zs Hids.
    - exists []. split; [done|]. apply sublist_nil_l.
    - destruct zs as [|z zs]; [done|]. cbn in Hids. injection Hids as Hx Hids.
      destruct (IH _ Hids) as (zs' & Heq & Hs). exists (z :: zs').
      split; [cbn; by rewrite Hx, Heq|]. by constructor.
    - destruct zs as [|z zs]; [done|]. cbn in Hids. injection Hids as Hx Hids.
      destruct (IH _ Hids) as (zs' & Heq & Hs). exists zs'.
      split; [done|]. by constructor. }
  destruct (Hsub (if or_replace then filter (λ r', ¬ conflicts schema r r') (rows t)
                  else rows t)) as (zs' & Heq & Hs).
  { destruct or_replace; [apply sublist_filter|done]. }
  exists (zs' ++ [last_rowid t + 1]%Z). unfold ids. rewrite Hrows, Hlast.
  rewrite fmap_app, Heq, fmap_app. cbn [fmap list_fmap]. rewrite Hr.
  split; [done|].
  assert (Forall (λ z, (z <= last_rowid t)%Z) zs') as Hb'.
  { rewrite Forall_forall in Hbound |- *. intros z Hz. apply Hbound.
    by eapply elem_of_sublist. }
  split.
  - apply StronglySorted_app_2.
    + intros z1 z2 Hz1 ->%list_elem_of_singleton.
      rewrite Forall_forall in Hb'. specialize (Hb' _ Hz1). lia.
    + by eapply sublist_StronglySorted.
    + repeat constructor.
  - apply Forall_app. split; [|repeat constructor; lia].
    eapply Forall_impl; [done|]. cbn. intros; lia.
Qed.

(** An upsert keeps a NOT NULL UNIQUE column a key. *)
Lemma execute_insert_key (j : fin (S n)) (cols : list str) (params : list sqlval)
    (utcnow : datetime) (t t' : table (S n)) :
  col_notnull (schema !!! j) = true → col_unique (schema !!! j) = true →
  key_column j t →
  execute_insert cast schema true cols params utcnow t = Ok t' →
  key_column j t'.
Proof.
  intros Hn Hu [Hnull Hnd] Hins.
  destruct (execute_insert_ok _ _ _ _ _ _ Hins) as (_ & Hv & _ & Hrows & _).
  set (r := new_row _ _ _ _ _) in *. cbv beta iota in Hrows.
  pose proof (violates_notnull_false _ _ Hv Hn) as Hr.
  unfold key_column. rewrite Hrows. split.
  - apply Forall_app. split; [|by repeat constructor].
    rewrite Forall_forall in Hnull |- *.
    intros r' [_ Hin]%list_elem_of_filter. by apply Hnull.
  - rewrite fmap_app. apply NoDup_app. split; [|split].
    + eapply sublist_NoDup; [done|]. apply sublist_fmap, sublist_filter.
    + intros v (r' & -> & [Hc Hin]%list_elem_of_filter)%list_elem_of_fmap.
      cbn. intros Heq%list_elem_of_singleton.
      destruct (conflicts schema r r') eqn:Hcf; [by destruct Hc|].
      pose proof (conflicts_false _ _ j Hcf Hu) as He.
      by apply (sql_eqb_false _ _ Hr He).
    + cbn. apply NoDup_singleton.
Qed.

End InsertFacts.

Lemma mapM_result_app {A B} (f : A → result B) (l1 l2 : list A) (ks : list B) :
  mapM f (l1 ++ l2) = Ok ks
  ↔ ∃ k1 k2, ks = k1 ++ k2 ∧ mapM f l1 = Ok k1 ∧ mapM f l2 = Ok k2.
Proof.
  rewrite mapM_result_Forall2. split.
  - intros (k1 & k2 & H1 & H2 & ->)%Forall2_app_inv_l.
    exists k1, k2. by rewrite !mapM_result_Forall2.
  - intros (k1 & k2 & -> & H1 & H2). rewrite mapM_result_Forall2 in H1, H2.
    by apply Forall2_app.
Qed.

Lemma col_index_name {n} (schema : vec column n) (name : str) (j : fin n) :
  col_index schema name = Some j → col_name (schema !!! j) = name.
Proof.
  induction schema as [|c n schema IH]; [done|]. cbn [col_index].
  destruct (str_eqb (col_name c) name) eqn:Hc.
  - intros [= <-]. by apply str_eqb_eq.
  - destruct (col_index schema name) as [k|] eqn:Hk; [|done].
    cbn. intros [= <-]. cbn. by apply IH.
Qed.

Lemma resolve_name {n} (schema : vec column n) (name : str) (j : fin n) :
  resolve schema name = Ok j → col_name (schema !!! j) = name.
Proof.
  unfold resolve. destruct (col_index schema name) eqn:H; [|done].
  intros [= <-]. by apply col_index_name.
Qed.

Section UpdateGeneral.

Variable cast : affinity → sqlval → sqlval.
Context {n : nat} (schema : vec column n).

Lemma assign_row_cons (jv : fin n * sqlval) (sets : list (fin n * sqlval))
    (r : vec sqlval n) :
  assign_row (jv :: sets) r = assign_row sets (vinsert jv.1 jv.2 r).
Proof. reflexivity. Qed.

Lemma assign_row_other (sets : list (fin n * sqlval)) (r : vec sqlval n) (j : fin n) :
  j ∉ sets.*1 → assign_row sets r !!! j = r !!! j.
Proof.
  revert r. induction sets as [|[k v] sets IH]; intros r Hj; [done|].
  cbn in Hj. apply not_elem_of_cons in Hj as [Hne Hj].
  rewrite assign_row_cons, IH by done. by apply vlookup_insert_ne.
Qed.

Lemma assign_row_elem (sets : list (fin n * sqlval)) (r : vec sqlval n) (j : fin n)
    (v : sqlval) :
  NoDup sets.*1 → (j, v) ∈ sets → assign_row sets r !!! j = v.
Proof.
  revert r.
  induction sets as [|[k u] sets IH]; intros r Hnd Hin; [by apply elem_of_nil in Hin|].
  cbn in Hnd. apply NoDup_cons in Hnd as [Hk Hnd]. rewrite assign_row_cons.
  apply elem_of_cons in Hin as [[= -> ->]|Hin].
  - rewrite assign_row_other by done. apply vlookup_insert.
  - by apply IH.
Qed.

(** What a successful UPDATE leaves. *)
Lemma execute_update_ok (sets : list str) (where_col : str) (params : list sqlval)
    (t t' : table n) :
  execute_update cast schema sets where_col params t = Ok t' →
  ∃ js i,
    length params = S (length sets)
    ∧ mapM (resolve schema) sets = Ok js
    ∧ resolve schema where_col = Ok i
    ∧ last_rowid t' = last_rowid t
    ∧ rows t'
      = (λ r, if sql_eqb (r !!! i) (from_option id SNull (last params))
              then assign_row
                     ((λ jv, (jv.1, store cast (col_affinity (schema !!! jv.1)) jv.2))
                        <$> zip js params) r
              else r) <$> rows t
    ∧ (existsb (λ r, sql_eqb (r !!! i) (from_option id SNull (last params))) (rows t)
       = true →
       Forall (λ jv, col_notnull (schema !!! jv.1) = true → jv.2 ≠ SNull)
         ((λ jv, (jv.1, store cast (col_affinity (schema !!! jv.1)) jv.2))
            <$> zip js params)).
Proof.
  unfold execute_update. case_bool_decide as Hlen; [|done]. cbn [negb].
  destruct (mapM _ _) as [js|] eqn:Hjs; [|done]. cbn [mbind result_bind].
  destruct (resolve schema where_col) as [i|] eqn:Hi; [|done]. cbn [mbind result_bind].
  destruct (existsb _ (rows t) && _) eqn:Hnn; [done|].
  destruct (existsb _ js); [done|]. intros [= <-].
  exists js, i. repeat (split; [done|]). intros Hhit. rewrite Hhit in Hnn.
  cbn in Hnn. apply Forall_forall. intros jv Hin Hcol Hnull.
  apply not_true_iff_false in Hnn. apply Hnn, existsb_exists.
  exists jv. split; [by apply list_elem_of_In|]. by rewrite Hcol, Hnull.
Qed.

(** An UPDATE that no row matches, on columns without UNIQUE. *)
Lemma execute_update_no_match (sets : list str) (where_col : str)
    (params : list sqlval) (js : list (fin n)) (i : fin n) (t : table n) :
  length params = S (length sets) →
  mapM (resolve schema) sets = Ok js →
  resolve schema where_col = Ok i →
  Forall (λ j, col_unique (schema !!! j) = false) js →
  Forall (λ r, sql_eqb (r !!! i) (from_option id SNull (last params)) = false) (rows t) →
  execute_update cast schema sets where_col params t
  = Ok (mk_table (rows t) (last_rowid t)).
Proof.
  intros Hlen Hjs Hi Hu Hnone. unfold execute_update.
  rewrite bool_decide_eq_true_2 by done. cbn [negb].
  rewrite Hjs, Hi. cbn [mbind result_bind].
  match goal with |- context [existsb ?f (rows t) && _] =>
    assert (existsb f (rows t) = false) as -> end.
  { apply not_true_iff_false. intros [r [Hin H]]%existsb_exists.
    apply list_elem_of_In in Hin. rewrite Forall_forall in Hnone.
    by rewrite (Hnone _ Hin) in H. }
  cbn [andb].
  match goal with |- context [existsb ?f js] =>
    assert (existsb f js = false) as -> end.
  { apply not_true_iff_false. intros [j [Hin H]]%existsb_exists.
    apply list_elem_of_In in Hin. rewrite Forall_forall in Hu.
    by rewrite (Hu _ Hin) in H. }
  do 2 f_equal. induction (rows t) as [|r l IH]; [done|].
  apply Forall_cons in Hnone as [Hr Hl]. cbn. rewrite Hr. f_equal. by apply IH.
Qed.

End UpdateGeneral.

Lemma bindable_bind (v : pyval) : bindable v → ∃ b, bind v = Ok b.
Proof.
  destruct v as [| |z| | | |]; cbn; try done; try by eexists.
  intros Hz. assert (((- 2 ^ 63 <=? z) && (z <? 2 ^ 63))%Z = true) as ->.
  { apply andb_true_iff. rewrite Z.leb_le, Z.ltb_lt. lia. }
  by eexists.
Qed.

(** A concrete value is bindable. *)
Ltac bindable_value :=
  cbn [bindable]; first [ done | lia | repeat constructor; vm_compute; congruence ].

(** ** [update_user_profile] on any body *)

Lemma collect_updates_sublist (data : pyval) (fields fs : list str) (vs : list pyval) :
  collect_updates data fields = Ok (fs, vs) →
  fs `sublist_of` fields ∧ length vs = length fs.
Proof.
  revert fs vs. induction fields as [|f fields IH]; intros fs vs.
  - intros [= <- <-]. by split.
  - cbn [collect_updates]. destruct (py_contains data f) as [[]|]; cbn [mbind result_bind];
      [| |done].
    + destruct (py_getitem data f); cbn [mbind result_bind]; [|done].
      destruct (collect_updates data fields) as [[fs' vs']|]; cbn [mbind result_bind];
        [|done].
      intros [= <- <-]. destruct (IH _ _ eq_refl) as [Hs Hl].
      split; [by constructor|cbn; by rewrite Hl].
    + intros H. destruct (IH _ _ H) as [Hs Hl]. split; [by constructor|done].
Qed.

(** On a [dict] the chain of [if] statements never raises: it collects
    the recognised keys that are present, each with its value. *)
Lemma collect_updates_dict (d : list (str * pyval)) (fields : list str) :
  ∃ fs vs,
    collect_updates (PDict d) fields = Ok (fs, vs)
    ∧ Forall2 (λ f v, ∃ x, assoc f d = Some x
                 ∧ v = if str_eqb f (py "countries") then PStr (Json.dumps x) else x)
        fs vs
    ∧ ∀ f, f ∈ fields → is_Some (assoc f d) → f ∈ fs.
Proof.
  induction fields as [|f fields (fs & vs & Hc & Hfv & Hall)].
  - exists [], []. split; [done|]. split; [constructor|]. by intros f ?%elem_of_nil.
  - cbn [collect_updates py_contains py_getitem mbind result_bind].
    destruct (assoc f d) as [x|] eqn:Hf.
    + rewrite bool_decide_eq_true_2 by by eexists. rewrite Hc.
      cbn [mbind result_bind]. eexists _, _. split; [done|]. split.
      * constructor; [by exists x|done].
      * intros f' [->|Hin]%elem_of_cons Hs; [by left|]. right. by apply Hall.
    + rewrite bool_decide_eq_false_2 by (by intros [? [=]]).
      exists fs, vs. split; [done|]. split; [done|].
      intros f' [->|Hin]%elem_of_cons Hs.
      * rewrite Hf in Hs. by destruct Hs.
      * by apply Hall.
Qed.

Lemma NoDup_updatable_fields : NoDup (updatable_fields ++ [py "updated_at"]).
Proof. apply (bool_decide_unpack _). by vm_compute. Qed.

(** The columns the handler can assign: none of [id], [profile_id],
    [user_id], [created_at], and none that is UNIQUE. *)
Lemma resolve_updatable (f : str) :
  f ∈ updatable_fields ++ [py "updated_at"] →
  ∃ j, resolve user_profiles_schema f = Ok j
       ∧ (j ∉ [0%fin; 1%fin; 2%fin; 17%fin])
       ∧ col_unique (user_profiles_schema !!! j) = false.
Proof.
  unfold updatable_fields. cbn [fmap list_fmap app]. intros H.
  repeat (apply elem_of_cons in H as [->|H]);
    try (eexists; split; [reflexivity|]; split; [|reflexivity];
         rewrite !not_elem_of_cons; repeat split; try discriminate;
         apply not_elem_of_nil).
  by apply elem_of_nil in H.
Qed.

Section UpdateAny.

Variable cast : affinity → sqlval → sqlval.

(** A successful update of a profile rewrites the rows with the
    requested [profile_id] by a list of assignments. *)
Lemma update_profile_ok (profile_id : str) (data : pyval) (now : datetime)
    (t t' : table 19) :
  App.update_profile cast profile_id data now t = Ok t' →
  ∃ (fs : list str) (vs : list pyval) (bs : list sqlval) (js : list (fin 19)),
    collect_updates data updatable_fields = Ok (fs, vs)
    ∧ Forall2 (λ v b, bind v = Ok b) vs bs
    ∧ Forall2 (λ f j, resolve user_profiles_schema f = Ok j) fs js
    ∧ let sets :=
        (λ jv, (jv.1, store cast (col_affinity (user_profiles_schema !!! jv.1)) jv.2))
          <$> (zip js bs ++ [(18%fin, SText (isoformat now))]) in
      last_rowid t' = last_rowid t
      ∧ rows t'
        = (λ r, if bool_decide (r !!! 1%fin = SText profile_id)
                then assign_row sets r else r) <$> rows t
      ∧ (Exists (λ r, r !!! 1%fin = SText profile_id) (rows t) →
         Forall (λ jv, col_notnull (user_profiles_schema !!! jv.1) = true →
                       jv.2 ≠ SNull) sets).
Proof.
  unfold App.update_profile.
  destruct (collect_updates _ _) as [[fs vs]|] eqn:Hc; [|done].
  cbn [mbind result_bind]. case_bool_decide as Hnil; [by destruct fs|].
  destruct (mapM bind _) as [params|] eqn:Hp; [|done]. cbn [mbind result_bind].
  apply mapM_result_app in Hp as (bs' & tl & -> & Hbs' & Htl).
  apply mapM_result_app in Hbs' as (bs & iso & -> & Hbs & Hiso).
  cbn [mapM mbind result_bind mret result_ret bind] in Hiso, Htl.
  injection Hiso as <-. injection Htl as <-.
  intros (js' & i & Hlen & Hjs & Hi & Hlast & Hrows & Hnn)%execute_update_ok.
  apply mapM_result_app in Hjs as (js & j18 & -> & Hjs & H18).
  cbn [mapM mbind result_bind mret result_ret] in H18.
  assert (resolve user_profiles_schema (py "updated_at") = Ok 18%fin) as H18' by reflexivity.
  rewrite H18' in H18. cbn [mbind result_bind] in H18. injection H18 as <-.
  assert (resolve user_profiles_schema (py "profile_id") = Ok 1%fin) as Hi' by reflexivity.
  rewrite Hi' in Hi. injection Hi as <-.
  apply mapM_result_Forall2 in Hbs, Hjs.
  pose proof (Forall2_length _ _ _ Hbs) as Hl1.
  pose proof (Forall2_length _ _ _ Hjs) as Hl2.
  destruct (collect_updates_sublist _ _ _ _ Hc) as [_ Hl3].
  assert (zip (js ++ [18%fin]) ((bs ++ [SText (isoformat now)]) ++ [SText profile_id])
          = zip js bs ++ [(18%fin, SText (isoformat now))]) as Hzip.
  { rewrite <- app_assoc. rewrite zip_with_app by congruence. reflexivity. }
  rewrite Hzip in Hrows, Hnn.
  assert (from_option id SNull
            (last ((bs ++ [SText (isoformat now)]) ++ [SText profile_id]))
          = SText profile_id) as Hkey by by rewrite last_snoc.
  rewrite Hkey in Hrows, Hnn.
  exists fs, vs, bs, js. do 3 (split; [done|]). cbv zeta. split; [done|]. split.
  - rewrite Hrows. apply list_fmap_ext. intros _ r _. by rewrite sql_eqb_decide.
  - intros Hex. apply Hnn. apply existsb_exists. apply Exists_exists in Hex as [r [Hin Hr]].
    exists r. split; [by apply list_elem_of_In|]. by apply sql_eqb_text.
Qed.

End UpdateAny.

Lemma mapM_result_total {A B} (f : A → result B) (l : list A) :
  Forall (λ x, ∃ k, f x = Ok k) l → ∃ ks, mapM f l = Ok ks.
Proof.
  induction 1 as [|x l [k Hk] _ [ks IH]]; [by exists []|].
  exists (k :: ks). cbn [mapM]. rewrite Hk. cbn [mbind result_bind]. by rewrite IH.
Qed.

Section UpdateBodies.

Variable cast : affinity → sqlval → sqlval.

(** The columns assigned by an update are none of [id], [profile_id],
    [user_id] and [created_at]. *)
Lemma assigned_columns (data : pyval) (fs : list str) (vs : list pyval)
    (js : list (fin 19)) (bs : list sqlval) (x : sqlval) (j : fin 19) :
  collect_updates data updatable_fields = Ok (fs, vs) →
  Forall2 (λ f j, resolve user_profiles_schema f = Ok j) fs js →
  j ∈ ((λ jv : fin 19 * sqlval,
          (jv.1, store cast (col_affinity (user_profiles_schema !!! jv.1)) jv.2))
         <$> (zip js bs ++ [(18%fin, x)])).*1 →
  (j ∉ [0%fin; 1%fin; 2%fin; 17%fin])
  ∧ col_unique (user_profiles_schema !!! j) = false.
Proof.
  intros Hc Hjs Hj.
  apply list_elem_of_fmap in Hj as ([j' v'] & -> & Hin). cbn.
  apply list_elem_of_fmap in Hin as ([j'' v''] & [= -> ->] & Hin). cbn.
  assert (∃ f, f ∈ updatable_fields ++ [py "updated_at"]
               ∧ resolve user_profiles_schema f = Ok j'') as (f & Hf & Hres).
  { apply elem_of_app in Hin as [Hin|Hin%list_elem_of_singleton].
    - apply elem_of_zip_l in Hin. apply list_elem_of_lookup in Hin as [k Hk].
      destruct (Forall2_lookup_r _ _ _ _ _ Hjs Hk) as (f & Hfk & Hres).
      exists f. split; [|done]. apply elem_of_app. left.
      destruct (collect_updates_sublist _ _ _ _ Hc) as [Hs _].
      eapply elem_of_sublist; [|done]. by eapply list_elem_of_lookup_2.
    - injection Hin as -> _. exists (py "updated_at"). split; [|done].
      apply elem_of_app. right. by apply list_elem_of_singleton. }
  destruct (resolve_updatable f Hf) as (j & Hres' & Hj).
  rewrite Hres in Hres'. by injection Hres' as ->.
Qed.

(** X1.  Whatever the body of a PUT holds, and whether or not it
    succeeds, every row of [user_profiles] keeps its [id], [profile_id],
    [user_id] and [created_at] (indices 0, 1, 2 and 17), rows with
    another [profile_id] are left as they are, no row is added or
    removed, and the messages and the disk are untouched. *)
Theorem update_keeps_identity (w : world) (profile_id : str) (data : pyval)
    (now : datetime) :
  let r := App.update_user_profile cast w profile_id data now in
  db r.2 = db w ∧ disk r.2 = disk w
  ∧ chat_messages (tables r.2) = chat_messages (tables w)
  ∧ last_rowid (user_profiles (tables r.2)) = last_rowid (user_profiles (tables w))
  ∧ Forall2 (λ r r',
       (∀ j, j ∈ [0%fin; 1%fin; 2%fin; 17%fin] → r' !!! j = r !!! j)
       ∧ (r !!! 1%fin ≠ SText profile_id → r' = r))
       (rows (user_profiles (tables w))) (rows (user_profiles (tables r.2))).
Proof.
  cbv zeta. unfold App.update_user_profile.
  assert (Forall2 (λ r r' : vec sqlval 19,
            (∀ j, j ∈ [0%fin; 1%fin; 2%fin; 17%fin] → r' !!! j = r !!! j)
            ∧ (r !!! 1%fin ≠ SText profile_id → r' = r))
            (rows (user_profiles (tables w))) (rows (user_profiles (tables w))))
    as Hsame by by apply Forall_Forall2_diag, Forall_forall.
  destruct (db w) eqn:Hdb; [|by repeat (split; [done|])].
  destruct (App.update_profile _ _ _ _ _) as [t'|e] eqn:Hup;
    [|by repeat (split; [done|])].
  apply update_profile_ok in Hup as (fs & vs & bs & js & Hc & Hbs & Hjs & Hlast & Hrows & _).
  cbn [fst snd set_profiles db disk tables user_profiles chat_messages].
  do 4 (split; [done|]). rewrite Hrows. apply Forall2_fmap_r, Forall_Forall2_diag.
  apply Forall_forall. intros r _. unfold compose. case_bool_decide as Hr; [|done].
  split; [|done]. intros j Hj. apply assign_row_other. intros Hin.
  by destruct (assigned_columns _ _ _ _ _ _ _ Hc Hjs Hin).
Qed.

(** What an update of a [dict] body assigns for a recognised key that is
    present. *)
Lemma update_assigns (d : list (str * pyval)) (fs : list str) (vs : list pyval)
    (bs : list sqlval) (js : list (fin 19)) (f : str) (x : pyval) :
  collect_updates (PDict d) updatable_fields = Ok (fs, vs) →
  Forall2 (λ v b, bind v = Ok b) vs bs →
  Forall2 (λ f j, resolve user_profiles_schema f = Ok j) fs js →
  f ∈ updatable_fields → assoc f d = Some x →
  ∃ j b,
    resolve user_profiles_schema f = Ok j
    ∧ bind (if str_eqb f (py "countries") then PStr (Json.dumps x) else x) = Ok b
    ∧ (j, b) ∈ zip js bs.
Proof.
  intros Hc Hbs Hjs Hf Hx.
  destruct (collect_updates_dict d updatable_fields) as (fs' & vs' & Hc' & Hfv & Hall).
  rewrite Hc in Hc'. injection Hc' as <- <-.
  assert (f ∈ fs) as [k Hk]%list_elem_of_lookup by (apply Hall; [done|by eexists]).
  destruct (Forall2_lookup_l _ _ _ _ _ Hfv Hk) as (v & Hv & x' & Hx' & ->).
  rewrite Hx in Hx'. injection Hx' as <-.
  destruct (Forall2_lookup_l _ _ _ _ _ Hbs Hv) as (b & Hb & Hbind).
  destruct (Forall2_lookup_l _ _ _ _ _ Hjs Hk) as (j & Hj & Hres).
  exists j, b. do 2 (split; [done|]).
  apply list_elem_of_lookup. exists k.
  by rewrite lookup_zip_with, Hj, Hb.
Qed.

Lemma NoDup_assigned (data : pyval) (fs : list str) (vs : list pyval)
    (js : list (fin 19)) (bs : list sqlval) (x : sqlval) :
  collect_updates data updatable_fields = Ok (fs, vs) →
  Forall2 (λ f j, resolve user_profiles_schema f = Ok j) fs js →
  length bs = length js →
  NoDup ((λ jv : fin 19 * sqlval,
            (jv.1, store cast (col_affinity (user_profiles_schema !!! jv.1)) jv.2))
           <$> (zip js bs ++ [(18%fin, x)])).*1.
Proof.
  intros Hc Hjs Hlen.
  rewrite <- list_fmap_compose.
  rewrite (list_fmap_ext _ fst (zip js bs ++ [(18%fin, x)])) by done.
  rewrite fmap_app, fst_zip by lia. cbn [fmap list_fmap fst].
  destruct (collect_updates_sublist _ _ _ _ Hc) as [Hs _].
  assert (NoDup (fs ++ [py "updated_at"])) as Hnd.
  { eapply sublist_NoDup; [apply NoDup_updatable_fields|].
    by apply sublist_app. }
  assert (Forall2 (λ f j, resolve user_profiles_schema f = Ok j)
            (fs ++ [py "updated_at"]) (js ++ [18%fin])) as Hall.
  { apply Forall2_app; [done|]. by repeat constructor. }
  revert Hnd Hall. generalize (fs ++ [py "updated_at"]) (js ++ [18%fin]). clear.
  intros l k Hnd Hall. induction Hall as [|f j l k Hf Hall IH]; [constructor|].
  apply NoDup_cons in Hnd as [Hnotin Hnd]. constructor; [|by apply IH].
  intros [i Hi]%list_elem_of_lookup.
  destruct (Forall2_lookup_r _ _ _ _ _ Hall Hi) as (f' & Hf' & Hres).
  apply resolve_name in Hf, Hres. apply Hnotin. rewrite <- Hf, Hres.
  by eapply list_elem_of_lookup_2.
Qed.

End UpdateBodies.

Lemma filter_fmap_key {n} (i : fin n) (key : sqlval) (g : vec sqlval n → vec sqlval n)
    (l : list (vec sqlval n)) :
  (∀ r, g r !!! i = r !!! i) →
  filter (λ r, r !!! i = key) (g <$> l) = g <$> filter (λ r, r !!! i = key) l.
Proof.
  intros Hg. induction l as [|r l IH]; [done|]. cbn [fmap list_fmap].
  rewrite !filter_cons, Hg. fold (fmap g l). rewrite IH.
  by destruct (decide (r !!! i = key)).
Qed.

Section UpdateResults.

Variable cast : affinity → sqlval → sqlval.


(** X3.  A PUT that sets [user_role] to null on a profile that
    exists is answered with status 500 and changes nothing: the column
    is NOT NULL. *)
Theorem update_rejects_null_role (w : world) (manager : DatabaseManager.t)
    (profile_id : str) (d : list (str * pyval)) (now : datetime) :
  db w = Some manager →
  Exists (λ r, r !!! 1%fin = SText profile_id) (rows (user_profiles (tables w))) →
  assoc (py "user_role") d = Some PNone →
  let r := App.update_user_profile cast w profile_id (PDict d) now in
  status r.1 = 500%Z ∧ field (payload r.1) "ok" = Some (PBool false) ∧ r.2 = w.
Proof.
  intros Hdb Hex Hrole. cbv zeta. unfold App.update_user_profile. rewrite Hdb.
  destruct (App.update_profile _ _ _ _ _) as [t'|e] eqn:Hup; [exfalso|done].
  apply update_profile_ok in Hup
    as (fs & vs & bs & js & Hc & Hbs & Hjs & _ & _ & Hnn).
  specialize (Hnn Hex). rewrite Forall_forall in Hnn.
  destruct (update_assigns d fs vs bs js (py "user_role") PNone Hc Hbs Hjs)
    as (j & b & Hres & Hb & Hin); [|done|].
  { apply (bool_decide_unpack _). by vm_compute. }
  assert (resolve user_profiles_schema (py "user_role") = Ok 3%fin) as H3 by reflexivity.
  rewrite H3 in Hres. injection Hres as <-.
  assert (str_eqb (py "user_role") (py "countries") = false) as Hne by reflexivity.
  rewrite Hne in Hb. cbn in Hb. injection Hb as <-.
  apply (Hnn (3%fin, SNull)); [|done..].
  apply list_elem_of_fmap. exists (3%fin, SNull). split; [done|].
  apply elem_of_app. by left.
Qed.


End UpdateResults.


Lemma update_rejects_null_role_witness :
  let r := App.update_user_profile Example.as_bound Example.with_profile (py "p1")
             (PDict [(py "user_role", PNone)]) (Example.noon 9) in
  status r.1 = 500%Z ∧ field (payload r.1) "ok" = Some (PBool false)
  ∧ r.2 = Example.with_profile.
Proof.
  apply (update_rejects_null_role Example.as_bound Example.with_profile
           Example.manager).
  - reflexivity.
  - apply (bool_decide_unpack _). by vm_compute.
  - reflexivity.
Defined.


(** ** Upserts *)

Lemma conflicts_iff {n} (schema : vec column n) (a b : vec sqlval n) :
  conflicts schema a b = true
  ↔ ∃ j, col_unique (schema !!! j) = true ∧ sql_eqb (a !!! j) (b !!! j) = true.
Proof.
  unfold conflicts. rewrite existsb_exists. split.
  - intros (j & _ & [??]%andb_true_iff). by exists j.
  - intros (j & Hu & He). exists j. split; [apply elem_of_fin_enum|].
    by rewrite Hu, He.
Qed.

Lemma unique_user_profiles (j : fin 19) :
  col_unique (user_profiles_schema !!! j) = true → j = 0%fin ∨ j = 1%fin.
Proof.
  revert j. apply (bool_decide_unpack _). by vm_compute.
Qed.

(** Against a table whose ids were handed out in order, the row an
    upsert builds conflicts with the rows that carry its key. *)
Lemma conflicts_user_profiles (t : table 19) (new r : vec sqlval 19) (key : str) :
  ids_ascending t → r ∈ rows t →
  new !!! 0%fin = SInt (last_rowid t + 1) → new !!! 1%fin = SText key →
  conflicts user_profiles_schema new r = true ↔ r !!! 1%fin = SText key.
Proof.
  intros (zs & Hids & _ & Hbound) Hin H0 H1. rewrite conflicts_iff. split.
  - intros (j & [->| ->]%unique_user_profiles & He).
    + exfalso. rewrite H0 in He. apply sql_eqb_eq in He.
      assert (r !!! 0%fin ∈ ids t) as Hr.
      { unfold ids. apply list_elem_of_fmap. by exists r. }
      rewrite Hids, <- He in Hr.
      apply list_elem_of_fmap in Hr as (z & [= <-] & Hz).
      rewrite Forall_forall in Hbound. specialize (Hbound _ Hz). lia.
    + rewrite H1 in He. by apply sql_eqb_eq in He.
  - intros Hr. exists 1%fin. split; [done|]. rewrite H1, Hr. cbn.
    by apply bool_decide_eq_true_2.
Qed.

Lemma filter_ext_in {A} (P1 P2 : A → Prop) `{!∀ x, Decision (P1 x)}
    `{!∀ x, Decision (P2 x)} (l : list A) :
  (∀ x, x ∈ l → P1 x ↔ P2 x) → filter P1 l = filter P2 l.
Proof.
  induction l as [|a l IH]; intros Hiff; [done|].
  rewrite !filter_cons, IH by (intros x Hx; apply Hiff; by right).
  destruct (decide (P1 a)) as [Ha|Ha], (decide (P2 a)) as [Hb|Hb]; try done.
  - destruct Hb. apply Hiff; [by left|done].
  - destruct Ha. apply Hiff; [by left|done].
Qed.

Section SaveProfileMore.

Variable cast : affinity → sqlval → sqlval.

(** The parameters of the upsert of a profile. *)
Lemma insert_profile_inv (d : list (str * pyval)) (now utcnow : datetime)
    (t t' : table 19) :
  App.insert_profile cast (PDict d) now utcnow t = Ok t' →
  let get (k : string) := from_option id PNone (assoc (py k) d) in
  ∃ profile_id user_id params,
    assoc (py "profile_id") d = Some profile_id
    ∧ assoc (py "user_id") d = Some user_id
    ∧ Forall2 (λ v p, bind v = Ok p)
        [profile_id; user_id; get "user_role"; get "student_name";
         get "student_email"; get "parent_name"; get "parent_email";
         get "relationship"; get "child_name"; get "child_email";
         get "citizenship"; get "gpa"; get "degree";
         PStr (Json.dumps (from_option id (PList []) (assoc (py "countries") d)));
         get "budget"; get "target_intake"; PStr (isoformat now)]%string
        params
    ∧ execute_insert cast user_profiles_schema true
        (py <$> ["profile_id"; "user_id"; "user_role"; "student_name";
                 "student_email"; "parent_name"; "parent_email";
                 "relationship"; "child_name"; "child_email"; "citizenship";
                 "gpa"; "degree"; "countries"; "budget"; "target_intake";
                 "updated_at"]%string)
        params utcnow t = Ok t'.
Proof.
  unfold App.insert_profile. cbn [py_get py_getitem mbind result_bind].
  destruct (assoc (py "profile_id") d) as [profile_id|]; [|done].
  destruct (assoc (py "user_id") d) as [user_id|]; [|done].
  cbn [mbind result_bind].
  destruct (mapM bind _) as [params|] eqn:Hp; [|done]. cbn [mbind result_bind].
  intros Hins. exists profile_id, user_id, params.
  do 2 (split; [done|]). split; [|done]. by apply mapM_result_Forall2.
Qed.

(** What a successful upsert of a profile leaves. *)
Lemma save_profile_ok (w : world) (d : list (str * pyval)) (profile_id : str)
    (now utcnow backup_now : datetime) :
  ids_ascending (user_profiles (tables w)) →
  assoc (py "profile_id") d = Some (PStr profile_id) →
  (∀ k v, k ∈ py "profile_id" :: py "user_id" :: updatable_fields →
          k ≠ py "countries" → assoc k d = Some v → bindable v) →
  let r := App.save_user_profile cast w (PDict d) now utcnow backup_now in
  status r.1 = 200%Z →
  ∃ new,
    rows (user_profiles (tables r.2))
    = filter (λ r, r !!! 1%fin ≠ SText profile_id) (rows (user_profiles (tables w)))
      ++ [new]
    ∧ new !!! 0%fin = SInt (last_rowid (user_profiles (tables w)) + 1)
    ∧ new !!! 1%fin = SText profile_id
    ∧ new !!! 17%fin = SText (current_timestamp utcnow)
    ∧ new !!! 18%fin = SText (isoformat now)
    ∧ (∀ f j, f ∈ updatable_fields → f ≠ py "countries" → assoc f d = None →
              resolve user_profiles_schema f = Ok j → new !!! j = SNull)
    ∧ (assoc (py "countries") d = None → new !!! 14%fin = SText (py "[]"))
    ∧ chat_messages (tables r.2) = chat_messages (tables w).
Proof.
  intros Hids Hpid _. cbv zeta. unfold App.save_user_profile.
  destruct (db w) as [manager|] eqn:Hdb; [|done].
  destruct (App.insert_profile _ _ _ _ _) as [t'|e] eqn:Hins; [|done].
  destruct (DatabaseManager.create_backup _ _ _) as [[[]|e] fs]; [|done].
  intros _. cbn [snd set_disk set_profiles db tables user_profiles chat_messages].
  pose proof (insert_profile_inv _ _ _ _ _ Hins) as Hinv. cbv zeta in Hinv.
  destruct Hinv as (vpid & vuid & params & Hp & Hu & Hbind & Hex).
  rewrite Hpid in Hp. injection Hp as <-.
  destruct (execute_insert_ok _ _ _ _ _ _ _ _ Hex) as (_ & _ & _ & Hrows & _).
  cbv zeta in Hrows.
  repeat match goal with
  | H : Forall2 _ (_ :: _) _ |- _ =>
      let p := fresh "p" in let Hb := fresh "Hb" in
      apply Forall2_cons_inv_l in H as (p & ? & Hb & H & ->)
  | H : Forall2 _ [] _ |- _ => apply Forall2_nil_inv_l in H as ->
  end.
  match type of Hrows with _ = _ ++ [?r] => set (new := r) in * end.
  assert (new !!! 0%fin = SInt (last_rowid (user_profiles (tables w)) + 1)) as H0.
  { apply new_row_id; [done|]. apply assoc_zip_None.
    apply (bool_decide_unpack _). by vm_compute. }
  assert (new !!! 1%fin = SText profile_id) as H1.
  { match goal with H : bind (PStr profile_id) = Ok _ |- _ => injection H as <- end.
    reflexivity. }
  exists new. split; [|split; [done|split; [done|split; [|split; [|split; [|split]]]]]].
  - rewrite Hrows. f_equal. apply filter_ext_in. intros r Hr.
    rewrite <- (conflicts_user_profiles _ new r profile_id Hids Hr H0 H1).
    by rewrite Is_true_true.
  - exact (store_current_timestamp cast NUMERIC utcnow).
  - match goal with H : bind (PStr (isoformat now)) = Ok _ |- _ => injection H as <- end.
    exact (store_isoformat cast NUMERIC now).
  - clear Hrows Hex Hins H0 H1 Hids. unfold updatable_fields. cbn [fmap list_fmap].
    intros f j Hf Hne Hnone Hres.
    repeat (apply elem_of_cons in Hf as [->|Hf]); try done;
      try (vm_compute in Hres; injection Hres as <-;
           rewrite Hnone in *; cbn [from_option id bind] in *;
           simplify_eq; reflexivity).
    by apply elem_of_nil in Hf.
  - intros Hnone. rewrite Hnone in *. cbn [from_option id] in *.
    match goal with H : bind (PStr (Json.dumps _)) = Ok _ |- _ => injection H as <- end.
    reflexivity.
  - done.
Qed.

(** X5.  A POST of a profile whose values are bindable, answered
    with status 200, on a table whose ids were handed out in order,
    removes the rows that carried
    the [profile_id] and appends one row: it has a fresh [id], its
    [created_at] is the time of this request, and every recognised
    field that the body leaves out is NULL in it, whatever the replaced
    row held ([countries] becomes the empty list).  The messages are
    untouched. *)
Theorem save_profile_replaces (w : world) (d : list (str * pyval)) (profile_id : str)
    (now utcnow backup_now : datetime) :
  ids_ascending (user_profiles (tables w)) →
  assoc (py "profile_id") d = Some (PStr profile_id) →
  (∀ k v, k ∈ py "profile_id" :: py "user_id" :: updatable_fields →
          k ≠ py "countries" → assoc k d = Some v → bindable v) →
  let r := App.save_user_profile cast w (PDict d) now utcnow backup_now in
  status r.1 = 200%Z →
  ∃ new,
    rows (user_profiles (tables r.2))
    = filter (λ r, r !!! 1%fin ≠ SText profile_id) (rows (user_profiles (tables w)))
      ++ [new]
    ∧ new !!! 0%fin = SInt (last_rowid (user_profiles (tables w)) + 1)
    ∧ new !!! 1%fin = SText profile_id
    ∧ new !!! 17%fin = SText (current_timestamp utcnow)
    ∧ new !!! 18%fin = SText (isoformat now)
    ∧ (∀ f j, f ∈ updatable_fields → f ≠ py "countries" → assoc f d = None →
              resolve user_profiles_schema f = Ok j → new !!! j = SNull)
    ∧ (assoc (py "countries") d = None → new !!! 14%fin = SText (py "[]"))
    ∧ chat_messages (tables r.2) = chat_messages (tables w).
Proof.
  apply save_profile_ok.
Qed.

(** X6.  A POST of a profile whose body lacks [profile_id], [user_id]
    or [user_role], or holds null there, is answered with status 500;
    nothing is stored and no backup is made.  ([user_role] is read
    with a default of null, but the column is NOT NULL.) *)
Theorem save_profile_requires (w : world) (d : list (str * pyval)) (k : str)
    (now utcnow backup_now : datetime) :
  k ∈ [py "profile_id"; py "user_id"; py "user_role"] →
  assoc k d = None ∨ assoc k d = Some PNone →
  let r := App.save_user_profile cast w (PDict d) now utcnow backup_now in
  status r.1 = 500%Z ∧ field (payload r.1) "ok" = Some (PBool false) ∧ r.2 = w.
Proof.
  intros Hk Hmissing. cbv zeta. unfold App.save_user_profile.
  destruct (db w) as [manager|] eqn:Hdb; [|done].
  destruct (App.insert_profile _ _ _ _ _) as [t'|e] eqn:Hins; [exfalso|done].
  pose proof (insert_profile_inv _ _ _ _ _ Hins) as Hinv. cbv zeta in Hinv.
  destruct Hinv as (vpid & vuid & params & Hp & Hu & Hbind & Hex).
  destruct (execute_insert_ok _ _ _ _ _ _ _ _ Hex) as (_ & Hnn & _).
  cbv zeta in Hnn.
  repeat match goal with
  | H : Forall2 _ (_ :: _) _ |- _ =>
      let p := fresh "p" in let Hb := fresh "Hb" in
      apply Forall2_cons_inv_l in H as (p & ? & Hb & H & ->)
  | H : Forall2 _ [] _ |- _ => apply Forall2_nil_inv_l in H as ->
  end.
  repeat (apply elem_of_cons in Hk as [->|Hk]); [| | |by apply elem_of_nil in Hk].
  - apply (violates_notnull_false _ _ 1%fin Hnn); [done|].
    destruct Hmissing as [Hm|Hm]; rewrite Hm in Hp; [done|].
    injection Hp as <-. cbn [bind] in *. by simplify_eq.
  - apply (violates_notnull_false _ _ 2%fin Hnn); [done|].
    destruct Hmissing as [Hm|Hm]; rewrite Hm in Hu; [done|].
    injection Hu as <-. cbn [bind] in *. by simplify_eq.
  - apply (violates_notnull_false _ _ 3%fin Hnn); [done|].
    destruct Hmissing as [Hm|Hm]; rewrite Hm in *;
      cbn [from_option id bind] in *; by simplify_eq.
Qed.

End SaveProfileMore.

Lemma ids_ascending_empty {n} : ids_ascending (@mk_table (S n) [] 0).
Proof. exists []. repeat split; constructor. Qed.

Lemma save_profile_replaces_witness :
  ∃ new,
    rows (user_profiles (tables Example.with_profile)) = [new]
    ∧ new !!! 0%fin = SInt 1
    ∧ new !!! 1%fin = SText (py "p1")
    ∧ new !!! 17%fin = SText (current_timestamp (Example.noon 1))
    ∧ new !!! 4%fin = SNull.
Proof.
  destruct (save_profile_replaces Example.as_bound Example.fresh
              [(py "profile_id", PStr (py "p1")); (py "user_id", PStr (py "u1"));
               (py "user_role", PStr (py "student"));
               (py "countries", PList [PStr (py "US"); PStr (py "UK")]);
               (py "budget", PInt 3000)]
              (py "p1") (Example.noon 1) (Example.noon 1) (Example.noon 2))
    as (new & Hrows & H0 & H1 & H17 & _ & Hnull & _).
  - apply ids_ascending_empty.
  - reflexivity.
  - intros k v _ Hne. cbn [assoc].
    destruct (str_eqb k (py "profile_id")); [intros [= <-]; bindable_value|].
    destruct (str_eqb k (py "user_id")); [intros [= <-]; bindable_value|].
    destruct (str_eqb k (py "user_role")); [intros [= <-]; bindable_value|].
    destruct (str_eqb k (py "countries")) eqn:Hk; [by apply str_eqb_eq in Hk|].
    destruct (str_eqb k (py "budget")); [intros [= <-]; bindable_value|].
    discriminate.
  - vm_compute. reflexivity.
  - exists new. split; [exact Hrows|]. split; [exact H0|]. split; [exact H1|].
    split; [exact H17|]. apply (Hnull (py "student_name")).
    + apply (bool_decide_unpack _). by vm_compute.
    + discriminate.
    + reflexivity.
    + reflexivity.
Defined.

Lemma save_profile_requires_witness :
  let r := App.save_user_profile Example.as_bound Example.fresh
             (PDict [(py "profile_id", PStr (py "p1")); (py "user_id", PStr (py "u1"))])
             (Example.noon 1) (Example.noon 1) (Example.noon 2) in
  status r.1 = 500%Z ∧ field (payload r.1) "ok" = Some (PBool false)
  ∧ r.2 = Example.fresh.
Proof.
  apply (save_profile_requires Example.as_bound Example.fresh _ (py "user_role")).
  - apply (bool_decide_unpack _). by vm_compute.
  - by left.
Defined.

(** ** Saving and listing messages *)

Lemma unique_chat_messages (j : fin 8) :
  col_unique (chat_messages_schema !!! j) = true → j = 0%fin.
Proof. revert j. apply (bool_decide_unpack _). by vm_compute. Qed.

(** A row with a fresh id conflicts with no row of a table whose only
    UNIQUE column is the id. *)
Lemma fresh_id_no_conflict {n} (schema : vec column (S n)) (t : table (S n))
    (new : vec sqlval (S n)) :
  (∀ j, col_unique (schema !!! j) = true → j = 0%fin) →
  ids_ascending t → new !!! 0%fin = SInt (last_rowid t + 1) →
  existsb (conflicts schema new) (rows t) = false.
Proof.
  intros Hu (zs & Hids & _ & Hbound) H0.
  apply not_true_iff_false. intros (r & Hin & Hc)%existsb_exists.
  apply list_elem_of_In in Hin.
  apply conflicts_iff in Hc as (j & ->%Hu & He).
  rewrite H0 in He. apply sql_eqb_eq in He.
  assert (r !!! 0%fin ∈ ids t) as Hr.
  { unfold ids. apply list_elem_of_fmap. by exists r. }
  rewrite Hids, <- He in Hr.
  apply list_elem_of_fmap in Hr as (z & [= <-] & Hz).
  rewrite Forall_forall in Hbound. specialize (Hbound _ Hz). lia.
Qed.

Section MessagesMore.

Variable cast : affinity → sqlval → sqlval.

(** The parameters of the INSERT of a message. *)
Lemma insert_message_inv (d : list (str * pyval)) (utcnow : datetime)
    (t t' : table 8) :
  App.insert_message cast (PDict d) utcnow t = Ok t' →
  let get (k : string) := from_option id PNone (assoc (py k) d) in
  ∃ params,
    Forall2 (λ v p, bind v = Ok p)
      [get "profile_id"; get "user_id"; get "message_type"; get "message_content";
       from_option id (PStr (py "zh")) (assoc (py "language") d);
       get "user_role"]%string
      params
    ∧ execute_insert cast chat_messages_schema false
        (py <$> ["profile_id"; "user_id"; "message_type"; "message_content";
                 "language"; "user_role"]%string)
        params utcnow t = Ok t'.
Proof.
  unfold App.insert_message. cbn [py_get mbind result_bind].
  destruct (mapM bind _) as [params|] eqn:Hp; [|done]. cbn [mbind result_bind].
  intros Hins. exists params. split; [|done]. by apply mapM_result_Forall2.
Qed.

(** X7.  A POST of a message whose body lacks [profile_id],
    [user_id], [message_type] or [message_content], or holds null there,
    is answered with status 500 and stores nothing. *)
Theorem save_message_requires (w : world) (d : list (str * pyval)) (k : str)
    (utcnow : datetime) :
  k ∈ [py "profile_id"; py "user_id"; py "message_type"; py "message_content"] →
  assoc k d = None ∨ assoc k d = Some PNone →
  let r := App.save_chat_message cast w (PDict d) utcnow in
  status r.1 = 500%Z ∧ field (payload r.1) "ok" = Some (PBool false) ∧ r.2 = w.
Proof.
  intros Hk Hmissing. cbv zeta. unfold App.save_chat_message.
  destruct (db w) as [manager|] eqn:Hdb; [|done].
  destruct (App.insert_message _ _ _ _) as [t'|e] eqn:Hins; [exfalso|done].
  pose proof (insert_message_inv _ _ _ _ Hins) as Hinv. cbv zeta in Hinv.
  destruct Hinv as (params & Hbind & Hex).
  destruct (execute_insert_ok _ _ _ _ _ _ _ _ Hex) as (_ & Hnn & _).
  cbv zeta in Hnn. clear Hex Hins.
  repeat match goal with
  | H : Forall2 _ (_ :: _) _ |- _ =>
      let p := fresh "p" in let Hb := fresh "Hb" in
      apply Forall2_cons_inv_l in H as (p & ? & Hb & H & ->)
  | H : Forall2 _ [] _ |- _ => apply Forall2_nil_inv_l in H as ->
  end.
  repeat (apply elem_of_cons in Hk as [->|Hk]); [| | | |by apply elem_of_nil in Hk].
  - apply (violates_notnull_false _ _ 1%fin Hnn); [done|].
    destruct Hmissing as [Hm|Hm]; rewrite Hm in *;
      cbn [from_option id bind] in *; by simplify_eq.
  - apply (violates_notnull_false _ _ 2%fin Hnn); [done|].
    destruct Hmissing as [Hm|Hm]; rewrite Hm in *;
      cbn [from_option id bind] in *; by simplify_eq.
  - apply (violates_notnull_false _ _ 3%fin Hnn); [done|].
    destruct Hmissing as [Hm|Hm]; rewrite Hm in *;
      cbn [from_option id bind] in *; by simplify_eq.
  - apply (violates_notnull_false _ _ 4%fin Hnn); [done|].
    destruct Hmissing as [Hm|Hm]; rewrite Hm in *;
      cbn [from_option id bind] in *; by simplify_eq.
Qed.

(** What a well-formed message leaves in the table. *)
Lemma save_chat_message_ok (w : world) (manager : DatabaseManager.t)
    (d : list (str * pyval)) (profile_id user_id message_type message_content : str)
    (utcnow : datetime) :
  db w = Some manager →
  ids_ascending (chat_messages (tables w)) →
  assoc (py "profile_id") d = Some (PStr profile_id) →
  assoc (py "user_id") d = Some (PStr user_id) →
  assoc (py "message_type") d = Some (PStr message_type) →
  assoc (py "message_content") d = Some (PStr message_content) →
  Forall unicode_text [profile_id; user_id; message_type; message_content] →
  (∀ k v, k ∈ [py "language"; py "user_role"] → assoc k d = Some v → bindable v) →
  let r := App.save_chat_message cast w (PDict d) utcnow in
  r.1 = success "Message saved successfully"
  ∧ user_profiles (tables r.2) = user_profiles (tables w)
  ∧ disk r.2 = disk w
  ∧ ∃ new,
      rows (chat_messages (tables r.2)) = rows (chat_messages (tables w)) ++ [new]
      ∧ new !!! 0%fin = SInt (last_rowid (chat_messages (tables w)) + 1)
      ∧ new !!! 1%fin = SText profile_id
      ∧ new !!! 2%fin = SText user_id
      ∧ new !!! 3%fin = SText message_type
      ∧ new !!! 4%fin = SText message_content
      ∧ (assoc (py "language") d = None → new !!! 5%fin = SText (py "zh"))
      ∧ new !!! 7%fin = SText (current_timestamp utcnow).
Proof.
  intros Hdb Hids Hp Hu Hm Hc _ Hopt. cbv zeta.
  assert (∃ b5, bind (from_option id (PStr (py "zh")) (assoc (py "language") d)) = Ok b5
                ∧ (assoc (py "language") d = None → b5 = SText (py "zh")))
    as (b5 & Hb5 & Hzh).
  { destruct (assoc (py "language") d) as [v|] eqn:Hl.
    - destruct (bindable_bind v) as [b Hb]; [by apply (Hopt (py "language")); [left|]|].
      exists b. by split.
    - by exists (SText (py "zh")). }
  assert (∃ b6, bind (from_option id PNone (assoc (py "user_role") d)) = Ok b6)
    as (b6 & Hb6).
  { destruct (assoc (py "user_role") d) as [v|] eqn:Hl; [|by eexists].
    apply bindable_bind, (Hopt (py "user_role") v); [|done]. right. by left. }
  set (new := new_row cast chat_messages_schema
                (zip (py <$> ["profile_id"; "user_id"; "message_type";
                              "message_content"; "language"; "user_role"]%string)
                     [SText profile_id; SText user_id; SText message_type;
                      SText message_content; b5; b6])
                (last_rowid (chat_messages (tables w)) + 1) utcnow).
  assert (App.insert_message cast (PDict d) utcnow (chat_messages (tables w))
          = Ok (mk_table (rows (chat_messages (tables w)) ++ [new])
                  (last_rowid (chat_messages (tables w)) + 1))) as Hins.
  { unfold App.insert_message. cbn [py_get mbind result_bind].
    rewrite Hp, Hu, Hm, Hc. cbn [mapM mbind result_bind mret result_ret].
    rewrite Hb5, Hb6. cbn [from_option id bind mbind result_bind mret result_ret].
    unfold execute_insert. case_bool_decide as Hlen; [|by destruct Hlen].
    cbn [negb].
    match goal with |- context [mapM (resolve ?s) ?c] =>
      assert (∃ js, mapM (resolve s) c = Ok js) as [js ->] by by eexists end.
    cbn [mbind result_bind]. fold new.
    assert (violates_notnull chat_messages_schema new = false) as -> by reflexivity.
    rewrite fresh_id_no_conflict; [done|apply unique_chat_messages|done|].
    apply new_row_id; [done|]. apply assoc_zip_None.
    apply (bool_decide_unpack _). by vm_compute. }
  unfold App.save_chat_message. rewrite Hdb, Hins.
  cbn [fst snd set_messages tables user_profiles chat_messages disk rows].
  do 3 (split; [done|]). exists new. split; [done|].
  split; [|split; [reflexivity|split; [reflexivity|split; [reflexivity|
    split; [reflexivity|split]]]]].
  - apply new_row_id; [done|]. apply assoc_zip_None.
    apply (bool_decide_unpack _). by vm_compute.
  - intros ->%Hzh. reflexivity.
  - exact (store_current_timestamp cast NUMERIC utcnow).
Qed.


End MessagesMore.

Lemma save_message_requires_witness :
  let r := App.save_chat_message Example.as_bound Example.fresh
             (PDict [(py "profile_id", PStr (py "p1")); (py "user_id", PNone)])
             (Example.noon 1) in
  status r.1 = 500%Z ∧ field (payload r.1) "ok" = Some (PBool false)
  ∧ r.2 = Example.fresh.
Proof.
  apply (save_message_requires Example.as_bound Example.fresh _ (py "user_id")).
  - apply (bool_decide_unpack _). by vm_compute.
  - by right.
Defined.


Section Listing.

Variable cast : affinity → sqlval → sqlval.

Lemma limit_from_args (s : str) (default : Z) :
  args_get_int [(py "limit", s)] (py "limit") default
  = from_option id default (py_int s).
Proof. reflexivity. Qed.




End Listing.




(** ** What every request keeps *)

Section Requests.

Variable cast : affinity → sqlval → sqlval.

Lemma insert_profile_executes (data : pyval) (now utcnow : datetime) (t t' : table 19) :
  App.insert_profile cast data now utcnow t = Ok t' →
  ∃ cols params,
    (py "id" ∉ cols)
    ∧ execute_insert cast user_profiles_schema true cols params utcnow t = Ok t'.
Proof.
  unfold App.insert_profile.
  repeat match goal with
  | |- context [mbind _ ?m] =>
      lazymatch m with
      | execute_insert _ _ _ _ _ _ _ => fail
      | _ => destruct m; cbn [mbind result_bind]; [|done]
      end
  end.
  intros H. eexists _, _. split; [|done].
  apply (bool_decide_unpack _). by vm_compute.
Qed.

Lemma insert_user_executes (data : pyval) (now utcnow : datetime) (t t' : table 8) :
  Site.insert_user cast data now utcnow t = Ok t' →
  ∃ cols params,
    (py "id" ∉ cols)
    ∧ execute_insert cast users_schema true cols params utcnow t = Ok t'.
Proof.
  unfold Site.insert_user.
  repeat match goal with
  | |- context [mbind _ ?m] =>
      lazymatch m with
      | execute_insert _ _ _ _ _ _ _ => fail
      | _ => destruct m; cbn [mbind result_bind]; [|done]
      end
  end.
  intros H. eexists _, _. split; [|done].
  apply (bool_decide_unpack _). by vm_compute.
Qed.

Lemma insert_message_executes (data : pyval) (utcnow : datetime) (t t' : table 8) :
  App.insert_message cast data utcnow t = Ok t' →
  ∃ cols params,
    (py "id" ∉ cols)
    ∧ execute_insert cast chat_messages_schema false cols params utcnow t = Ok t'.
Proof.
  unfold App.insert_message.
  repeat match goal with
  | |- context [mbind _ ?m] =>
      lazymatch m with
      | execute_insert _ _ _ _ _ _ _ => fail
      | _ => destruct m; cbn [mbind result_bind]; [|done]
      end
  end.
  intros H. eexists _, _. split; [|done].
  apply (bool_decide_unpack _). by vm_compute.
Qed.

Lemma insert_usage_stat_executes (data : pyval) (utcnow : datetime) (t t' : table 6) :
  Site.insert_usage_stat cast data utcnow t = Ok t' →
  ∃ cols params,
    (py "id" ∉ cols)
    ∧ execute_insert cast usage_stats_schema false cols params utcnow t = Ok t'.
Proof.
  unfold Site.insert_usage_stat.
  repeat match goal with
  | |- context [mbind _ ?m] =>
      lazymatch m with
      | execute_insert _ _ _ _ _ _ _ => fail
      | _ => destruct m; cbn [mbind result_bind]; [|done]
      end
  end.
  intros H. eexists _, _. split; [|done].
  apply (bool_decide_unpack _). by vm_compute.
Qed.

(** An update leaves the ids and the [profile_id] column as they are. *)
Lemma update_profile_keys (profile_id : str) (data : pyval) (now : datetime)
    (t t' : table 19) (j : fin 19) :
  j ∈ [0%fin; 1%fin; 2%fin; 17%fin] →
  App.update_profile cast profile_id data now t = Ok t' →
  last_rowid t' = last_rowid t
  ∧ (λ r, r !!! j) <$> rows t' = (λ r, r !!! j) <$> rows t.
Proof.
  intros Hj (fs & vs & bs & js & Hc & Hbs & Hjs & Hlast & Hrows & _)%update_profile_ok.
  split; [done|]. rewrite Hrows, <- list_fmap_compose.
  apply list_fmap_ext. intros _ r _. unfold compose.
  case_bool_decide; [|done]. apply assign_row_other. intros Hin.
  by destruct (assigned_columns _ _ _ _ _ _ _ _ Hc Hjs Hin).
Qed.

Lemma serve_consistent (s : site) (req : request) :
  consistent s → consistent (serve cast s req).2.
Proof.
  intros (Hu & Huk & Hp & Hpk & Hm & Hs).
  destruct req; cbn [serve snd]; try done.
  - unfold Site.save_user. destruct (db (core s)); [|done].
    destruct (Site.insert_user _ _ _ _ _) as [t'|] eqn:Hins; [|done].
    apply insert_user_executes in Hins as (cols & params & Hid & Hins).
    cbn [snd]. unfold consistent. cbn [set_users users core usage_stats].
    split; [by apply (execute_insert_ids cast users_schema _ _ _ _ _ _ eq_refl Hid Hu Hins)|].
    split; [by apply (execute_insert_key cast users_schema 1%fin _ _ _ _ _ eq_refl eq_refl Huk Hins)|done].
  - unfold App.save_user_profile. destruct (db (core s)); [|done].
    destruct (App.insert_profile _ _ _ _ _) as [t'|] eqn:Hins; [|done].
    apply insert_profile_executes in Hins as (cols & params & Hid & Hins).
    assert (ids_ascending t' ∧ key_column 1%fin t') as [??].
    { split; [by apply (execute_insert_ids cast user_profiles_schema _ _ _ _ _ _ eq_refl Hid Hp Hins)|].
      by apply (execute_insert_key cast user_profiles_schema 1%fin _ _ _ _ _ eq_refl eq_refl Hpk Hins). }
    by destruct (DatabaseManager.create_backup _ _ _) as [[[]|] ?].
  - unfold App.update_user_profile. destruct (db (core s)); [|done].
    destruct (App.update_profile _ _ _ _ _) as [t'|] eqn:Hup; [|done].
    destruct (update_profile_keys _ _ _ _ _ 0%fin ltac:(by left) Hup) as [Hlast H0].
    destruct (update_profile_keys _ _ _ _ _ 1%fin ltac:(right; by left) Hup) as [_ H1].
    cbn [snd]. unfold consistent.
    cbn [set_core set_profiles users core usage_stats tables user_profiles chat_messages].
    do 2 (split; [done|]). split; [|split; [|done]].
    + unfold ids_ascending, ids. rewrite H0, Hlast. exact Hp.
    + destruct Hpk as [Hnull Hnd]. unfold key_column. rewrite H1. split; [|done].
      apply (proj1 (Forall_fmap (λ r : vec sqlval 19, r !!! 1%fin) (λ v, v ≠ SNull) _)).
      rewrite H1.
      by apply (proj2 (Forall_fmap (λ r : vec sqlval 19, r !!! 1%fin) (λ v, v ≠ SNull) _)).
  - unfold App.save_chat_message. destruct (db (core s)); [|done].
    destruct (App.insert_message _ _ _ _) as [t'|] eqn:Hins; [|done].
    apply insert_message_executes in Hins as (cols & params & Hid & Hins).
    cbn [snd]. unfold consistent.
    cbn [set_core set_messages users core usage_stats tables user_profiles chat_messages].
    do 4 (split; [done|]). split; [|done].
    by apply (execute_insert_ids cast chat_messages_schema _ _ _ _ _ _ eq_refl Hid Hm Hins).
  - unfold Site.save_usage_stat. destruct (db (core s)); [|done].
    destruct (Site.insert_usage_stat _ _ _ _) as [t'|] eqn:Hins; [|done].
    apply insert_usage_stat_executes in Hins as (cols & params & Hid & Hins).
    cbn [snd]. unfold consistent. cbn [set_usage_stats users core usage_stats].
    do 5 (split; [done|]).
    by apply (execute_insert_ids cast usage_stats_schema _ _ _ _ _ _ eq_refl Hid Hs Hins).
  - unfold App.create_backup. destruct (db (core s)); [|done].
    by destruct (DatabaseManager.create_backup _ _ _) as [[[]|] ?].
Qed.

(** X12.  Whatever requests are served, in whatever order and
    with whatever bodies, the tables stay well-formed: in each table
    the ids grow along the rows and stay within the last id handed
    out, and [user_id] in [users] and [profile_id] in [user_profiles]
    are never null and never repeated. *)
Theorem requests_keep_tables_consistent (s : site) (reqs : list request) :
  consistent s → consistent (run cast s reqs).
Proof.
  revert s. induction reqs as [|req reqs IH]; intros s Hs; [done|].
  cbn [run foldl]. apply IH. by apply serve_consistent.
Qed.

Lemma serve_messages (s : site) (req : request) :
  ∃ more, rows (chat_messages (tables (core (serve cast s req).2)))
          = rows (chat_messages (tables (core s))) ++ more.
Proof.
  destruct req; cbn [serve snd]; try (exists []; by rewrite app_nil_r).
  - exists []. rewrite app_nil_r. unfold Site.save_user.
    destruct (db (core s)); [|done]. by destruct (Site.insert_user _ _ _ _ _).
  - exists []. rewrite app_nil_r. unfold App.save_user_profile.
    destruct (db (core s)); [|done].
    destruct (App.insert_profile _ _ _ _ _); [|done].
    by destruct (DatabaseManager.create_backup _ _ _) as [[[]|] ?].
  - exists []. rewrite app_nil_r. unfold App.update_user_profile.
    destruct (db (core s)); [|done]. by destruct (App.update_profile _ _ _ _ _).
  - unfold App.save_chat_message.
    destruct (db (core s)); [|exists []; by rewrite app_nil_r].
    destruct (App.insert_message _ _ _ _) as [t'|] eqn:Hins;
      [|exists []; by rewrite app_nil_r].
    apply insert_message_executes in Hins as (cols & params & _ & Hins).
    destruct (execute_insert_ok _ _ _ _ _ _ _ _ Hins) as (_ & _ & _ & Hrows & _).
    eexists. exact Hrows.
  - exists []. rewrite app_nil_r. unfold Site.save_usage_stat.
    destruct (db (core s)); [|done]. by destruct (Site.insert_usage_stat _ _ _ _).
  - exists []. rewrite app_nil_r. unfold App.create_backup.
    destruct (db (core s)); [|done].
    by destruct (DatabaseManager.create_backup _ _ _) as [[[]|] ?].
Qed.

(** X13.  No request removes, reorders or rewrites a stored
    message: after any sequence of requests the rows of [chat_messages]
    begin with the rows that were there before. *)
Theorem messages_are_append_only (s : site) (reqs : list request) :
  rows (chat_messages (tables (core s)))
  `prefix_of` rows (chat_messages (tables (core (run cast s reqs)))).
Proof.
  revert s. induction reqs as [|req reqs IH]; intros s; [done|].
  cbn [run foldl]. etrans; [|apply IH].
  destruct (serve_messages s req) as [more ->]. by exists more.
Qed.

End Requests.

Lemma consistent_empty : consistent Sample.empty.
Proof.
  repeat split; try apply ids_ascending_empty; constructor.
Qed.

Lemma requests_keep_tables_consistent_witness :
  consistent (run Example.as_bound Sample.empty Sample.session).
Proof.
  apply (requests_keep_tables_consistent Example.as_bound Sample.empty Sample.session).
  apply consistent_empty.
Defined.

(** ** Users *)

Lemma unique_users (j : fin 8) :
  col_unique (users_schema !!! j) = true → j = 0%fin ∨ j = 1%fin.
Proof. revert j. apply (bool_decide_unpack _). by vm_compute. Qed.

Lemma conflicts_users (t : table 8) (new r : vec sqlval 8) (key : str) :
  ids_ascending t → r ∈ rows t →
  new !!! 0%fin = SInt (last_rowid t + 1) → new !!! 1%fin = SText key →
  conflicts users_schema new r = true ↔ r !!! 1%fin = SText key.
Proof.
  intros (zs & Hids & _ & Hbound) Hin H0 H1. rewrite conflicts_iff. split.
  - intros (j & [->| ->]%unique_users & He).
    + exfalso. rewrite H0 in He. apply sql_eqb_eq in He.
      assert (r !!! 0%fin ∈ ids t) as Hr.
      { unfold ids. apply list_elem_of_fmap. by exists r. }
      rewrite Hids, <- He in Hr.
      apply list_elem_of_fmap in Hr as (z & [= <-] & Hz).
      rewrite Forall_forall in Hbound. specialize (Hbound _ Hz). lia.
    + rewrite H1 in He. by apply sql_eqb_eq in He.
  - intros Hr. exists 1%fin. split; [done|]. rewrite H1, Hr. cbn.
    by apply bool_decide_eq_true_2.
Qed.

Lemma select_user (user_id : str) (t : table 8) :
  select_where users_schema (py "user_id") (SText user_id) t
  = Ok (filter (λ r, r !!! 1%fin = SText user_id) (rows t)).
Proof.
  unfold select_where.
  assert (resolve users_schema (py "user_id") = Ok 1%fin) as -> by reflexivity.
  cbn [mbind result_bind]. by rewrite filter_sql_eqb_text.
Qed.

(** The dictionary [get_user] builds, entry by entry. *)
Lemma user_dict_entries (row : vec sqlval 8) :
  user_dict row
  = PDict [ (py "id", to_python (row !!! 0%fin));
            (py "user_id", to_python (row !!! 1%fin));
            (py "email", to_python (row !!! 2%fin));
            (py "name", to_python (row !!! 3%fin));
            (py "avatar", to_python (row !!! 4%fin));
            (py "provider", to_python (row !!! 5%fin));
            (py "created_at", to_python (row !!! 6%fin));
            (py "updated_at", to_python (row !!! 7%fin)) ].
Proof. inv_vec row. intros. reflexivity. Qed.

(** A null or a well-formed string comes back from a TEXT column as it
    went in. *)
Lemma text_round_trip cast (v : pyval) :
  v = PNone ∨ (∃ x, v = PStr x ∧ unicode_text x) →
  ∃ b, bind v = Ok b ∧ to_python (store cast TEXT b) = v.
Proof. intros [->|(x & -> & _)]; by eexists. Qed.

Section Users.

Variable cast : affinity → sqlval → sqlval.


(** X15.  A GET of a user that no row of [users] carries is answered
    with status 404, [ok] false, the not-found message and no [data]. *)
Theorem get_unknown_user (s : site) (manager : DatabaseManager.t) (user_id : str) :
  db (core s) = Some manager →
  Forall (λ r, r !!! 1%fin ≠ SText user_id) (rows (users s)) →
  let resp := Site.get_user s user_id in
  status resp = 404%Z
  ∧ field (payload resp) "ok" = Some (PBool false)
  ∧ field (payload resp) "error" = Some (PStr (py "User not found"))
  ∧ field (payload resp) "data" = None.
Proof.
  intros Hdb Hnone. cbv zeta. unfold Site.get_user. rewrite Hdb, select_user.
  assert (filter (λ r, r !!! 1%fin = SText user_id) (rows (users s)) = []) as ->;
    [|done].
  apply elem_of_nil_inv. intros r [Hr Hin]%list_elem_of_filter.
  rewrite Forall_forall in Hnone. by apply (Hnone r).
Qed.

(** X16.  A POST of a user whose body has no [userId], or null
    there, is answered with status 500 and stores nothing, whatever
    else the body holds (a [user_id] key does not count). *)
Theorem save_user_requires (s : site) (d : list (str * pyval)) (now utcnow : datetime) :
  assoc (py "userId") d = None ∨ assoc (py "userId") d = Some PNone →
  let r := Site.save_user cast s (PDict d) now utcnow in
  status r.1 = 500%Z ∧ field (payload r.1) "ok" = Some (PBool false) ∧ r.2 = s.
Proof.
  intros Hmissing. cbv zeta. unfold Site.save_user.
  destruct (db (core s)) as [manager|] eqn:Hdb; [|done].
  destruct (Site.insert_user _ _ _ _ _) as [t'|e] eqn:Hins; [exfalso|done].
  revert Hins. unfold Site.insert_user. cbn [py_get py_getitem mbind result_bind].
  destruct Hmissing as [->| ->]; [done|]. cbn [mbind result_bind].
  destruct (mapM bind _) as [params|] eqn:Hp; [|done]. cbn [mbind result_bind].
  apply mapM_result_Forall2 in Hp.
  repeat match goal with
  | H : Forall2 _ (_ :: _) _ |- _ =>
      let p := fresh "p" in let Hb := fresh "Hb" in
      apply Forall2_cons_inv_l in H as (p & ? & Hb & H & ->)
  | H : Forall2 _ [] _ |- _ => apply Forall2_nil_inv_l in H as ->
  end.
  intros (_ & Hnn & _)%execute_insert_ok. cbv zeta in Hnn.
  apply (violates_notnull_false _ _ 1%fin Hnn); [done|].
  cbn [bind] in *. by simplify_eq.
Qed.

End Users.


Lemma get_unknown_user_witness :
  let resp := Site.get_user Sample.empty (py "u9") in
  status resp = 404%Z
  ∧ field (payload resp) "ok" = Some (PBool false)
  ∧ field (payload resp) "error" = Some (PStr (py "User not found"))
  ∧ field (payload resp) "data" = None.
Proof.
  apply (get_unknown_user Sample.empty Example.manager (py "u9")).
  - reflexivity.
  - constructor.
Defined.

Lemma save_user_requires_witness :
  let r := Site.save_user Example.as_bound Sample.empty
             (PDict [(py "user_id", PStr (py "u1"))]) (Example.noon 1) (Example.noon 1) in
  status r.1 = 500%Z ∧ field (payload r.1) "ok" = Some (PBool false)
  ∧ r.2 = Sample.empty.
Proof.
  apply (save_user_requires Example.as_bound Sample.empty
           [(py "user_id", PStr (py "u1"))]).
  by left.
Defined.

(** ** Health, usage statistics and an unavailable database *)

Lemma length_filter_key {A} (f : A → sqlval) (k : sqlval) (l : list A) :
  NoDup (f <$> l) →
  length (filter (λ r, f r ≠ k) l)
  = if decide (Exists (λ r, f r = k) l) then pred (length l) else length l.
Proof.
  induction l as [|a l IH]; intros Hnd.
  - cbn. by destruct (decide _) as [?%Exists_nil|].
  - cbn [fmap list_fmap] in Hnd. apply NoDup_cons in Hnd as [Ha Hnd].
    rewrite filter_cons. specialize (IH Hnd).
    destruct (decide (f a ≠ k)) as [Hne|Heq%dec_stable].
    + cbn [length]. rewrite IH.
      destruct (decide (Exists _ l)) as [Hex|Hex],
               (decide (Exists _ (a :: l))) as [Hex'|Hex']; try done.
      * apply Exists_exists in Hex as (r & Hr & _). destruct l; [by inversion Hr|done].
      * destruct Hex'. by right.
      * apply Exists_cons in Hex' as [?|?]; done.
    + rewrite IH. destruct (decide (Exists _ l)) as [Hex|Hex].
      * exfalso. apply Exists_exists in Hex as (r & Hr & Hk). apply Ha.
        apply list_elem_of_fmap. exists r. split; [congruence|done].
      * destruct (decide (Exists _ (a :: l))) as [Hex'|Hex']; [done|].
        destruct Hex'. by left.
Qed.

Section Health.

Variable cast : affinity → sqlval → sqlval.

(** X17.  The counts of [GET /health] follow the requests: after
    a POST of a profile answered with status 200, on well-formed tables,
    [profile_count] is what it was when the [profile_id] existed and one
    more when it did not, and [user_count] and [message_count] are as
    before. *)
Theorem profile_count_after_save (s : site) (manager : DatabaseManager.t)
    (d : list (str * pyval)) (profile_id : str) (now utcnow backup_now later : datetime) :
  db (core s) = Some manager →
  consistent s →
  assoc (py "profile_id") d = Some (PStr profile_id) →
  (∀ k v, k ∈ py "profile_id" :: py "user_id" :: updatable_fields →
          k ≠ py "countries" → assoc k d = Some v → bindable v) →
  let r := serve cast s (PostProfile (PDict d) now utcnow backup_now) in
  status r.1 = 200%Z →
  let before := payload (Site.health_check s later) in
  let after := payload (Site.health_check r.2 later) in
  field after "profile_count"
  = Some (PInt (Z.of_nat
       (if decide (Exists (λ r, r !!! 1%fin = SText profile_id)
                     (rows (user_profiles (tables (core s)))))
        then length (rows (user_profiles (tables (core s))))
        else S (length (rows (user_profiles (tables (core s))))))))
  ∧ field after "user_count" = field before "user_count"
  ∧ field after "message_count" = field before "message_count".
Proof.
  intros Hdb (_ & _ & Hids & [_ Hnd] & _) Hpid Hbind. cbv zeta. cbn [serve fst snd].
  intros H200.
  destruct (save_profile_ok cast (core s) d profile_id now utcnow backup_now
              Hids Hpid Hbind H200) as (new & Hrows & _ & _ & _ & _ & _ & _ & Hchat).
  assert (db (App.save_user_profile cast (core s) (PDict d) now utcnow backup_now).2
          = Some manager) as Hdb'.
  { unfold App.save_user_profile. rewrite Hdb.
    destruct (App.insert_profile _ _ _ _ _); [|done].
    by destruct (DatabaseManager.create_backup _ _ _) as [[[]|] ?]. }
  unfold Site.health_check. cbn [set_core core users]. rewrite Hdb, Hdb'.
  cbn [payload field assoc].
  change (str_eqb (py "profile_count") (py "status")) with false.
  cbn [field]. split; [|split].
  - change (Some (PInt (Z.of_nat (length (rows (user_profiles (tables
              (App.save_user_profile cast (core s) (PDict d) now utcnow backup_now).2))))))
            = Some (PInt (Z.of_nat
                (if decide (Exists (λ r, r !!! 1%fin = SText profile_id)
                              (rows (user_profiles (tables (core s)))))
                 then length (rows (user_profiles (tables (core s))))
                 else S (length (rows (user_profiles (tables (core s))))))))).
    rewrite Hrows, length_app, (length_filter_key (λ r, r !!! 1%fin)) by done.
    cbn [length]. do 3 f_equal.
    destruct (decide (Exists _ _)) as [Hex|Hex]; [|lia].
    apply Exists_exists in Hex as (r & Hr & _).
    destruct (rows (user_profiles (tables (core s)))); [by inversion Hr|cbn; lia].
  - reflexivity.
  - change (Some (PInt (Z.of_nat (length (rows (chat_messages (tables
              (App.save_user_profile cast (core s) (PDict d) now utcnow backup_now).2))))))
            = Some (PInt (Z.of_nat (length (rows (chat_messages (tables (core s)))))))).
    by rewrite Hchat.
Qed.

(** X18.  When the database could not be initialised, every
    request leaves the state as it is; [GET /] still answers 200,
    [GET /health] answers 500 with status "unhealthy", and every other
    request is answered with status 500 and the error "Database not
    available". *)
Theorem database_unavailable (s : site) (req : request) :
  db (core s) = None →
  (serve cast s req).2 = s
  ∧ match req with
    | GetRoot _ => status (serve cast s req).1 = 200%Z
    | GetHealth _ =>
        status (serve cast s req).1 = 500%Z
        ∧ field (payload (serve cast s req).1) "status" = Some (PStr (py "unhealthy"))
    | _ => (serve cast s req).1 = failure 500 (py "Database not available")
    end.
Proof.
  intros Hdb. destruct req; cbn [serve fst snd];
    unfold Site.health_check, Site.save_user, Site.get_user, Site.save_usage_stat,
      App.get_user_profiles, App.save_user_profile, App.get_user_profile,
      App.update_user_profile, App.save_chat_message, App.get_chat_messages,
      App.create_backup;
    rewrite ?Hdb; cbn [fst snd]; try done;
    (split; [by destruct s as [[] ? ?]|done]).
Qed.

End Health.

Lemma profile_count_after_save_witness :
  field (payload (Site.health_check
                    (serve Example.as_bound Sample.empty
                       (PostProfile Example.profile (Example.noon 1) (Example.noon 1)
                          (Example.noon 2))).2
                    (Example.noon 9))) "profile_count"
  = Some (PInt 1).
Proof.
  destruct (profile_count_after_save Example.as_bound Sample.empty Example.manager
              [(py "profile_id", PStr (py "p1")); (py "user_id", PStr (py "u1"));
               (py "user_role", PStr (py "student"));
               (py "countries", PList [PStr (py "US"); PStr (py "UK")]);
               (py "budget", PInt 3000)]
              (py "p1") (Example.noon 1) (Example.noon 1) (Example.noon 2)
              (Example.noon 9))
    as (Hcount & _).
  - reflexivity.
  - apply consistent_empty.
  - reflexivity.
  - intros k v _ Hne. cbn [assoc].
    destruct (str_eqb k (py "profile_id")); [intros [= <-]; bindable_value|].
    destruct (str_eqb k (py "user_id")); [intros [= <-]; bindable_value|].
    destruct (str_eqb k (py "user_role")); [intros [= <-]; bindable_value|].
    destruct (str_eqb k (py "countries")) eqn:Hk; [by apply str_eqb_eq in Hk|].
    destruct (str_eqb k (py "budget")); [intros [= <-]; bindable_value|].
    discriminate.
  - vm_compute. reflexivity.
  - exact Hcount.
Defined.

Lemma database_unavailable_witness :
  (serve Example.as_bound Sample.offline (PostBackup (Example.noon 1))).2
  = Sample.offline
  ∧ (serve Example.as_bound Sample.offline (PostBackup (Example.noon 1))).1
    = failure 500 (py "Database not available").
Proof.
  apply (database_unavailable Example.as_bound Sample.offline
           (PostBackup (Example.noon 1))).
  reflexivity.
Defined.

(** ** Usage statistics *)

Lemma unique_usage_stats (j : fin 6) :
  col_unique (usage_stats_schema !!! j) = true → j = 0%fin.
Proof. revert j. apply (bool_decide_unpack _). by vm_compute. Qed.

Section Stats.

Variable cast : affinity → sqlval → sqlval.

(** X19.  A POST of a usage statistic whose body lacks [user_id] or
    [action_type], or holds null there, is answered with status 500 and
    stores nothing. *)
Theorem save_stat_requires (s : site) (d : list (str * pyval)) (k : str)
    (utcnow : datetime) :
  k ∈ [py "user_id"; py "action_type"] →
  assoc k d = None ∨ assoc k d = Some PNone →
  let r := Site.save_usage_stat cast s (PDict d) utcnow in
  status r.1 = 500%Z ∧ field (payload r.1) "ok" = Some (PBool false) ∧ r.2 = s.
Proof.
  intros Hk Hmissing. cbv zeta. unfold Site.save_usage_stat.
  destruct (db (core s)) as [manager|] eqn:Hdb; [|done].
  destruct (Site.insert_usage_stat _ _ _ _) as [t'|e] eqn:Hins; [exfalso|done].
  revert Hins. unfold Site.insert_usage_stat. cbn [py_get mbind result_bind].
  destruct (mapM bind _) as [params|] eqn:Hp; [|done]. cbn [mbind result_bind].
  apply mapM_result_Forall2 in Hp.
  repeat match goal with
  | H : Forall2 _ (_ :: _) _ |- _ =>
      let p := fresh "p" in let Hb := fresh "Hb" in
      apply Forall2_cons_inv_l in H as (p & ? & Hb & H & ->)
  | H : Forall2 _ [] _ |- _ => apply Forall2_nil_inv_l in H as ->
  end.
  intros (_ & Hnn & _)%execute_insert_ok. cbv zeta in Hnn.
  repeat (apply elem_of_cons in Hk as [->|Hk]); [| |by apply elem_of_nil in Hk].
  - apply (violates_notnull_false _ _ 1%fin Hnn); [done|].
    destruct Hmissing as [Hm|Hm]; rewrite Hm in *;
      cbn [from_option id bind] in *; by simplify_eq.
  - apply (violates_notnull_false _ _ 3%fin Hnn); [done|].
    destruct Hmissing as [Hm|Hm]; rewrite Hm in *;
      cbn [from_option id bind] in *; by simplify_eq.
Qed.


End Stats.

Lemma save_stat_requires_witness :
  let r := Site.save_usage_stat Example.as_bound Sample.empty
             (PDict [(py "user_id", PStr (py "u1"))]) (Example.noon 1) in
  status r.1 = 500%Z ∧ field (payload r.1) "ok" = Some (PBool false)
  ∧ r.2 = Sample.empty.
Proof.
  apply (save_stat_requires Example.as_bound Sample.empty _ (py "action_type")).
  - apply (bool_decide_unpack _). by vm_compute.
  - by left.
Defined.


(** ** The backup routine under faults *)

Module Triples.
Import DatabaseManager.

Lemma triple_ret {A} (a : A) (pre : filesystem → Prop) post exc :
  (∀ fs, pre fs → post a fs) → fs_triple pre (mret a) post exc.
Proof. intros H fs Hfs. by apply H. Qed.

Lemma triple_bind {A B} (m : fsM A) (f : A → fsM B) pre mid post exc :
  fs_triple pre m mid exc →
  (∀ a, fs_triple (mid a) (f a) post exc) →
  fs_triple pre (m ≫= f) post exc.
Proof.
  intros Hm Hf fs Hfs. specialize (Hm fs Hfs). unfold mbind, fsM_bind.
  destruct (m fs) as [[a|e] fs']; [|done]. by apply Hf.
Qed.

Lemma triple_try_except {A} (m : fsM A) (handler : exn → fsM A) pre post caught exc :
  fs_triple pre m post caught →
  (∀ e, fs_triple caught (handler e) post exc) →
  fs_triple pre (try_except m handler) post exc.
Proof.
  intros Hm Hh fs Hfs. specialize (Hm fs Hfs). unfold try_except.
  destruct (m fs) as [[a|e] fs']; [done|]. by apply Hh.
Qed.

Lemma triple_weaken {A} (m : fsM A) (pre pre' : filesystem → Prop)
    (post post' : A → filesystem → Prop) (exc exc' : filesystem → Prop) :
  fs_triple pre m post exc →
  (∀ fs, pre' fs → pre fs) → (∀ a fs, post a fs → post' a fs) →
  (∀ fs, exc fs → exc' fs) →
  fs_triple pre' m post' exc'.
Proof.
  intros Hm Hpre Hpost Hexc fs Hfs. specialize (Hm fs (Hpre fs Hfs)).
  destruct (m fs) as [[a|e] fs']; auto.
Qed.

(** A file-system call whose effect keeps [inv], an invariant that does
    not look at the fault schedule. *)
Lemma triple_after_fault {A} (call : filesystem → result A * filesystem)
    (inv : filesystem → Prop) (post : A → filesystem → Prop) :
  (∀ fs rest, inv fs → inv (mk_fs (dirs fs) (denied fs) (database_file fs) rest)) →
  (∀ fs, inv fs →
     match call fs with
     | (Ok a, fs') => post a fs'
     | (Raise _, fs') => inv fs'
     end) →
  fs_triple inv (after_fault call) post inv.
Proof.
  intros Hfaults Hcall fs Hfs. unfold after_fault, fault.
  destruct (faults fs) as [|[e|] rest].
  - by apply Hcall.
  - by apply Hfaults.
  - apply Hcall. by apply Hfaults.
Qed.

End Triples.

Module BackupFaults.
Import DatabaseManager Triples.

Lemma managed_test_write : managed (py "test_write") = true.
Proof. reflexivity. Qed.

Lemma managed_backup_name (now : datetime) : managed (backup_name now) = true.
Proof.
  unfold managed. rewrite RotateFacts.backup_name_matches. apply orb_true_r.
Qed.

Lemma backup_files_prefixed (names : list str) :
  Forall (λ x, startswith x backup_prefix = true) (all_but_last5 (backup_files names)).
Proof.
  unfold all_but_last5, backup_files. apply Forall_forall. intros x Hx.
  assert (x ∈ merge_sort str_le
                (filter (λ f, Is_true (startswith f backup_prefix)) names)) as Hin
    by (eapply elem_of_sublist; [exact Hx|apply sublist_take]).
  rewrite merge_sort_Permutation in Hin.
  apply list_elem_of_filter in Hin as [Hp _]. by apply Is_true_true.
Qed.

Section Faulty.

Context (self : t) (now : datetime).

(** [inv] holds until the copy is made, [inv2] from then on. *)
Context (inv inv2 : filesystem → Prop).

Hypothesis inv_faults : ∀ fs rest,
  inv fs → inv (mk_fs (dirs fs) (denied fs) (database_file fs) rest).
Hypothesis inv2_faults : ∀ fs rest,
  inv2 fs → inv2 (mk_fs (dirs fs) (denied fs) (database_file fs) rest).
Hypothesis inv_makedirs : ∀ fs d,
  inv fs → d ∈ backup_dirs self → dirs fs !! d = None → d ∉ denied fs →
  inv (set_dirs fs (<[d := ∅]> (dirs fs))).
Hypothesis inv_write : ∀ fs d e,
  inv fs → d ∈ backup_dirs self → dirs fs !! d = Some e → d ∉ denied fs →
  inv (set_dirs fs (<[d := <[py "test_write" := File (py "test")]> e]> (dirs fs))).
Hypothesis inv_remove : ∀ fs d e c,
  inv fs → d ∈ backup_dirs self → dirs fs !! d = Some e → d ∉ denied fs →
  e !! py "test_write" = Some (File c) →
  inv (set_dirs fs (<[d := delete (py "test_write") e]> (dirs fs))).
Hypothesis inv_copied : ∀ fs content,
  inv fs → database_file fs = Some content → inv2 fs.
Hypothesis inv_copy : ∀ fs d e content,
  inv fs → d ∈ backup_dirs self → database_file fs = Some content →
  dirs fs !! d = Some e → d ∉ denied fs →
  inv2 (set_dirs fs (<[d := <[backup_name now := File content]> e]> (dirs fs))).
Hypothesis inv2_remove : ∀ fs d e name c,
  inv2 fs → d ∈ backup_dirs self → dirs fs !! d = Some e → d ∉ denied fs →
  startswith name backup_prefix = true → e !! name = Some (File c) →
  inv2 (set_dirs fs (<[d := delete name e]> (dirs fs))).

Lemma makedirs_inv (d : str) :
  d ∈ backup_dirs self → fs_triple inv (makedirs d) (λ _, inv) inv.
Proof.
  intros Hd. apply triple_after_fault; [done|]. intros fs Hfs.
  destruct (dirs fs !! d) eqn:He; [done|].
  case_bool_decide; [done|]. by apply inv_makedirs.
Qed.

Lemma write_probe_inv (d : str) :
  d ∈ backup_dirs self →
  fs_triple inv (write_file d (py "test_write") (py "test")) (λ _, inv) inv.
Proof.
  intros Hd. apply triple_after_fault; [done|]. intros fs Hfs.
  destruct (dirs fs !! d) as [e|] eqn:He; [|done].
  case_bool_decide; [done|].
  destruct (e !! py "test_write") as [[]|]; try done; by apply inv_write.
Qed.

Lemma remove_probe_inv (d : str) :
  d ∈ backup_dirs self → fs_triple inv (remove d (py "test_write")) (λ _, inv) inv.
Proof.
  intros Hd. apply triple_after_fault; [done|]. intros fs Hfs.
  destruct (dirs fs !! d) as [e|] eqn:He; [|done].
  destruct (e !! py "test_write") as [[c|]|] eqn:Hn; try done.
  case_bool_decide; [done|]. by eapply inv_remove.
Qed.

Lemma probe_inv (d : str) :
  d ∈ backup_dirs self → fs_triple inv (probe d) (λ _, inv) inv.
Proof.
  intros Hd. unfold probe.
  eapply triple_bind; [by apply makedirs_inv|]. intros ?.
  eapply triple_bind; [by apply write_probe_inv|]. intros ?.
  by apply remove_probe_inv.
Qed.

Lemma choose_backup_dir_inv (candidates : list str) :
  candidates ⊆ backup_dirs self →
  fs_triple inv (choose_backup_dir candidates)
    (λ r fs, inv fs ∧ ∀ d, r = Some d → d ∈ backup_dirs self) inv.
Proof.
  induction candidates as [|c candidates IH]; intros Hsub.
  - apply triple_ret. intros fs Hfs. by split.
  - cbn [choose_backup_dir]. eapply triple_try_except.
    + eapply triple_bind; [apply probe_inv, Hsub; by left|]. intros ?.
      apply triple_ret. intros fs Hfs. split; [done|].
      intros d [= <-]. apply Hsub. by left.
    + intros ?. apply IH. intros x Hx. apply Hsub. by right.
Qed.

Lemma copy2_inv (d : str) :
  d ∈ backup_dirs self →
  fs_triple inv (copy2 d (backup_name now)) (λ _, inv2) inv.
Proof.
  intros Hd. apply triple_after_fault; [done|]. intros fs Hfs.
  destruct (database_file fs) as [content|] eqn:Hdb; [|done].
  destruct (dirs fs !! d) as [e|] eqn:He; [|done].
  case_bool_decide; [done|].
  destruct (e !! backup_name now) as [[]|]; try (by eapply inv_copy).
  by eapply inv_copied.
Qed.

Lemma listdir_inv (d : str) :
  fs_triple inv2 (listdir d) (λ _, inv2) inv2.
Proof.
  apply triple_after_fault; [done|]. intros fs Hfs.
  by destruct (dirs fs !! d).
Qed.

Lemma remove_each_inv (d : str) (names : list str) :
  d ∈ backup_dirs self →
  Forall (λ x, startswith x backup_prefix = true) names →
  fs_triple inv2 (remove_each d names) (λ _, inv2) inv2.
Proof.
  intros Hd. induction 1 as [|name names Hname _ IH].
  - by apply triple_ret.
  - cbn [remove_each]. eapply triple_bind; [|intros ?; apply IH].
    apply triple_after_fault; [done|]. intros fs Hfs.
    destruct (dirs fs !! d) as [e|] eqn:He; [|done].
    destruct (e !! name) as [[c|]|] eqn:Hn; try done.
    case_bool_decide; [done|]. by eapply inv2_remove.
Qed.

(** The state a backup leaves satisfies one of the two invariants. *)
Lemma create_backup_inv (fs : filesystem) :
  inv fs → inv (create_backup self now fs).2 ∨ inv2 (create_backup self now fs).2.
Proof.
  intros Hfs.
  assert (fs_triple inv (create_backup self now)
            (λ _ fs', inv fs' ∨ inv2 fs') (λ fs', inv fs' ∨ inv2 fs')) as Htriple.
  { unfold create_backup.
    apply (triple_try_except _ _ inv (λ _ fs', inv fs' ∨ inv2 fs')
             (λ fs', inv fs' ∨ inv2 fs') (λ fs', inv fs' ∨ inv2 fs'));
      [|intros e; by apply triple_ret].
    apply (triple_bind _ _ inv
             (λ r fs', inv fs' ∧ ∀ d, r = Some d → d ∈ backup_dirs self)).
    - eapply triple_weaken;
        [by apply (choose_backup_dir_inv (backup_dirs self))|done|done|by left].
    - intros [[|c d]|]; try (apply triple_ret; intros ? [? _]; by left).
      intros fs0 [Hfs0 Hd]. specialize (Hd _ eq_refl). revert fs0 Hfs0.
      change (fs_triple inv
        (_ ← copy2 (c :: d) (backup_name now);
         names ← listdir (c :: d);
         remove_each (c :: d) (all_but_last5 (backup_files names)))
        (λ _ fs', inv fs' ∨ inv2 fs') (λ fs', inv fs' ∨ inv2 fs')).
      apply (triple_bind _ _ inv (λ _, inv2)).
      + eapply triple_weaken; [by apply (copy2_inv (c :: d))|done|done|by left].
      + intros ?.
        assert (fs_triple inv2
                  (names ← listdir (c :: d);
                   remove_each (c :: d) (all_but_last5 (backup_files names)))
                  (λ _, inv2) inv2) as Hrest.
        { apply (triple_bind _ _ inv2 (λ _, inv2)); [apply listdir_inv|].
          intros names. apply remove_each_inv; [done|]. apply backup_files_prefixed. }
        eapply triple_weaken; [exact Hrest|done|by right|by right]. }
  specialize (Htriple fs Hfs). by destruct (create_backup self now fs) as [[[]|e] fs'].
Qed.

End Faulty.

End BackupFaults.

(** ** What a backup leaves alone *)

Lemma entries_of_set_dirs (fs : filesystem) (d d' : str) (e : gmap str node) :
  entries_of (set_dirs fs (<[d := e]> (dirs fs))) d'
  = if decide (d' = d) then e else entries_of fs d'.
Proof.
  unfold entries_of. cbn [set_dirs dirs]. destruct (decide (d' = d)) as [->|Hne].
  - by rewrite lookup_insert_eq.
  - by rewrite lookup_insert_ne.
Qed.

Lemma entries_of_faults (fs : filesystem) (rest : list (option exn)) (d : str) :
  entries_of (mk_fs (dirs fs) (denied fs) (database_file fs) rest) d = entries_of fs d.
Proof. reflexivity. Qed.

Lemma entries_of_Some (fs : filesystem) (d : str) (e : gmap str node) :
  dirs fs !! d = Some e → entries_of fs d = e.
Proof. unfold entries_of. by intros ->. Qed.

Lemma entries_of_None (fs : filesystem) (d : str) :
  dirs fs !! d = None → entries_of fs d = ∅.
Proof. unfold entries_of. by intros ->. Qed.

Lemma managed_false (name : str) :
  managed name = false →
  name ≠ py "test_write" ∧ startswith name backup_prefix = false.
Proof.
  unfold managed. intros [Hn Hp]%orb_false_iff. split; [|done].
  by apply str_eqb_neq.
Qed.

(** X21.  Whatever fails during a backup, a file of a directory
    that is neither the probe file [test_write] nor named like a backup
    is still there afterwards with the same content (no candidate
    directory holding a directory under the name of the new backup). *)
Theorem backup_keeps_other_files (self : DatabaseManager.t) (now : datetime)
    (fs : filesystem) (d name c : str) :
  Forall (λ cand, entries_of fs cand !! backup_name now ≠ Some Directory)
    (backup_dirs self) →
  managed name = false →
  entries_of fs d !! name = Some (File c) →
  entries_of (create_backup self now fs).2 d !! name = Some (File c).
Proof.
  intros _ Hname Hfile.
  pose (inv := λ fs' : filesystem,
          ∀ d name, managed name = false →
                    entries_of fs' d !! name = entries_of fs d !! name).
  assert (inv (create_backup self now fs).2) as Hinv.
  { destruct (BackupFaults.create_backup_inv self now inv inv) with (fs := fs)
      as [H|H]; try done; subst inv; cbv beta.
    - intros fs' d0 Hfs' Hd0 Hnone Hden d' n Hn.
      rewrite entries_of_set_dirs, <- Hfs' by done.
      destruct (decide (d' = d0)) as [->|]; [|done].
      by rewrite (entries_of_None _ _ Hnone).
    - intros fs' d0 e Hfs' Hd0 He Hden d' n Hn.
      rewrite entries_of_set_dirs, <- Hfs' by done.
      destruct (decide (d' = d0)) as [->|]; [|done].
      rewrite (entries_of_Some _ _ _ He). apply lookup_insert_ne.
      destruct (managed_false _ Hn) as [Hne _]. congruence.
    - intros fs' d0 e c0 Hfs' Hd0 He Hden Hc0 d' n Hn.
      rewrite entries_of_set_dirs, <- Hfs' by done.
      destruct (decide (d' = d0)) as [->|]; [|done].
      rewrite (entries_of_Some _ _ _ He). apply lookup_delete_ne.
      destruct (managed_false _ Hn) as [Hne _]. congruence.
    - intros fs' d0 e content Hfs' Hd0 Hdb He Hden d' n Hn.
      rewrite entries_of_set_dirs, <- Hfs' by done.
      destruct (decide (d' = d0)) as [->|]; [|done].
      rewrite (entries_of_Some _ _ _ He). apply lookup_insert_ne.
      intros <-. by rewrite BackupFaults.managed_backup_name in Hn.
    - intros fs' d0 e n0 c0 Hfs' Hd0 He Hden Hn0 Hc0 d' n Hn.
      rewrite entries_of_set_dirs, <- Hfs' by done.
      destruct (decide (d' = d0)) as [->|]; [|done].
      rewrite (entries_of_Some _ _ _ He). apply lookup_delete_ne.
      intros <-. destruct (managed_false _ Hn) as [_ Hp]. congruence. }
  by rewrite Hinv.
Qed.

(** X22.  When none of the candidate directories can be written, a
    backup, whatever else fails, leaves every directory as it was. *)
Theorem backup_without_writable_directory (self : DatabaseManager.t) (now : datetime)
    (fs : filesystem) :
  Forall (λ cand, cand ∈ denied fs) (backup_dirs self) →
  dirs (create_backup self now fs).2 = dirs fs.
Proof.
  intros Hdenied. rewrite Forall_forall in Hdenied.
  pose (inv := λ fs' : filesystem, dirs fs' = dirs fs ∧ denied fs' = denied fs).
  assert (inv (create_backup self now fs).2) as [Hinv _]; [|done].
  destruct (BackupFaults.create_backup_inv self now inv inv) with (fs := fs)
    as [H|H]; try done; subst inv; cbv beta.
  - intros fs' d0 [_ Hden] Hd0 _ Hnot. destruct Hnot. rewrite Hden. by apply Hdenied.
  - intros fs' d0 e [_ Hden] Hd0 _ Hnot. destruct Hnot. rewrite Hden. by apply Hdenied.
  - intros fs' d0 e c0 [_ Hden] Hd0 _ Hnot. destruct Hnot. rewrite Hden.
    by apply Hdenied.
  - intros fs' d0 e c0 [_ Hden] Hd0 _ _ Hnot. destruct Hnot. rewrite Hden.
    by apply Hdenied.
  - intros fs' d0 e n0 c0 [_ Hden] Hd0 _ Hnot. destruct Hnot. rewrite Hden.
    by apply Hdenied.
Qed.

(** X23.  When the database file does not exist, a backup,
    whatever else fails, creates and removes no file named like a
    backup, in any directory. *)
Theorem backup_without_database_file (self : DatabaseManager.t) (now : datetime)
    (fs : filesystem) (d name : str) :
  database_file fs = None →
  startswith name backup_prefix = true →
  entries_of (create_backup self now fs).2 d !! name = entries_of fs d !! name.
Proof.
  intros Hdb Hname.
  pose (inv := λ fs' : filesystem,
          database_file fs' = None
          ∧ ∀ d name, startswith name backup_prefix = true →
                      entries_of fs' d !! name = entries_of fs d !! name).
  assert (inv (create_backup self now fs).2) as [_ Hinv]; [|by apply Hinv].
  destruct (BackupFaults.create_backup_inv self now inv (λ _, False)) with (fs := fs)
    as [H|H]; try done; subst inv; cbv beta.
  - intros fs' d0 [Hnodb Hfs'] Hd0 Hnone Hden. split; [done|]. intros d' n Hn.
    rewrite entries_of_set_dirs, <- Hfs' by done.
    destruct (decide (d' = d0)) as [->|]; [|done].
    by rewrite (entries_of_None _ _ Hnone).
  - intros fs' d0 e [Hnodb Hfs'] Hd0 He Hden. split; [done|]. intros d' n Hn.
    rewrite entries_of_set_dirs, <- Hfs' by done.
    destruct (decide (d' = d0)) as [->|]; [|done].
    rewrite (entries_of_Some _ _ _ He). apply lookup_insert_ne.
    intros <-. by rewrite RotateFacts.test_write_not_backup in Hn.
  - intros fs' d0 e c0 [Hnodb Hfs'] Hd0 He Hden Hc0. split; [done|]. intros d' n Hn.
    rewrite entries_of_set_dirs, <- Hfs' by done.
    destruct (decide (d' = d0)) as [->|]; [|done].
    rewrite (entries_of_Some _ _ _ He). apply lookup_delete_ne.
    intros <-. by rewrite RotateFacts.test_write_not_backup in Hn.
  - intros fs' content [Hnodb _] Hsome. congruence.
  - intros fs' d0 e content [Hnodb _] _ Hsome. congruence.
Qed.

Lemma backup_keeps_other_files_witness :
  entries_of (create_backup Example.manager (Example.noon 1) Sample.disk_with_notes).2
    Example.backup_dir !! py "notes.txt"
  = Some (File (py "keep")).
Proof.
  apply (backup_keeps_other_files Example.manager (Example.noon 1)
           Sample.disk_with_notes Example.backup_dir (py "notes.txt") (py "keep")).
  - repeat constructor; intros H; vm_compute in H; discriminate.
  - reflexivity.
  - by vm_compute.
Defined.

Lemma backup_without_writable_directory_witness :
  dirs (create_backup Example.manager (Example.noon 1) Sample.read_only_disk).2
  = dirs Sample.read_only_disk.
Proof.
  apply (backup_without_writable_directory Example.manager (Example.noon 1)
           Sample.read_only_disk).
  apply (bool_decide_unpack _). by vm_compute.
Defined.

Lemma backup_without_database_file_witness :
  entries_of (create_backup Example.manager (Example.noon 1)
                Sample.disk_without_database).2
    Example.backup_dir !! backup_name (Example.noon 1)
  = entries_of Sample.disk_without_database Example.backup_dir
      !! backup_name (Example.noon 1).
Proof.
  apply (backup_without_database_file Example.manager (Example.noon 1)
           Sample.disk_without_database).
  - reflexivity.
  - apply RotateFacts.backup_name_matches.
Defined.

(** ** The newest backup and a clock set back *)

Lemma greatest_is_kept (l : list str) (name : str) (k : nat) :
  StronglySorted str_le l → NoDup l → name ∈ l →
  Forall (λ x, str_le x name) l → (k < length l)%nat →
  name ∉ take k l.
Proof.
  intros Hsorted Hnd Hin Hmax Hk Htake.
  rewrite <- (take_drop k l) in Hsorted, Hnd.
  apply NoDup_app in Hnd as (_ & Hdisj & _).
  destruct (drop k l) as [|y tl] eqn:Hdrop.
  { apply (f_equal length) in Hdrop. rewrite length_drop in Hdrop. cbn in Hdrop. lia. }
  assert (y ∈ l) as Hy.
  { rewrite <- (take_drop k l), Hdrop. apply elem_of_app. right. by left. }
  apply StronglySorted_app in Hsorted as (Hle & _ & _).
  assert (str_le name y) as H1 by (apply Hle; [done|by left]).
  rewrite Forall_forall in Hmax. pose proof (Hmax y Hy) as H2.
  assert (name = y) as -> by by apply (anti_symm str_le).
  apply (Hdisj y Htake). by left.
Qed.

Section NewestBackup.

Context (self : DatabaseManager.t) (skipped rest : list str) (d content : str).

(** X24.  In a world where the backups go to a ready directory, a
    backup whose name is not less than those already there leaves, under
    that name, a file with the content of the database, and no probe
    file. *)
Theorem new_backup_holds_database (w : world) (now : datetime) :
  backup_dirs self = skipped ++ d :: rest →
  steady self skipped d content w →
  Forall (λ x, str_le x (backup_name now)) (backups_in (disk w) d) →
  let r := App.create_backup w now in
  entries_of (disk r.2) d !! backup_name now = Some (File content)
  ∧ entries_of (disk r.2) d !! py "test_write" = None.
Proof.
  intros Hdirs Hw Hmax. cbv zeta.
  destruct (SuccessiveBackups.backup_step self skipped rest d content Hdirs w now Hw)
    as [-> _].
  cbn [snd set_disk disk]. rewrite entries_of_set_dirs, decide_True by done.
  unfold rotate. rewrite !RotateFacts.lookup_foldl_delete.
  set (copied := <[backup_name now := File content]>
                   (delete (py "test_write") (entries_of (disk w) d))).
  assert (copied !! py "test_write" = None) as Htw.
  { subst copied. rewrite lookup_insert_ne, lookup_delete_eq; [done|].
    intros Heq. pose proof (RotateFacts.backup_name_matches now) as Hm.
    rewrite Heq in Hm. by rewrite RotateFacts.test_write_not_backup in Hm. }
  split; [|by destruct (decide _)].
  rewrite decide_False.
  { subst copied. by rewrite lookup_insert_eq. }
  unfold all_but_last5.
  assert (∀ x, x ∈ backup_files (map_to_list copied).*1
               ↔ x = backup_name now ∨ x ∈ backups_in (disk w) d) as Helem.
  { intros x. apply RotateFacts.elem_of_listing_copied, RotateFacts.backup_name_matches. }
  assert (backup_name now ∈ backup_files (map_to_list copied).*1) as Hin
    by (apply Helem; by left).
  apply greatest_is_kept; [apply RotateFacts.sorted_listing|
    apply RotateFacts.NoDup_listing|done| |].
  - apply Forall_forall. intros x [->|Hx]%Helem; [done|].
    rewrite Forall_forall in Hmax. by apply Hmax.
  - destruct (backup_files (map_to_list copied).*1); [by inversion Hin|cbn; lia].
Qed.

(** X25.  In a world where the backups go to a ready directory
    that holds five backups or more, a backup whose name is less than
    all of them (the clock was set back) is removed as soon as it is
    made: the directory keeps the last five of the backups it had, and
    nothing under the new name. *)
Theorem stale_backup_removed_at_once (w : world) (now : datetime) :
  backup_dirs self = skipped ++ d :: rest →
  steady self skipped d content w →
  (5 <= length (backups_in (disk w) d))%nat →
  Forall (λ x, str_lt (backup_name now) x) (backups_in (disk w) d) →
  let r := App.create_backup w now in
  backups_in (disk r.2) d
  = drop (length (backups_in (disk w) d) - 5) (backups_in (disk w) d)
  ∧ entries_of (disk r.2) d !! backup_name now = None.
Proof.
  intros Hdirs Hw Hfive Hless. cbv zeta.
  pose proof (SuccessiveBackups.backups_after_step self skipped rest d content Hdirs
                w now Hw) as Hafter. cbv zeta in Hafter.
  set (copied := <[backup_name now := File content]>
                   (delete (py "test_write") (entries_of (disk w) d))) in Hafter.
  assert (backup_name now ∉ backups_in (disk w) d) as Hnotin.
  { intros Hin. rewrite Forall_forall in Hless.
    by apply (NameOrder.str_lt_irrefl (backup_name now)), Hless. }
  assert (backup_files (map_to_list copied).*1
          = backup_name now :: backups_in (disk w) d) as Hlisting.
  { apply RotateFacts.listing_unique.
    - constructor; [apply RotateFacts.sorted_listing|].
      eapply Forall_impl; [exact Hless|]. intros x. apply NameOrder.str_lt_le.
    - constructor; [done|apply RotateFacts.NoDup_listing].
    - intros x. rewrite <- RotateFacts.elem_of_listing.
      subst copied.
      rewrite RotateFacts.elem_of_listing_copied
        by apply RotateFacts.backup_name_matches.
      by rewrite elem_of_cons. }
  assert (backups_in (disk (App.create_backup w now).2) d
          = drop (length (backups_in (disk w) d) - 5) (backups_in (disk w) d)) as Hkeep.
  { rewrite Hafter, Hlisting. cbn [length].
    replace (S (length (backups_in (disk w) d)) - 5)%nat
      with (S (length (backups_in (disk w) d) - 5)) by lia.
    done. }
  split; [done|].
  destruct (entries_of (disk (App.create_backup w now).2) d !! backup_name now)
    eqn:Hlookup; [exfalso|done].
  apply Hnotin.
  assert (backup_name now ∈ backups_in (disk (App.create_backup w now).2) d) as Hin.
  { apply RotateFacts.elem_of_listing. split; [apply RotateFacts.backup_name_matches|].
    by rewrite Hlookup. }
  rewrite Hkeep in Hin. eapply elem_of_sublist; [exact Hin|apply sublist_drop].
Qed.

End NewestBackup.

Lemma steady_five_backups :
  steady Example.manager [] Example.backup_dir (py "SQLite format 3")
    Sample.five_backups.
Proof.
  apply (SuccessiveBackups.steady_trigger Example.manager [] _ Example.backup_dir
           (py "SQLite format 3") eq_refl).
  apply steady_fresh.
Qed.

Lemma new_backup_holds_database_witness :
  entries_of (disk (App.create_backup Sample.five_backups (Example.noon 16)).2)
    Example.backup_dir !! backup_name (Example.noon 16)
  = Some (File (py "SQLite format 3"))
  ∧ entries_of (disk (App.create_backup Sample.five_backups (Example.noon 16)).2)
      Example.backup_dir !! py "test_write" = None.
Proof.
  apply (new_backup_holds_database Example.manager [] _ Example.backup_dir
           (py "SQLite format 3") Sample.five_backups (Example.noon 16) eq_refl).
  - apply steady_five_backups.
  - apply (bool_decide_unpack _). by vm_compute.
Defined.

Lemma stale_backup_removed_at_once_witness :
  backups_in (disk (App.create_backup Sample.five_backups (Example.noon 1)).2)
    Example.backup_dir
  = drop (length (backups_in (disk Sample.five_backups) Example.backup_dir) - 5)
      (backups_in (disk Sample.five_backups) Example.backup_dir)
  ∧ entries_of (disk (App.create_backup Sample.five_backups (Example.noon 1)).2)
      Example.backup_dir !! backup_name (Example.noon 1) = None.
Proof.
  apply (stale_backup_removed_at_once Example.manager [] _ Example.backup_dir
           (py "SQLite format 3") Sample.five_backups (Example.noon 1) eq_refl).
  - apply steady_five_backups.
  - by vm_compute.
  - unfold str_lt. apply (bool_decide_unpack _). by vm_compute.
Defined.

(** ** The stored JSON text *)

Module JsonAscii.
Import Json.

#[local] Ltac Zify.zify_post_hook ::= Z.to_euclidean_division_equations.

Lemma hex_digit_printable (d : N) : d < 16 → printable (hex_digit d).
Proof.
  intros Hd. unfold hex_digit, printable. destruct (N.ltb_spec d 10); lia.
Qed.

Lemma u_escape_printable (c : N) : c < 65536 → Forall printable (u_escape c).
Proof.
  intros Hc. unfold u_escape.
  repeat constructor; try (unfold printable, BACKSLASH; lia);
    apply hex_digit_printable; lia.
Qed.

Lemma escape_char_printable (c : N) : Forall printable (escape_char c).
Proof.
  unfold escape_char.
  repeat match goal with
  | |- context [if ?a =? ?b then _ else _] =>
      destruct (N.eqb_spec a b);
        [repeat constructor; unfold printable, QUOTE, BACKSLASH; lia|]
  end.
  destruct (N.leb_spec 32 c), (N.leb_spec c 126); cbn [andb];
    [repeat constructor; unfold printable; lia|..];
    (destruct (N.ltb_spec c 65536);
     [by apply u_escape_printable
     |cbv zeta; apply Forall_app; split; apply u_escape_printable; lia]).
Qed.

Lemma encode_string_printable (s : str) : Forall printable (encode_string s).
Proof.
  unfold encode_string. constructor; [unfold printable, QUOTE; lia|].
  apply Forall_app. split; [|repeat constructor; unfold printable, QUOTE; lia].
  induction s as [|c s IH]; [constructor|]. cbn [fmap list_fmap concat].
  apply Forall_app. split; [apply escape_char_printable|done].
Qed.

Lemma dumps_strings_printable (l : list str) :
  Forall printable (dumps (PList (PStr <$> l))).
Proof.
  rewrite JsonFacts.dumps_strings. constructor; [unfold printable; lia|].
  apply Forall_app. split; [|repeat constructor; unfold printable; lia].
  induction l as [|s l IH]; [constructor|]. cbn [fmap list_fmap].
  destruct l as [|s' l]; [apply encode_string_printable|].
  change (Forall printable
    (encode_string s ++ py ", " ++ join (py ", ") (encode_string <$> (s' :: l)))).
  apply Forall_app. split; [apply encode_string_printable|].
  apply Forall_app. split; [|done].
  repeat constructor; unfold printable; cbn; lia.
Qed.

End JsonAscii.

Section SavedFields.

Variable cast : affinity → sqlval → sqlval.

(** What a successful upsert of a profile is followed by: the row it
    built is the one a GET of the [profile_id] answers with. *)
Lemma saved_profile_is_selected (w : world) (d : list (str * pyval))
    (profile_id : str) (now utcnow backup_now : datetime) :
  assoc (py "profile_id") d = Some (PStr profile_id) →
  let r := App.save_user_profile cast w (PDict d) now utcnow backup_now in
  status r.1 = 200%Z →
  ∃ t' new,
    App.insert_profile cast (PDict d) now utcnow (user_profiles (tables w)) = Ok t'
    ∧ user_profiles (tables r.2) = t'
    ∧ last (rows t') = Some new
    ∧ App.get_user_profile r.2 profile_id = success_data (profile_dict new).
Proof.
  intros Hpid. cbv zeta. unfold App.save_user_profile.
  destruct (db w) as [manager|] eqn:Hdb; [|done].
  destruct (App.insert_profile _ _ _ _ _) as [t'|e] eqn:Hins; [|done].
  pose proof (insert_profile_inv _ _ _ _ _ _ Hins) as Hinv. cbv zeta in Hinv.
  destruct Hinv as (vpid & vuid & params & Hp & Hu & Hbind & Hex).
  rewrite Hpid in Hp. injection Hp as <-.
  destruct (execute_insert_ok _ _ _ _ _ _ _ _ Hex) as (_ & _ & _ & Hrows & _).
  cbv zeta in Hrows.
  apply Forall2_cons_inv_l in Hbind as (p & ps & Hb & _ & ->).
  injection Hb as <-.
  match type of Hrows with _ = _ ++ [?r] => set (new := r) in * end.
  assert (new !!! 1%fin = SText profile_id) as H1.
  { unfold new, new_row. by rewrite lookup_fun_to_vec. }
  destruct (DatabaseManager.create_backup _ _ _) as [[[]|e] fs]; [|done].
  intros _. exists t', new. split; [done|]. split; [done|].
  split; [by rewrite Hrows, last_snoc|].
  unfold App.get_user_profile.
  cbn [snd set_disk set_profiles db tables user_profiles].
  rewrite Hdb, select_by_profile_id, Hrows, filter_app.
  assert (filter (λ r, r !!! 1%fin = SText profile_id)
            (filter (λ r', ¬ conflicts user_profiles_schema new r')
               (rows (user_profiles (tables w))))
          = []) as ->.
  { apply elem_of_nil_inv.
    intros r [Hr [Hc' _]%list_elem_of_filter]%list_elem_of_filter.
    apply Hc'. by rewrite (conflicts_same_profile_id new r profile_id). }
  by rewrite filter_cons_True, filter_nil by done.
Qed.


(** X27.  After a POST of a profile with a [countries] list of
    strings, answered with status 200, the text kept in the [countries]
    column of the new row holds printable ASCII characters only,
    whatever characters the names hold. *)
Theorem stored_countries_are_ascii (w : world) (d : list (str * pyval))
    (profile_id : str) (countries : list str) (now utcnow backup_now : datetime) :
  assoc (py "profile_id") d = Some (PStr profile_id) →
  assoc (py "countries") d = Some (PList (PStr <$> countries)) →
  (∀ k v, k ∈ py "profile_id" :: py "user_id" :: updatable_fields →
          k ≠ py "countries" → assoc k d = Some v → bindable v) →
  let r := App.save_user_profile cast w (PDict d) now utcnow backup_now in
  status r.1 = 200%Z →
  ∃ new text,
    last (rows (user_profiles (tables r.2))) = Some new
    ∧ new !!! 14%fin = SText text
    ∧ Forall printable text.
Proof.
  intros Hpid Hc _ r Hstatus. subst r.
  destruct (saved_profile_is_selected w d profile_id now utcnow backup_now Hpid Hstatus)
    as (t' & new & Hins & Ht' & Hlast & _).
  destruct (insert_profile_ok cast _ _ _ _ _ _ _ Hpid Hc Hins) as (new' & Hrows & _ & H14).
  rewrite Hrows, last_snoc in Hlast. injection Hlast as ->.
  exists new, (Json.dumps (PList (PStr <$> countries))).
  rewrite Ht', Hrows, last_snoc. split; [done|]. split; [done|].
  apply JsonAscii.dumps_strings_printable.
Qed.


End SavedFields.

(** ** The candidate directories and the client's methods *)

Lemma lstrip_slash_stop (s : str) (c : N) :
  head s = Some c → c ≠ SLASH → lstrip_slash s = s.
Proof.
  destruct s as [|c' s]; [done|]. intros [= ->] Hc. cbn [lstrip_slash].
  by destruct (N.eqb_spec c SLASH).
Qed.

Lemma existsb_slash (l : str) : existsb (N.eqb SLASH) l = true ↔ SLASH ∈ l.
Proof.
  rewrite existsb_exists. split.
  - by intros (x & Hx%list_elem_of_In & ->%N.eqb_eq).
  - intros Hl. exists SLASH. split; [by apply list_elem_of_In|apply N.eqb_refl].
Qed.

Lemma upto_last_slash_none (l : str) : SLASH ∉ l → upto_last_slash l = [].
Proof.
  intros Hl. destruct l as [|c l]; [done|]. cbn [upto_last_slash].
  destruct (existsb _ _) eqn:He; [|done]. by apply existsb_slash in He.
Qed.

Lemma upto_last_slash_app (a b : str) :
  SLASH ∉ b → upto_last_slash (a ++ SLASH :: b) = a ++ [SLASH].
Proof.
  intros Hb.
  assert (∀ a, existsb (N.eqb SLASH) (a ++ SLASH :: b) = true) as Hin.
  { intros a'. apply existsb_slash, elem_of_app. right. by left. }
  induction a as [|c a IH].
  - specialize (Hin []). cbn [app] in Hin |- *. cbn [upto_last_slash].
    by rewrite Hin, upto_last_slash_none.
  - specialize (Hin (c :: a)). cbn [app] in Hin |- *. cbn [upto_last_slash].
    by rewrite Hin, IH.
Qed.

Lemma dirname_path_join (dir file : str) (c : N) :
  last dir = Some c → c ≠ SLASH → SLASH ∉ file →
  dirname (path_join dir file) = dir.
Proof.
  intros Hlast Hc Hfile.
  assert (path_join dir file = dir ++ SLASH :: file) as ->.
  { unfold path_join. rewrite Hlast.
    destruct file as [|c' file].
    - cbn. by destruct (N.eqb_spec c SLASH).
    - cbn [startswith]. apply not_elem_of_cons in Hfile as [Hne _].
      destruct (N.eqb_spec c' SLASH); [done|]. cbn [andb].
      by destruct (N.eqb_spec c SLASH). }
  unfold dirname. cbv zeta. rewrite upto_last_slash_app by done.
  assert (rstrip_slash (dir ++ [SLASH]) = dir) as Hr.
  { unfold rstrip_slash. rewrite reverse_app. cbn [reverse rev_append app lstrip_slash].
    rewrite N.eqb_refl.
    rewrite (lstrip_slash_stop (reverse dir) c); [apply reverse_involutive| |done].
    by rewrite head_reverse. }
  destruct (lstrip_slash (dir ++ [SLASH])) eqn:Hl; [|done].
  exfalso. clear Hr. induction dir as [|c' dir IH]; [done|].
  cbn [app lstrip_slash] in Hl. destruct (N.eqb_spec c' SLASH) as [->|]; [|done].
  destruct dir as [|c'' dir']; [by injection Hlast as <-|]. by apply IH.
Qed.

(** X29.  For a database file named [file] in the directory
    [dir] (written without a trailing slash), the candidate
    directories of a backup are [/data/backups], then [dir/backups],
    then [./backups]. *)
Theorem backup_directory_beside_database (dir file : str) (c : N) :
  last dir = Some c → c ≠ SLASH → SLASH ∉ file →
  backup_dirs (mk (path_join dir file))
  = [py "/data/backups"; dir ++ py "/backups"; py "./backups"].
Proof.
  intros Hlast Hc Hfile. unfold backup_dirs. cbn [db_path].
  rewrite (dirname_path_join dir file c) by done.
  unfold path_join.
  assert (startswith (py "backups") [SLASH] = false) as -> by reflexivity.
  rewrite Hlast. by destruct (N.eqb_spec c SLASH).
Qed.

(** X30.  A request of the client with a method other than
    [GET], [POST] and [PUT] (the names are case-sensitive) returns the
    error envelope that names the method, whatever the network would
    answer: nothing is sent. *)
Theorem unsupported_method_is_reported (self : Client.DatabaseClient)
    (send : Client.transport) (method endpoint : str) (data params : option pyval) :
  method ∉ [py "GET"; py "POST"; py "PUT"] →
  Client._make_request self send method endpoint data params
  = Ok (Client.error_envelope (py "Unsupported HTTP method: " ++ method)).
Proof.
  intros Hm. unfold Client._make_request, Client.dispatch. cbv zeta.
  destruct (str_eqb method (py "GET")) eqn:H1.
  { apply str_eqb_eq in H1 as ->. destruct Hm. by left. }
  destruct (str_eqb method (py "POST")) eqn:H2.
  { apply str_eqb_eq in H2 as ->. destruct Hm. right. by left. }
  destruct (str_eqb method (py "PUT")) eqn:H3.
  { apply str_eqb_eq in H3 as ->. destruct Hm. do 2 right. by left. }
  cbn [mbind result_bind]. by destruct (is_RequestException _).
Qed.


Lemma stored_countries_are_ascii_witness :
  let body := [(py "profile_id", PStr (py "p1")); (py "user_id", PStr (py "u1"));
               (py "user_role", PStr (py "student"));
               (py "countries", PList (PStr <$> [[26085; 26412]; [233]]))] in
  let r := App.save_user_profile Example.as_bound Example.fresh (PDict body)
             (Example.noon 1) (Example.noon 1) (Example.noon 2) in
  ∃ new text,
    last (rows (user_profiles (tables r.2))) = Some new
    ∧ new !!! 14%fin = SText text
    ∧ Forall printable text.
Proof.
  intros body.
  apply (stored_countries_are_ascii Example.as_bound Example.fresh body (py "p1")
           [[26085; 26412]; [233]] (Example.noon 1) (Example.noon 1) (Example.noon 2)).
  - reflexivity.
  - reflexivity.
  - intros k v _ Hne. unfold body. cbn [assoc].
    destruct (str_eqb k (py "profile_id")); [intros [= <-]; bindable_value|].
    destruct (str_eqb k (py "user_id")); [intros [= <-]; bindable_value|].
    destruct (str_eqb k (py "user_role")); [intros [= <-]; bindable_value|].
    destruct (str_eqb k (py "countries")) eqn:Hk; [by apply str_eqb_eq in Hk|].
    discriminate.
  - vm_compute. reflexivity.
Defined.


Lemma backup_directory_beside_database_witness :
  backup_dirs (mk (path_join (py "/tmp") (py "ai_study_advisor.db")))
  = [py "/data/backups"; py "/tmp/backups"; py "./backups"].
Proof.
  apply (backup_directory_beside_database (py "/tmp") (py "ai_study_advisor.db") 112).
  - reflexivity.
  - discriminate.
  - apply (bool_decide_unpack _). by vm_compute.
Defined.

Lemma unsupported_method_is_reported_witness :
  Client._make_request (Client.mk_client (py "http://localhost:5000"))
    (λ _ _ _ _, Ok (Client.mk_http_response 200 (py "{}")))
    (py "DELETE") (py "/api/users/u1") None None
  = Ok (Client.error_envelope (py "Unsupported HTTP method: DELETE")).
Proof.
  apply (unsupported_method_is_reported (Client.mk_client (py "http://localhost:5000"))
           _ (py "DELETE")).
  apply (bool_decide_unpack _). by vm_compute.
Defined.
